(** * elastic-package: the pipeline test runner and its xUnit reporters

    A shallow embedding of

    - [internal/testrunner/reporters/formats/xunit.go] (module [formats]),
    - the earlier reporter [ReportXUnit] of package [reporters]
      (module [reporters]),
    - the pipeline test runner of package [pipeline] (module [pipeline]),

    together with the properties of the test-runner specification that
    concern them.

    Go strings are byte sequences, so they are [string]s here (lists of
    8-bit [ascii]).  Go's [int] and [time.Duration] are [Z]; every counter
    below is bounded by the length of a slice, so no 64-bit wrap-around can
    occur and none is written.  A Go [map] is a [gmap]; a [range] over a
    map visits its entries in an order the language leaves open, which is
    modelled by [go_range]. *)

From Stdlib Require Import ZArith String Ascii.
From stdpp Require Import gmap strings list fin_maps pretty.

#[local] Set Warnings "-clear-no-such-hyp".

Open Scope string_scope.
Open Scope Z_scope.

(** ** Go's [strings] and [fmt] on byte strings *)

Module strings.

(** [strings.HasSuffix]:
    [len(s) >= len(suffix) && s[len(s)-len(suffix):] == suffix]. *)
Definition HasSuffix (s suffix : string) : bool :=
  (String.length suffix <=? String.length s)%nat
  && String.eqb
       (substring (String.length s - String.length suffix)
                  (String.length suffix) s)
       suffix.

(** [strings.HasPrefix]. *)
Definition HasPrefix (s pre : string) : bool := String.prefix pre s.

(** [strings.Contains]: some suffix of [s] starts with [sub]. *)
Fixpoint Contains (s sub : string) : bool :=
  HasPrefix s sub
  || match s with
     | EmptyString => false
     | String _ r => Contains r sub
     end.

(** The last byte of a string, [s[len(s)-1]], when there is one. *)
Fixpoint last_byte (s : string) : option ascii :=
  match s with
  | EmptyString => None
  | String c EmptyString => Some c
  | String _ r => last_byte r
  end.

End strings.

(** The double quote, which the string notation cannot hold directly. *)
Definition dq : string := String "034"%char EmptyString.
Definition nl : string := String "010"%char EmptyString.

(** ** Errors

    Go errors are compared by identity against the sentinel
    [errTestCaseFailed]; [errors.New] and [fmt.Errorf] allocate a fresh
    value, which is never the sentinel.  [errors.Wrap] keeps the cause and
    prefixes its message. *)

Inductive error : Type :=
| errTestCaseFailed                      (* the sentinel of package pipeline *)
| errorsNew (msg : string)               (* errors.New, fmt.Errorf *)
| errorsWrap (cause : error) (msg : string) (* errors.Wrap, errors.Wrapf *)
| errExternal (msg : string).            (* an error from the OS or from Elasticsearch *)

(** Modelled from the spec: the text of the sentinel [errTestCaseFailed] is
    declared in a file of package [pipeline] that is not at hand; the spec
    only says that a mismatch marks the result with a failure message. *)
Definition errTestCaseFailed_text : string := "test case failed".

(** [err.Error()]. *)
Fixpoint Error (e : error) : string :=
  match e with
  | errTestCaseFailed => errTestCaseFailed_text
  | errorsNew m => m
  | errorsWrap c m => m +:+ ": " +:+ Error c
  | errExternal m => m
  end.

(** [err == errTestCaseFailed]. *)
Definition is_errTestCaseFailed (e : error) : bool :=
  match e with errTestCaseFailed => true | _ => false end.

(** ** [range] over a Go map

    The iteration order of a map is not specified and differs from one
    [range] statement to the next: any enumeration of the entries, each
    exactly once, is a possible order. *)
Definition go_range {A} (m : gmap string A) (order : list (string * A)) : Prop :=
  order ≡ₚ map_to_list m.

(** ** [testrunner.TestResult] *)

Module testrunner.

(** Modelled from the spec: the declaration of [TestResult] (package
    [testrunner]) is not at hand; its fields are those the spec lists and
    the three source files use.  [xunit.go] calls the duration
    [TimeElapsed]; the runner and the earlier reporter were written
    against the revision where the same field is called [TimeTaken]. *)
Record TestResult : Type := mkTestResult {
  TestType : string;
  Package : string;
  DataStream : string;
  Name : string;
  TimeElapsed : Z;
  ErrorMsg : string;
  FailureMsg : string;
  FailureDetails : string
}.

Definition TimeTaken (r : TestResult) : Z := TimeElapsed r.

Definition set_Name (v : string) (r : TestResult) : TestResult :=
  mkTestResult (TestType r) (Package r) (DataStream r) v (TimeElapsed r)
               (ErrorMsg r) (FailureMsg r) (FailureDetails r).
Definition set_TimeTaken (v : Z) (r : TestResult) : TestResult :=
  mkTestResult (TestType r) (Package r) (DataStream r) (Name r) v
               (ErrorMsg r) (FailureMsg r) (FailureDetails r).
Definition set_ErrorMsg (v : string) (r : TestResult) : TestResult :=
  mkTestResult (TestType r) (Package r) (DataStream r) (Name r) (TimeElapsed r)
               v (FailureMsg r) (FailureDetails r).
Definition set_FailureMsg (v : string) (r : TestResult) : TestResult :=
  mkTestResult (TestType r) (Package r) (DataStream r) (Name r) (TimeElapsed r)
               (ErrorMsg r) v (FailureDetails r).

End testrunner.

(** ** Go's [unicode/utf8] and [encoding/xml] (Go 1.14, as pinned by go.mod)

    The reporters hand their suite tree to [xml.MarshalIndent].  The encoder
    is driven by the struct tags; its output for a value is described here
    by the items the tags select ([xmlItem]) and the printer that writes
    them, with the printer's indentation state as in [encoding/xml]. *)

Module utf8.

Definition RuneError : Z := 65533.   (* U+FFFD *)

Definition byteZ (c : ascii) : Z := Z.of_nat (nat_of_ascii c).

(** Is [b] a continuation byte within [lo, hi]? *)
Definition cont (lo hi b : Z) : bool := (lo <=? b) && (b <=? hi).

(** [utf8.DecodeRuneInString]: the rune at the start of [s] and its width
    in bytes; an invalid or short encoding is [(RuneError, 1)]. *)
Definition DecodeRuneInString (s : string) : Z * nat :=
  match s with
  | EmptyString => (RuneError, 0%nat)
  | String c0 r0 =>
    let b0 := byteZ c0 in
    if b0 <? 128 then (b0, 1%nat)
    else if (b0 <? 194) || (244 <? b0) then (RuneError, 1%nat)
    else
      (* size and accepted range of the second byte, from the first *)
      let sz : nat :=
        if b0 <? 224 then 2%nat else if b0 <? 240 then 3%nat else 4%nat in
      let lo := if b0 =? 224 then 160 else if b0 =? 240 then 144 else 128 in
      let hi := if b0 =? 237 then 159 else if b0 =? 244 then 143 else 191 in
      match r0 with
      | EmptyString => (RuneError, 1%nat)
      | String c1 r1 =>
        let b1 := byteZ c1 in
        if negb (cont lo hi b1) then (RuneError, 1%nat)
        else if (sz <=? 2)%nat then
          (Z.lor (Z.shiftl (Z.land b0 31) 6) (Z.land b1 63), 2%nat)
        else
          match r1 with
          | EmptyString => (RuneError, 1%nat)
          | String c2 r2 =>
            let b2 := byteZ c2 in
            if negb (cont 128 191 b2) then (RuneError, 1%nat)
            else if (sz <=? 3)%nat then
              (Z.lor (Z.lor (Z.shiftl (Z.land b0 15) 12)
                            (Z.shiftl (Z.land b1 63) 6))
                     (Z.land b2 63), 3%nat)
            else
              match r2 with
              | EmptyString => (RuneError, 1%nat)
              | String c3 _ =>
                let b3 := byteZ c3 in
                if negb (cont 128 191 b3) then (RuneError, 1%nat)
                else
                  (Z.lor (Z.lor (Z.lor (Z.shiftl (Z.land b0 7) 18)
                                       (Z.shiftl (Z.land b1 63) 12))
                                (Z.shiftl (Z.land b2 63) 6))
                         (Z.land b3 63), 4%nat)
              end
          end
      end
  end.

End utf8.

Module xml.

(** [xml.Header]. *)
Definition Header : string :=
  "<?xml version=" +:+ dq +:+ "1.0" +:+ dq +:+ " encoding=" +:+ dq
  +:+ "UTF-8" +:+ dq +:+ "?>" +:+ nl.

(** [isInCharacterRange]. *)
Definition isInCharacterRange (r : Z) : bool :=
  (r =? 9) || (r =? 10) || (r =? 13)
  || ((32 <=? r) && (r <=? 55295))
  || ((57344 <=? r) && (r <=? 65533))
  || ((65536 <=? r) && (r <=? 1114111)).

Definition escFFFD : string :=
  String "239"%char (String "191"%char (String "189"%char EmptyString)).

(** The replacement [EscapeString] writes for one rune, if any. *)
Definition escape_of (r : Z) (width : nat) : option string :=
  if r =? 34 then Some "&#34;"
  else if r =? 39 then Some "&#39;"
  else if r =? 38 then Some "&amp;"
  else if r =? 60 then Some "&lt;"
  else if r =? 62 then Some "&gt;"
  else if r =? 9 then Some "&#x9;"
  else if r =? 10 then Some "&#xA;"
  else if r =? 13 then Some "&#xD;"
  else if negb (isInCharacterRange r) || ((r =? utf8.RuneError) && (width =? 1)%nat)
       then Some escFFFD
  else None.

Fixpoint take_s (n : nat) (s : string) : string :=
  match n, s with
  | S n', String c r => String c (take_s n' r)
  | _, _ => EmptyString
  end.
Fixpoint drop_s (n : nat) (s : string) : string :=
  match n, s with
  | S n', String _ r => drop_s n' r
  | _, _ => s
  end.

(** [printer.EscapeString]: rune by rune; [fuel] bounds the number of
    runes and is the byte length of the input. *)
Fixpoint escape_runes (fuel : nat) (s : string) : string :=
  match fuel with
  | O => EmptyString
  | S fuel' =>
    match s with
    | EmptyString => EmptyString
    | _ =>
      let '(r, width) := utf8.DecodeRuneInString s in
      match escape_of r width with
      | Some esc => esc
      | None => take_s width s
      end +:+ escape_runes fuel' (drop_s width s)
    end
  end.
Definition EscapeString (s : string) : string :=
  escape_runes (String.length s) s.

(** [strconv.FormatInt(v, 10)], used for integer attributes. *)
Definition FormatInt (v : Z) : string := pretty v.

(** What the struct tags select for one value: a comment field, the
    character data of a simple value, or an element with its attributes
    and its content. *)
#[local] Unset Elimination Schemes.
Inductive xmlItem : Type :=
| XComment (s : string)
| XText (s : string)
| XElement (name : string) (attrs : list (string * string)) (items : list xmlItem).
#[local] Set Elimination Schemes.

(** The state of [printer] that matters for the output. *)
Record printer : Type := mkPrinter {
  buf : string;
  depth : nat;
  indentedIn : bool;
  putNewline : bool
}.

Definition WriteString (s : string) (p : printer) : printer :=
  mkPrinter (buf p +:+ s) (depth p) (indentedIn p) (putNewline p).

Fixpoint repeat_s (n : nat) (s : string) : string :=
  match n with O => EmptyString | S n' => s +:+ repeat_s n' s end.

Section Indent.
Variables prefix indent : string.

(** [printer.writeIndent]; [delta] is [1], [0] or [-1]. *)
Definition writeIndent (delta : Z) (p : printer) : printer :=
  if ((String.length prefix =? 0) && (String.length indent =? 0))%nat then p
  else
    let d := if delta <? 0 then pred (depth p) else depth p in
    if (delta <? 0) && indentedIn p then
      mkPrinter (buf p) d false (putNewline p)
    else
      let ind := if delta <? 0 then false else indentedIn p in
      let b := (if putNewline p then buf p +:+ nl else buf p)
               +:+ prefix +:+ repeat_s d indent in
      if 0 <? delta then mkPrinter b (S d) true true
      else mkPrinter b d ind true.

Definition writeAttr (p : printer) (a : string * string) : printer :=
  WriteString (" " +:+ a.1 +:+ "=" +:+ dq +:+ EscapeString a.2 +:+ dq) p.

(** [printer.writeStart]. *)
Definition writeStart (name : string) (attrs : list (string * string))
           (p : printer) : printer :=
  let p := WriteString ("<" +:+ name) (writeIndent 1 p) in
  WriteString ">" (fold_left writeAttr attrs p).

(** [printer.writeEnd]. *)
Definition writeEnd (name : string) (p : printer) : printer :=
  WriteString ("</" +:+ name +:+ ">") (writeIndent (-1) p).

(** The comment case of [marshalStruct]. *)
Definition writeComment (s : string) (p : printer) : error + printer :=
  if (String.length s =? 0)%nat then inr p
  else
    let p := WriteString "<!--" (writeIndent 0 p) in
    if strings.Contains s "--" then
      inl (errorsNew ("xml: comments must not contain " +:+ dq +:+ "--" +:+ dq))
    else
      let p := WriteString s p in
      let p := match strings.last_byte s with
               | Some "-"%char => WriteString " " p
               | _ => p
               end in
      inr (WriteString "-->" p).

(** [marshalValue] and [marshalStruct] on the selected items. *)
Fixpoint marshalItem (it : xmlItem) (p : printer) : error + printer :=
  match it with
  | XComment s => writeComment s p
  | XText s => inr (WriteString (EscapeString s) p)
  | XElement name attrs items =>
    let fix marshalItems (its : list xmlItem) (p : printer) : error + printer :=
      match its with
      | [] => inr p
      | i :: rest =>
        match marshalItem i p with
        | inl e => inl e
        | inr p' => marshalItems rest p'
        end
      end in
    match marshalItems items (writeStart name attrs p) with
    | inl e => inl e
    | inr p' => inr (writeEnd name p')
    end
  end.

(** [xml.MarshalIndent] of a value whose encoding is [it]. *)
Definition MarshalIndent (it : xmlItem) : error + string :=
  match marshalItem it (mkPrinter EmptyString 0 false false) with
  | inl e => inl e
  | inr p => inr (buf p)
  end.
End Indent.

End xml.

(** ** [internal/testrunner/reporters/formats/xunit.go] *)

Module formats.
Import testrunner.

Definition ReportFormatXUnit : string := "xUnit".

Module testCase.
Record t : Type := mk {
  Name : string;        (* xml:"name,attr" *)
  ClassName : string;   (* the tag lacks its closing quote: no xml key *)
  Time : Z;             (* xml:"time,attr" *)
  Error : string;       (* xml:"error,omitempty" *)
  Failure : string      (* xml:"failure,omitempty" *)
}.
End testCase.

Module testSuite.
#[local] Unset Elimination Schemes.
Inductive t : Type := mk {
  Comment : string;     (* xml:",comment" *)
  Name : string;        (* xml:"name,attr" *)
  NumTests : Z;         (* xml:"tests,attr,omitempty" *)
  NumFailures : Z;      (* xml:"failures,attr,omitempty" *)
  NumErrors : Z;        (* xml:"errors,attr,omitempty" *)
  Suites : list t;      (* xml:"testsuite,omitempty" *)
  Cases : list testCase.t  (* xml:"testcase,omitempty" *)
}.
#[local] Set Elimination Schemes.
End testSuite.

Module testSuites.
Record t : Type := mk {
  Suites : list testSuite.t   (* xml:"testsuite", under XMLName testsuites *)
}.
End testSuites.

(** test type => package => data stream => test cases *)
Abbreviation cases_by_ds := (gmap string (list testCase.t)).
Abbreviation cases_by_pkg := (gmap string (gmap string (list testCase.t))).
Abbreviation cases_by_type := (gmap string (gmap string (gmap string (list testCase.t)))).

(** The state of the first loop of [reportXUnitFormat]. *)
Record counters : Type := mkCounters {
  tests : cases_by_type;
  numTests : Z;
  numFailures : Z;
  numErrors : Z
}.

(** [tests[testType][pkg] = v]: the inner map is a reference, the
    assignment updates it in place. *)
Definition assign2 (tests : cases_by_type) (testType pkg : string)
           (v : cases_by_ds) : cases_by_type :=
  <[testType := <[pkg := v]> (tests !!! testType)]> tests.

(** [tests[testType][pkg][ds] = v]. *)
Definition assign3 (tests : cases_by_type) (testType pkg ds : string)
           (v : list testCase.t) : cases_by_type :=
  assign2 tests testType pkg (<[ds := v]> ((tests !!! testType) !!! pkg)).

(** One iteration of [for _, r := range results]. *)
Definition add_result (st : counters) (r : TestResult) : counters :=
  let testType := TestType r in
  let tests := tests st in
  let tests :=
    match tests !! testType with
    | Some _ => tests
    | None => <[testType := ∅]> tests
    end in
  let tests :=
    match (tests !!! testType) !! Package r with
    | Some _ => tests
    | None => assign2 tests testType (Package r) ∅
    end in
  let tests :=
    match ((tests !!! testType) !!! Package r) !! DataStream r with
    | Some _ => tests
    | None => assign3 tests testType (Package r) (DataStream r) []
    end in
  let failure := "" in
  let '(failure, numFailures) :=
    if negb (String.eqb (FailureMsg r) "")
    then (FailureMsg r, numFailures st + 1)
    else (failure, numFailures st) in
  let failure :=
    if negb (String.eqb (FailureDetails r) "")
    then failure +:+ ": " +:+ FailureDetails r
    else failure in
  let numErrors :=
    if negb (String.eqb (ErrorMsg r) "")
    then numErrors st + 1
    else numErrors st in
  let c := testCase.mk (Name r) "" (TimeElapsed r) (ErrorMsg r) failure in
  let numTests := numTests st + 1 in
  let tests :=
    assign3 tests testType (Package r) (DataStream r)
            ((((tests !!! testType) !!! Package r) !!! DataStream r) ++ [c]) in
  mkCounters tests numTests numFailures numErrors.

Definition group_results (results : list TestResult) : counters :=
  fold_left add_result results (mkCounters ∅ 0 0 0).

(** The body of [for dsName, ds := range pkg]. *)
Definition dsSuite (kv : string * list testCase.t) : testSuite.t :=
  testSuite.mk ("test suite for data stream: " +:+ kv.1) kv.1 0 0 0 [] kv.2.

(** The package suite, once the order of [range pkg] is fixed. *)
Definition pkgSuite (pkgName : string)
           (order : list (string * list testCase.t)) : testSuite.t :=
  testSuite.mk ("test suite for package: " +:+ pkgName) pkgName 0 0 0
               (map dsSuite order) [].

(** The test-type suite, once the package suites are built. *)
Definition testTypeSuite (st : counters) (testType : string)
           (suites : list testSuite.t) : testSuite.t :=
  testSuite.mk ("test suite for " +:+ testType +:+ " tests") testType
               (numTests st) (numFailures st) (numErrors st) suites [].

(** [for pkgName, pkg := range packages]: any order of the entries. *)
Definition pkgSuite_of (kv : string * cases_by_ds) (s : testSuite.t) : Prop :=
  ∃ order, go_range kv.2 order ∧ s = pkgSuite kv.1 order.

(** [for testType, packages := range tests]. *)
Definition testTypeSuite_of (st : counters) (kv : string * cases_by_pkg)
           (s : testSuite.t) : Prop :=
  ∃ order suites, go_range kv.2 order ∧ Forall2 pkgSuite_of order suites
                  ∧ s = testTypeSuite st kv.1 suites.

(** The suite tree [ts] that reaches [xml.MarshalIndent]. *)
Definition suite_tree (results : list TestResult) (ts : testSuites.t) : Prop :=
  let st := group_results results in
  ∃ order suites, go_range (tests st) order
                  ∧ Forall2 (testTypeSuite_of st) order suites
                  ∧ ts = testSuites.mk suites.

(** The tree when every [range] visits the entries in the order [pick]
    makes of the listing of the map. *)
Definition suite_tree_by (pick : ∀ A, list (string * A) → list (string * A))
           (results : list TestResult) : testSuites.t :=
  let st := group_results results in
  testSuites.mk
    (map (λ kv : string * cases_by_pkg,
            testTypeSuite st kv.1
              (map (λ kv' : string * cases_by_ds,
                      pkgSuite kv'.1 (pick _ (map_to_list kv'.2)))
                   (pick _ (map_to_list kv.2))))
         (pick _ (map_to_list (tests st)))).

(** The tree for the order in which [map_to_list] lists the entries. *)
Definition suite_tree_listed (results : list TestResult) : testSuites.t :=
  suite_tree_by (λ _ l, l) results.

(** *** The encoding the struct tags select *)

Definition omitempty_int (name : string) (v : Z) : list (string * string) :=
  if v =? 0 then [] else [(name, xml.FormatInt v)].

Definition omitempty_string (name : string) (v : string) : list xml.xmlItem :=
  if (String.length v =? 0)%nat then [] else [xml.XElement name [] [xml.XText v]].

Definition xml_of_testCase (c : testCase.t) : xml.xmlItem :=
  xml.XElement "testcase"
    [("name", testCase.Name c); ("time", xml.FormatInt (testCase.Time c))]
    ([xml.XElement "ClassName" [] [xml.XText (testCase.ClassName c)]]
     ++ omitempty_string "error" (testCase.Error c)
     ++ omitempty_string "failure" (testCase.Failure c)).

Fixpoint xml_of_testSuite (s : testSuite.t) : xml.xmlItem :=
  xml.XElement "testsuite"
    ([("name", testSuite.Name s)]
     ++ omitempty_int "tests" (testSuite.NumTests s)
     ++ omitempty_int "failures" (testSuite.NumFailures s)
     ++ omitempty_int "errors" (testSuite.NumErrors s))
    ([xml.XComment (testSuite.Comment s)]
     ++ map xml_of_testSuite (testSuite.Suites s)
     ++ map xml_of_testCase (testSuite.Cases s)).

Definition xml_of_testSuites (ts : testSuites.t) : xml.xmlItem :=
  xml.XElement "testsuites" [] (map xml_of_testSuite (testSuites.Suites ts)).

(** The last statements of [reportXUnitFormat], from the tree on. *)
Definition format_tree (ts : testSuites.t) : string * option error :=
  match xml.MarshalIndent "" "  " (xml_of_testSuites ts) with
  | inl err => ("", Some (errorsWrap err "unable to format test results as xUnit"))
  | inr out => (xml.Header +:+ out, None)
  end.

(** [reportXUnitFormat results] may return [out]. *)
Definition reportXUnitFormat (results : list TestResult)
           (out : string * option error) : Prop :=
  ∃ ts, suite_tree results ts ∧ out = format_tree ts.

(** The output for the listed order, for evaluation. *)
Definition reportXUnitFormat_listed (results : list TestResult)
  : string * option error :=
  format_tree (suite_tree_listed results).

End formats.

(** ** The earlier reporter, package [reporters] ([ReportXUnit]) *)

Module reporters.
Import testrunner.

Definition XUnitReporter : string := "xUnit".

Module testCase.
Record t : Type := mk {
  Name : string;      (* xml:"Name,attr" *)
  Time : Z;           (* xml:"Time,attr" *)
  Error : string;     (* xml:"Error,omitempty" *)
  Failure : string    (* xml:"Failure,omitempty" *)
}.
(** The zero value of the struct. *)
Definition zero : t := mk "" 0 "" "".
End testCase.

Module testSuite.
#[local] Unset Elimination Schemes.
Inductive t : Type := mk {
  Suites : list t;           (* xml:"testsuite,omitempty" *)
  Cases : list testCase.t    (* xml:"testcase,omitempty" *)
}.
#[local] Set Elimination Schemes.
Definition zero : t := mk [] [].
End testSuite.

Module testSuites.
Record t : Type := mk {
  Suites : list testSuite.t  (* xml:"testsuite", under XMLName testsuites *)
}.
End testSuites.

(** [make([]T, n)]: [n] zero values. *)
Definition make {T} (zero : T) (n : Z) : list T := replicate (Z.to_nat n) zero.

(** package => data stream => test cases *)
Abbreviation cases_by_ds := (gmap string (list testCase.t)).
Abbreviation cases_by_pkg := (gmap string (gmap string (list testCase.t))).

Record grouping : Type := mkGrouping {
  packages : cases_by_pkg;
  numPackages : Z
}.

(** [packages[pkg][ds] = v]: the inner map is updated in place. *)
Definition assign2 (packages : cases_by_pkg) (pkg ds : string)
           (v : list testCase.t) : cases_by_pkg :=
  <[pkg := <[ds := v]> (packages !!! pkg)]> packages.

Definition case_of (r : TestResult) : testCase.t :=
  testCase.mk (Name r) (TimeTaken r) (ErrorMsg r) (FailureMsg r).

(** One iteration of [for _, r := range results]. *)
Definition add_result (st : grouping) (r : TestResult) : grouping :=
  let '(packages, numPackages) :=
    match packages st !! Package r with
    | Some _ => (packages st, numPackages st)
    | None => (<[Package r := ∅]> (packages st), numPackages st + 1)
    end in
  let packages :=
    match (packages !!! Package r) !! DataStream r with
    | Some _ => packages
    | None => assign2 packages (Package r) (DataStream r) (make testCase.zero 1)
    end in
  let c := case_of r in
  let packages :=
    assign2 packages (Package r) (DataStream r)
            (((packages !!! Package r) !!! DataStream r) ++ [c]) in
  mkGrouping packages numPackages.

Definition group_results (results : list TestResult) : grouping :=
  fold_left add_result results (mkGrouping ∅ 0).

(** The body of [for _, ds := range pkg]. *)
Definition dsSuite (kv : string * list testCase.t) : testSuite.t :=
  testSuite.mk [] kv.2.

(** The package suite, once the order of [range pkg] is fixed. *)
Definition pkgSuite (order : list (string * list testCase.t)) : testSuite.t :=
  testSuite.mk (make testSuite.zero 1 ++ map dsSuite order) [].

(** [for _, pkg := range packages]: any order of the entries. *)
Definition pkgSuite_of (kv : string * cases_by_ds) (s : testSuite.t) : Prop :=
  ∃ order, go_range kv.2 order ∧ s = pkgSuite order.

(** The suite tree [ts] that reaches [xml.MarshalIndent]. *)
Definition suite_tree (results : list TestResult) (ts : testSuites.t) : Prop :=
  let st := group_results results in
  ∃ order suites, go_range (packages st) order
                  ∧ Forall2 pkgSuite_of order suites
                  ∧ ts = testSuites.mk (make testSuite.zero (numPackages st) ++ suites).

(** The tree for the order in which [map_to_list] lists the entries. *)
Definition suite_tree_listed (results : list TestResult) : testSuites.t :=
  let st := group_results results in
  testSuites.mk
    (make testSuite.zero (numPackages st)
     ++ map (λ kv : string * cases_by_ds, pkgSuite (map_to_list kv.2))
            (map_to_list (packages st))).

Definition omitempty_string (name : string) (v : string) : list xml.xmlItem :=
  if (String.length v =? 0)%nat then [] else [xml.XElement name [] [xml.XText v]].

Definition xml_of_testCase (c : testCase.t) : xml.xmlItem :=
  xml.XElement "testcase"
    [("Name", testCase.Name c); ("Time", xml.FormatInt (testCase.Time c))]
    (omitempty_string "Error" (testCase.Error c)
     ++ omitempty_string "Failure" (testCase.Failure c)).

Fixpoint xml_of_testSuite (s : testSuite.t) : xml.xmlItem :=
  xml.XElement "testsuite" []
    (map xml_of_testSuite (testSuite.Suites s)
     ++ map xml_of_testCase (testSuite.Cases s)).

Definition xml_of_testSuites (ts : testSuites.t) : xml.xmlItem :=
  xml.XElement "testsuites" [] (map xml_of_testSuite (testSuites.Suites ts)).

Definition format_tree (ts : testSuites.t) : string * option error :=
  match xml.MarshalIndent "" "  " (xml_of_testSuites ts) with
  | inl err => ("", Some (errorsWrap err "unable to format test results as xUnit"))
  | inr out => (xml.Header +:+ out, None)
  end.

(** [ReportXUnit results] may return [out]. *)
Definition ReportXUnit (results : list TestResult)
           (out : string * option error) : Prop :=
  ∃ ts, suite_tree results ts ∧ out = format_tree ts.

Definition ReportXUnit_listed (results : list TestResult)
  : string * option error :=
  format_tree (suite_tree_listed results).

End reporters.

(** ** Go's [path/filepath] and [time], as far as the runner uses them *)

Module filepath.

(** The loop of [filepath.Ext]: [i] runs from the last byte down, stops
    at a path separator and returns [path[i:]] at the first dot. *)
Fixpoint scan_ext (reversed : list ascii) (tail : string) : string :=
  match reversed with
  | [] => ""
  | c :: r =>
    if Ascii.eqb c "/" then ""
    else if Ascii.eqb c "." then String c tail
    else scan_ext r (String c tail)
  end.

Definition Ext (path : string) : string :=
  scan_ext (rev (list_ascii_of_string path)) "".

End filepath.

Module time.

Definition minDuration : Z := - 2 ^ 63.
Definition maxDuration : Z := 2 ^ 63 - 1.

(** [t.Sub(u)] on instants counted in nanoseconds: the difference,
    saturated to the range of [Duration]. *)
Definition Sub (t u : Z) : Z :=
  Z.max minDuration (Z.min maxDuration (t - u)).

End time.

(** ** The pipeline test runner, package [pipeline] *)

Module pipeline.

(** [TestType]: the constant defining pipeline tests. *)
Definition TestType : string := "pipeline".

Record TestFolder : Type := mkTestFolder {
  Path : string;
  Package : string;
  DataStream : string
}.

(** What [ioutil.ReadDir] lists for one directory entry. *)
Record FileInfo : Type := mkFileInfo {
  Name : string;
  IsDir : bool
}.

(** The calls the runner makes to the outside, in the order made. *)
Inductive event : Type :=
| EvReadDir (path : string)
| EvFindDataStreamRoot (path : string)
| EvInstall (dataStreamPath : string) (entryPipeline : string)
            (pipelineIDs : list string) (failed : bool)
| EvUninstall (pipelineIDs : list string) (failed : bool)
| EvNow
| EvReadFile (path : string)
| EvReadConfig (path : string)
| EvSimulate (entryPipeline : string) (testCaseName : string)
| EvWriteTestResult (path : string) (failed : bool)
| EvCompareResults (path : string)
| EvWarnf (msg : string)
| EvPrintf (msg : string).

(** The collaborators of the runner: functions of the package, of other
    packages and of the Go library whose code is not at hand.  Each one
    that touches the file system, Elasticsearch or the clock takes the
    state [W] of that outside world and returns the new one. *)
Record Env : Type := mkEnv {
  W : Type;
  Client : Type;                      (* *elasticsearch.Client *)
  testCase : Type;                    (* the runner's testCase struct *)
  name : testCase → string;           (* its field [name] *)
  testResult : Type;                  (* the runner's testResult struct *)
  config : Type;                      (* what readConfigForTestCase returns *)
  expectedTestResultSuffix : string;
  configTestSuffix : string;
  Join : string → string → string;    (* filepath.Join *)
  ReadDir : string → W → (list FileInfo * option error) * W;
  ReadFile : string → W → (string * option error) * W;
  Now : W → Z * W;
  FindDataStreamRootForPath : string → W → (string * bool * option error) * W;
  installIngestPipelines :
    Client → string → W → (string * list string * option error) * W;
  uninstallIngestPipelines : Client → list string → W → option error * W;
  createTestCaseForEvents : string → string → error + testCase;
  readConfigForTestCase : string → W → (error + config) * W;
  createTestCaseForRawInput : string → string → config → error + testCase;
  simulatePipelineProcessing :
    Client → string → testCase → W → (error + testResult) * W;
  writeTestResult : string → testResult → W → option error * W;
  compareResults : string → testResult → W → option error * W
}.

Section Runner.
Context (E : Env).

Record TestOptions : Type := mkTestOptions {
  TestFolder_ : TestFolder;
  ESClient : Client E;
  GenerateTestResult : bool
}.

(** The outside world and the log of the calls made so far. *)
Definition state : Type := W E * list event.

(** Computations of the runner. *)
Definition M (A : Type) : Type := state → A * state.

Definition ret {A} (a : A) : M A := λ s, (a, s).
Definition bind {A B} (m : M A) (k : A → M B) : M B :=
  λ s, let '(a, s') := m s in k a s'.

(** A call to a collaborator [f], logged as [ev] of its result. *)
Definition call {A} (f : W E → A * W E) (ev : A → event) : M A :=
  λ s, let '(a, w') := f s.1 in (a, (w', (s.2 ++ [ev a])%list)).

(** A logged effect without a result. *)
Definition emit (ev : event) : M unit := λ s, (tt, (s.1, (s.2 ++ [ev])%list)).

(** [defer cleanup] around [body]: the return values of [body] are
    fixed before [cleanup] runs. *)
Definition defer {A} (cleanup : M unit) (body : M A) : M A :=
  bind body (λ r, bind cleanup (λ _, ret r)).

End Runner.

Arguments ret {E A} a.
Arguments bind {E A B} m k.
Arguments call {E A} f ev.
Arguments emit {E} ev.
Arguments defer {E A} cleanup body.
Arguments TestFolder_ {E} t.
Arguments ESClient {E} t.
Arguments GenerateTestResult {E} t.

Notation "'let*' x ':=' m 'in' k" := (bind m (λ x, k))
  (at level 10, x pattern, m at level 100, k at level 200,
   format "'[v' 'let*'  x  ':='  m  'in' '/' k ']'").

(** How one iteration of the loop over the test case files ends:
    it falls through or [continue]s to the next file, or [run] returns. *)
Inductive flow : Type :=
| Next (failed : bool) (results : list testrunner.TestResult)
| Return (results : list testrunner.TestResult) (err : error).

Section Run.
Context {E : Env}.
(** The receiver: [r.options]. *)
Variable options : TestOptions E.

Let folder : TestFolder := TestFolder_ options.

(** [listTestCaseFiles]. *)
Definition keep_test_case_file (files : list string) (fi : FileInfo)
  : list string :=
  if strings.HasSuffix (Name fi) (expectedTestResultSuffix E)
     || strings.HasSuffix (Name fi) (configTestSuffix E)
  then files
  else (files ++ [Name fi])%list.

Definition listTestCaseFiles : M E (list string * option error) :=
  let* (fis, err) := call (ReadDir E (Path folder))
                           (λ _, EvReadDir (Path folder)) in
  match err with
  | Some err =>
    ret ([], Some (errorsWrap err ("reading pipeline tests failed (path: "
                                   +:+ Path folder +:+ ")")))
  | None => ret (fold_left keep_test_case_file fis [], None)
  end.

(** [loadTestCaseFile]. *)
Definition loadTestCaseFile (testCaseFile : string)
  : M E (error + testCase E) :=
  let testCasePath := Join E (Path folder) testCaseFile in
  let* (testCaseData, err) := call (ReadFile E testCasePath)
                                    (λ _, EvReadFile testCasePath) in
  match err with
  | Some err =>
    ret (inl (errorsWrap err ("reading input file failed (testCasePath: "
                              +:+ testCasePath +:+ ")")))
  | None =>
    let ext := filepath.Ext testCaseFile in
    if String.eqb ext ".json" then
      match createTestCaseForEvents E testCaseFile testCaseData with
      | inl err =>
        ret (inl (errorsWrap err
               ("creating test case for events failed (testCasePath: "
                +:+ testCasePath +:+ ")")))
      | inr tc => ret (inr tc)
      end
    else if String.eqb ext ".log" then
      let* cfg := call (readConfigForTestCase E testCasePath)
                       (λ _, EvReadConfig testCasePath) in
      match cfg with
      | inl err =>
        ret (inl (errorsWrap err
               ("reading config for test case failed (testCasePath: "
                +:+ testCasePath +:+ ")")))
      | inr config =>
        match createTestCaseForRawInput E testCaseFile testCaseData config with
        | inl err =>
          ret (inl (errorsWrap err
                 ("creating test case for events failed (testCasePath: "
                  +:+ testCasePath +:+ ")")))
        | inr tc => ret (inr tc)
        end
      end
    else
      ret (inl (errorsNew ("unsupported extension for test case file (ext: "
                           +:+ ext +:+ ")")))
  end.

(** [verifyResults]. *)
Definition verifyResults (testCaseFile : string) (result : testResult E)
  : M E (option error) :=
  let testCasePath := Join E (Path folder) testCaseFile in
  let* written :=
    if GenerateTestResult options then
      call (writeTestResult E testCasePath result)
           (λ err, EvWriteTestResult testCasePath (bool_decide (is_Some err)))
    else ret None in
  match written with
  | Some err => ret (Some (errorsWrap err "writing test result failed"))
  | None =>
    let* err := call (compareResults E testCasePath result)
                     (λ _, EvCompareResults testCasePath) in
    match err with
    | Some err =>
      if is_errTestCaseFailed err then ret (Some errTestCaseFailed)
      else ret (Some (errorsWrap err "comparing test results failed"))
    | None => ret None
    end
  end.

(** The body of [for _, testCaseFile := range testCaseFiles].  Besides
    the way the iteration ends, the local [tr] as the body leaves it is
    returned, to show what was assigned to it. *)
Definition run_case (entryPipeline : string) (failed : bool)
           (results : list testrunner.TestResult) (testCaseFile : string)
  : M E (testrunner.TestResult * flow) :=
  let tr := testrunner.mkTestResult TestType (Package folder)
                                    (DataStream folder) "" 0 "" "" "" in
  let* startTime := call (Now E) (λ _, EvNow) in
  let* loaded := loadTestCaseFile testCaseFile in
  match loaded with
  | inl err =>
    let err := errorsWrap err "loading test case failed" in
    let tr := testrunner.set_ErrorMsg (Error err) tr in
    ret (tr, Return results err)
  | inr tc =>
    let* _ := emit (EvPrintf ("Test case: " +:+ name E tc +:+ nl)) in
    let tr := testrunner.set_Name (name E tc) tr in
    let results := (results ++ [tr])%list in
    let* simulated :=
      call (simulatePipelineProcessing E (ESClient options) entryPipeline tc)
           (λ _, EvSimulate entryPipeline (name E tc)) in
    match simulated with
    | inl err =>
      let err := errorsWrap err "simulating pipeline processing failed" in
      let tr := testrunner.set_ErrorMsg (Error err) tr in
      ret (tr, Return results err)
    | inr result =>
      let* now := call (Now E) (λ _, EvNow) in
      let tr := testrunner.set_TimeTaken (time.Sub now startTime) tr in
      let* err := verifyResults testCaseFile result in
      match err with
      | Some err =>
        if is_errTestCaseFailed err then
          let failed := true in
          let tr := testrunner.set_FailureMsg (Error err) tr in
          ret (tr, Next failed results)
        else
          ret (tr, Return results (errorsWrap err "verifying test result failed"))
      | None => ret (tr, Next failed results)
      end
    end
  end.

(** The loop. *)
Fixpoint range_testCaseFiles (entryPipeline : string)
         (testCaseFiles : list string) (failed : bool)
         (results : list testrunner.TestResult) : M E flow :=
  match testCaseFiles with
  | [] => ret (Next failed results)
  | testCaseFile :: rest =>
    let* (_, fl) := run_case entryPipeline failed results testCaseFile in
    match fl with
    | Next failed results => range_testCaseFiles entryPipeline rest failed results
    | Return _ _ => ret fl
    end
  end.

(** The deferred function of [run]. *)
Definition uninstall_deferred (pipelineIDs : list string) : M E unit :=
  let* err := call (uninstallIngestPipelines E (ESClient options) pipelineIDs)
                   (λ err, EvUninstall pipelineIDs (bool_decide (is_Some err))) in
  match err with
  | Some err => emit (EvWarnf ("uninstalling ingest pipelines failed: " +:+ Error err))
  | None => ret tt
  end.

(** [run], after the pipelines are installed. *)
Definition run_installed (entryPipeline : string) (testCaseFiles : list string)
  : M E (list testrunner.TestResult * option error) :=
  let failed := false in
  let results := [] in
  let* fl := range_testCaseFiles entryPipeline testCaseFiles failed results in
  match fl with
  | Return results err => ret (results, Some err)
  | Next failed results =>
    if failed then ret (results, Some (errorsNew "at least one test case failed"))
    else ret (results, None)
  end.

(** [(r *runner) run]. *)
Definition run : M E (list testrunner.TestResult * option error) :=
  let* (testCaseFiles, err) := listTestCaseFiles in
  match err with
  | Some err => ret ([], Some (errorsWrap err "listing test case definitions failed"))
  | None =>
    let* (dataStreamPath, found, err) :=
      call (FindDataStreamRootForPath E (Path folder))
           (λ _, EvFindDataStreamRoot (Path folder)) in
    match err with
    | Some err => ret ([], Some (errorsWrap err "locating data_stream root failed"))
    | None =>
      if negb found then ret ([], Some (errorsNew "data stream root not found"))
      else
        let* (entryPipeline, pipelineIDs, err) :=
          call (installIngestPipelines E (ESClient options) dataStreamPath)
               (λ r, EvInstall dataStreamPath r.1.1 r.1.2
                               (bool_decide (is_Some r.2))) in
        match err with
        | Some err => ret ([], Some (errorsWrap err "installing ingest pipelines failed"))
        | None =>
          defer (uninstall_deferred pipelineIDs)
                (run_installed entryPipeline testCaseFiles)
        end
    end
  end.
End Run.

(** [Run]: runs the pipeline tests defined under the given folder. *)
Definition Run {E : Env} (options : TestOptions E)
  : M E (list testrunner.TestResult * option error) :=
  run options.

End pipeline.

(** ** A test folder in memory

    A small outside world on which the runner can be evaluated: a
    directory listing, file contents, the golden files, a clock, and an
    Elasticsearch that echoes the events of a test case and may refuse to
    uninstall pipelines. *)

Module memfs.
Import pipeline.

Record world : Type := mkWorld {
  listing : list FileInfo;
  contents : gmap string string;
  golden : gmap string string;
  clock : Z;
  installed : list string;
  uninstall_fails : bool
}.

Definition tick (w : world) : world :=
  mkWorld (listing w) (contents w) (golden w) (clock w + 1) (installed w)
          (uninstall_fails w).
Definition set_golden (g : gmap string string) (w : world) : world :=
  mkWorld (listing w) (contents w) g (clock w) (installed w) (uninstall_fails w).
Definition set_installed (ids : list string) (w : world) : world :=
  mkWorld (listing w) (contents w) (golden w) (clock w) ids (uninstall_fails w).

Definition env : Env := {|
  W := world;
  Client := unit;
  testCase := string * string;
  name := fst;
  testResult := string;
  config := unit;
  expectedTestResultSuffix := "-expected.json";
  configTestSuffix := "-config.json";
  Join := λ dir file, dir +:+ "/" +:+ file;
  ReadDir := λ _ w, ((listing w, None), w);
  ReadFile := λ p w,
    match contents w !! p with
    | Some d => ((d, None), w)
    | None => (("", Some (errExternal ("open " +:+ p +:+ ": no such file or directory"))), w)
    end;
  Now := λ w, (clock w, tick w);
  FindDataStreamRootForPath := λ _ w, (("/pkg/data_stream/ds", true, None), w);
  installIngestPipelines := λ _ _ w,
    (("entry", ["entry"; "sub"], None), set_installed ["entry"; "sub"] w);
  uninstallIngestPipelines := λ _ ids w,
    if uninstall_fails w then (Some (errExternal "connection refused"), w)
    else (None, set_installed [] w);
  createTestCaseForEvents := λ file data, inr (file, data);
  readConfigForTestCase := λ _ w, (inr tt, w);
  createTestCaseForRawInput := λ file data _, inr (file, data);
  simulatePipelineProcessing := λ _ _ tc w, (inr tc.2, w);
  writeTestResult := λ p r w, (None, set_golden (<[p := r]> (golden w)) w);
  compareResults := λ p r w,
    match golden w !! p with
    | None => (Some (errExternal ("open " +:+ p +:+ ": no expected result")), w)
    | Some g => (if String.eqb g r then None else Some errTestCaseFailed, w)
    end
|}.

Definition dir : string := "/pkg/data_stream/ds/_dev/test/pipeline".

Definition options (generate : bool) : TestOptions env :=
  mkTestOptions env (mkTestFolder dir "pkg" "ds") tt generate.

Definition file (n : string) : FileInfo := mkFileInfo n false.

(** [case1.json] matches its golden file, [case2.json] differs from it. *)
Definition two_cases (fails : bool) : world := {|
  listing := [file "case1.json"; file "case1.json-expected.json";
              file "case2.json"; file "case2.json-expected.json"];
  contents := {[ dir +:+ "/case1.json" := "a"; dir +:+ "/case2.json" := "b" ]};
  golden := {[ dir +:+ "/case1.json" := "a"; dir +:+ "/case2.json" := "c" ]};
  clock := 100;
  installed := [];
  uninstall_fails := fails
|}.

(** [case3.csv] has an unsupported extension; [case4.json] follows it. *)
Definition csv_case : world := {|
  listing := [file "case3.csv"; file "case4.json"; file "case4.json-expected.json"];
  contents := {[ dir +:+ "/case3.csv" := "x"; dir +:+ "/case4.json" := "a" ]};
  golden := {[ dir +:+ "/case4.json" := "a" ]};
  clock := 100;
  installed := [];
  uninstall_fails := false
|}.

End memfs.

(** * Properties *)

Open Scope list_scope.

(** ** Vocabulary of the statements *)

(** [s] ends with [suffix]. *)
Definition ends_with (s suffix : string) : Prop := ∃ p, s = p +:+ suffix.

(** A name is reserved when it ends with the expected-result suffix or with
    the config suffix. *)
Definition reserved (E : pipeline.Env) (n : string) : Prop :=
  ends_with n (pipeline.expectedTestResultSuffix E)
  ∨ ends_with n (pipeline.configTestSuffix E).

(** The events of the loop over the test case files. *)
Definition is_case_event (ev : pipeline.event) : bool :=
  match ev with
  | pipeline.EvNow | pipeline.EvReadFile _ | pipeline.EvReadConfig _
  | pipeline.EvPrintf _ | pipeline.EvSimulate _ _
  | pipeline.EvWriteTestResult _ _ | pipeline.EvCompareResults _ => true
  | _ => false
  end.

(** The names of the test cases submitted to the simulate operation, in the
    order of the calls: the cases that were loaded. *)
Definition simulated (log : list pipeline.event) : list string :=
  omap (λ ev, match ev with
              | pipeline.EvSimulate _ n => Some n
              | _ => None
              end) log.

(** The result as the loop appends it: the type, the package and the data
    stream of the run, the name of the case, and nothing else. *)
Definition blank_result {E} (options : pipeline.TestOptions E) (n : string)
  : testrunner.TestResult :=
  testrunner.mkTestResult pipeline.TestType
    (pipeline.Package (pipeline.TestFolder_ options))
    (pipeline.DataStream (pipeline.TestFolder_ options)) n 0 "" "" "".

(** The results an iteration leaves behind, however it ends. *)
Definition flow_results (fl : pipeline.flow) : list testrunner.TestResult :=
  match fl with
  | pipeline.Next _ results => results
  | pipeline.Return results _ => results
  end.

(** The same environment with another [uninstallIngestPipelines]. *)
Definition with_uninstall (E : pipeline.Env)
           (u : pipeline.Client E → list string → pipeline.W E
                → option error * pipeline.W E) : pipeline.Env :=
  pipeline.mkEnv (pipeline.W E) (pipeline.Client E) (pipeline.testCase E)
    (pipeline.name E) (pipeline.testResult E) (pipeline.config E)
    (pipeline.expectedTestResultSuffix E) (pipeline.configTestSuffix E)
    (pipeline.Join E) (pipeline.ReadDir E) (pipeline.ReadFile E)
    (pipeline.Now E) (pipeline.FindDataStreamRootForPath E)
    (pipeline.installIngestPipelines E) u
    (pipeline.createTestCaseForEvents E) (pipeline.readConfigForTestCase E)
    (pipeline.createTestCaseForRawInput E)
    (pipeline.simulatePipelineProcessing E) (pipeline.writeTestResult E)
    (pipeline.compareResults E).

(** The same options, for that environment. *)
Definition retarget {E} u (options : pipeline.TestOptions E)
  : pipeline.TestOptions (with_uninstall E u) :=
  pipeline.mkTestOptions (with_uninstall E u) (pipeline.TestFolder_ options)
    (pipeline.ESClient options) (pipeline.GenerateTestResult options).

(** The round trip of the golden-file store: once a result is written as
    the expected result of a test case, comparing that result with it
    reports a match. *)
Definition write_then_compare_matches (E : pipeline.Env) : Prop :=
  ∀ path result w w',
    pipeline.writeTestResult E path result w = (None, w') →
    (pipeline.compareResults E path result w').1 = None.


(** The log of a run that installed its pipelines: the three calls that
    lead to the installation, the events of the loop, the call that
    uninstalls exactly the installed identifiers and, only if that call
    failed, one warning. *)
Definition installed_log (path : string) (new : list pipeline.event) : Prop :=
  ∃ dataStreamPath entryPipeline pipelineIDs body failed warning,
    new = [pipeline.EvReadDir path; pipeline.EvFindDataStreamRoot path;
           pipeline.EvInstall dataStreamPath entryPipeline pipelineIDs false]
          ++ body ++ pipeline.EvUninstall pipelineIDs failed :: warning
    ∧ forallb is_case_event body = true
    ∧ (if failed then ∃ msg, warning = [pipeline.EvWarnf msg] else warning = []).

(** A successful call of [installIngestPipelines]. *)
Definition is_installation (ev : pipeline.event) : bool :=
  match ev with
  | pipeline.EvInstall _ _ _ false => true
  | _ => false
  end.

(** The log of a run over [memfs.two_cases] when Elasticsearch refuses to
    uninstall. *)
Definition two_cases_log : list pipeline.event :=
  [pipeline.EvReadDir memfs.dir; pipeline.EvFindDataStreamRoot memfs.dir;
   pipeline.EvInstall "/pkg/data_stream/ds" "entry" ["entry"; "sub"] false;
   pipeline.EvNow;
   pipeline.EvReadFile (memfs.dir +:+ "/case1.json");
   pipeline.EvPrintf ("Test case: case1.json" +:+ nl);
   pipeline.EvSimulate "entry" "case1.json";
   pipeline.EvNow;
   pipeline.EvCompareResults (memfs.dir +:+ "/case1.json");
   pipeline.EvNow;
   pipeline.EvReadFile (memfs.dir +:+ "/case2.json");
   pipeline.EvPrintf ("Test case: case2.json" +:+ nl);
   pipeline.EvSimulate "entry" "case2.json";
   pipeline.EvNow;
   pipeline.EvCompareResults (memfs.dir +:+ "/case2.json");
   pipeline.EvUninstall ["entry"; "sub"] true;
   pipeline.EvWarnf "uninstalling ingest pipelines failed: connection refused"].

(** [tests[testType][pkg][ds]] with the comma-ok form: reading a missing
    key of a Go map gives the zero value, here the empty map. *)
Definition get3 (m : formats.cases_by_type) (testType pkg ds : string)
  : option (list formats.testCase.t) :=
  ((m !!! testType) !!! pkg) !! ds.

(** The results of one group. *)
Definition in_group (testType pkg ds : string) (r : testrunner.TestResult)
  : Prop :=
  testrunner.TestType r = testType ∧ testrunner.Package r = pkg
  ∧ testrunner.DataStream r = ds.

(** The case element [reportXUnitFormat] builds for a result. *)
Definition xunit_case (r : testrunner.TestResult) : formats.testCase.t :=
  formats.testCase.mk (testrunner.Name r) "" (testrunner.TimeElapsed r)
    (testrunner.ErrorMsg r)
    (if String.eqb (testrunner.FailureDetails r) ""
     then testrunner.FailureMsg r
     else testrunner.FailureMsg r +:+ ": " +:+ testrunner.FailureDetails r).

(** The totals over a sequence of results. *)
Definition count_failures (results : list testrunner.TestResult) : Z :=
  Z.of_nat (length (filter (λ r, testrunner.FailureMsg r ≠ "") results)).
Definition count_errors (results : list testrunner.TestResult) : Z :=
  Z.of_nat (length (filter (λ r, testrunner.ErrorMsg r ≠ "") results)).

(** Two suites that differ at most in the order of sibling suites, at any
    depth: same comment, name, counts and cases in the same order. *)
#[local] Unset Elimination Schemes.
Inductive suite_equiv : formats.testSuite.t → formats.testSuite.t → Prop :=
| suite_equiv_intro comment name nt nf ne suites1 suites2 reordered cases :
    suites1 ≡ₚ reordered →
    Forall2 suite_equiv reordered suites2 →
    suite_equiv (formats.testSuite.mk comment name nt nf ne suites1 cases)
                (formats.testSuite.mk comment name nt nf ne suites2 cases).
#[local] Set Elimination Schemes.

(** All results of the sequence belong to one group. *)
Definition one_group (results : list testrunner.TestResult) : Prop :=
  ∃ testType pkg ds, Forall (in_group testType pkg ds) results.

(** Two results of the same test type in two packages. *)
Definition two_packages : list testrunner.TestResult :=
  [testrunner.mkTestResult "pipeline" "apache" "access" "case1" 5 "" "" "";
   testrunner.mkTestResult "pipeline" "nginx" "access" "case1" 7 "" "" ""].

(** A result with failure details but no failure message. *)
Definition details_only : testrunner.TestResult :=
  testrunner.mkTestResult "pipeline" "apache" "access" "case2" 9 "" "" "diff".

(** [packages[pkg][ds]] with the comma-ok form, in [ReportXUnit]. *)
Definition get2 (m : reporters.cases_by_pkg) (pkg ds : string)
  : option (list reporters.testCase.t) :=
  (m !!! pkg) !! ds.

(** The results of one data stream of one package. *)
Definition in_stream (pkg ds : string) (r : testrunner.TestResult) : Prop :=
  testrunner.Package r = pkg ∧ testrunner.DataStream r = ds.

(** The distinct values of a list, in some order without repetition. *)
Definition distinct (l : list string) : list string :=
  elements (list_to_set l : gset string).

(** The data-stream suite [ReportXUnit] emits for a group: the zero-valued
    placeholder case, then one case per result of the group. *)
Definition stream_suite (results : list testrunner.TestResult)
           (pkg ds : string) : reporters.testSuite.t :=
  reporters.testSuite.mk []
    (reporters.testCase.zero
     :: (reporters.case_of <$> filter (in_stream pkg ds) results)).

(** The package suite, for the data streams in the order [dss]: the empty
    placeholder suite, then the data-stream suites. *)
Definition package_suite (results : list testrunner.TestResult)
           (pkg : string) (dss : list string) : reporters.testSuite.t :=
  reporters.testSuite.mk
    (reporters.testSuite.zero :: (stream_suite results pkg <$> dss)) [].

(** The paths handed to [ioutil.ReadFile], in the order of the calls: the
    test case files that were attempted. *)
Definition read_files (log : list pipeline.event) : list string :=
  omap (λ ev, match ev with
              | pipeline.EvReadFile p => Some p
              | _ => None
              end) log.

(** A golden-file store whose writes never fail. *)
Definition writes_always_succeed (E : pipeline.Env) : Prop :=
  ∀ path result w, (pipeline.writeTestResult E path result w).1 = None.

(** The error [run] returns when a case did not match. *)
Definition some_case_failed : error :=
  errorsNew "at least one test case failed".

(** The error [run] returns when the test folder has no data stream root. *)
Definition root_not_found : error := errorsNew "data stream root not found".

(** The three logs of a run that ends before any pipeline is installed:
    the listing failed; the listing succeeded and the data stream root was
    not located; both succeeded and the installation failed. *)
Definition uninstalled_log (path : string) (new : list pipeline.event) : Prop :=
  new = [pipeline.EvReadDir path]
  ∨ new = [pipeline.EvReadDir path; pipeline.EvFindDataStreamRoot path]
  ∨ ∃ dataStreamPath entryPipeline pipelineIDs,
      new = [pipeline.EvReadDir path; pipeline.EvFindDataStreamRoot path;
             pipeline.EvInstall dataStreamPath entryPipeline pipelineIDs true].

(** The errors that report that the run could not complete. *)
Definition is_abort (err : option error) : Prop :=
  err = Some root_not_found ∨ ∃ cause msg, err = Some (errorsWrap cause msg).

(** The errors of a run that went through all its test case files. *)
Definition is_completed (err : option error) : Prop :=
  err = None ∨ err = Some some_case_failed.

(** A call of [writeTestResult]. *)
Definition is_write (ev : pipeline.event) : bool :=
  match ev with
  | pipeline.EvWriteTestResult _ _ => true
  | _ => false
  end.

(** [memfs.env] in a checkout where the test folder has no data stream
    root. *)
Definition no_root_env : pipeline.Env :=
  pipeline.mkEnv (pipeline.W memfs.env) (pipeline.Client memfs.env)
    (pipeline.testCase memfs.env) (pipeline.name memfs.env)
    (pipeline.testResult memfs.env) (pipeline.config memfs.env)
    (pipeline.expectedTestResultSuffix memfs.env)
    (pipeline.configTestSuffix memfs.env)
    (pipeline.Join memfs.env) (pipeline.ReadDir memfs.env)
    (pipeline.ReadFile memfs.env) (pipeline.Now memfs.env)
    (λ _ w, (("", false, None), w))
    (pipeline.installIngestPipelines memfs.env)
    (pipeline.uninstallIngestPipelines memfs.env)
    (pipeline.createTestCaseForEvents memfs.env)
    (pipeline.readConfigForTestCase memfs.env)
    (pipeline.createTestCaseForRawInput memfs.env)
    (pipeline.simulatePipelineProcessing memfs.env)
    (pipeline.writeTestResult memfs.env)
    (pipeline.compareResults memfs.env).

Definition no_root_options : pipeline.TestOptions no_root_env :=
  pipeline.mkTestOptions no_root_env
    (pipeline.mkTestFolder memfs.dir "pkg" "ds") tt false.


(** A byte that is neither a dot nor a path separator. *)
Definition plain_byte (c : ascii) : bool :=
  negb (Ascii.eqb c "/") && negb (Ascii.eqb c ".").

(** [tests[testType][pkg]] with the comma-ok form. *)
Definition get2_type (m : formats.cases_by_type) (testType pkg : string)
  : option formats.cases_by_ds :=
  (m !!! testType) !! pkg.

(** The distinct test types of the input, the distinct packages of a test
    type and the distinct data streams of a package of a test type. *)
Definition types_of (results : list testrunner.TestResult) : list string :=
  distinct (testrunner.TestType <$> results).
Definition packages_of (results : list testrunner.TestResult)
           (testType : string) : list string :=
  distinct (testrunner.Package
              <$> filter (λ r, testrunner.TestType r = testType) results).
Definition streams_of (results : list testrunner.TestResult)
           (testType pkg : string) : list string :=
  distinct (testrunner.DataStream
              <$> filter (λ r, testrunner.TestType r = testType
                               ∧ testrunner.Package r = pkg) results).

(** The suites [reportXUnitFormat] emits, in terms of the input: the
    data-stream suite of a group holds the cases of the results of the
    group, in input order. *)
Definition xunit_stream_suite (results : list testrunner.TestResult)
           (testType pkg ds : string) : formats.testSuite.t :=
  formats.testSuite.mk ("test suite for data stream: " +:+ ds) ds 0 0 0 []
    (xunit_case <$> filter (in_group testType pkg ds) results).

Definition xunit_package_suite (results : list testrunner.TestResult)
           (testType pkg : string) (dss : list string) : formats.testSuite.t :=
  formats.testSuite.mk ("test suite for package: " +:+ pkg) pkg 0 0 0
    (xunit_stream_suite results testType pkg <$> dss) [].

Definition xunit_type_suite (results : list testrunner.TestResult)
           (testType : string) (suites : list formats.testSuite.t)
  : formats.testSuite.t :=
  formats.testSuite.mk ("test suite for " +:+ testType +:+ " tests") testType
    (Z.of_nat (length results)) (count_failures results) (count_errors results)
    suites [].

(** No comment of the item contains two dashes in a row. *)
Fixpoint comments_ok (it : xml.xmlItem) : bool :=
  match it with
  | xml.XComment s => negb (strings.Contains s "--")
  | xml.XText _ => true
  | xml.XElement _ _ items => forallb comments_ok items
  end.

(** The only error the encoder has for these values. *)
Definition comment_error : error :=
  errorsNew ("xml: comments must not contain " +:+ dq +:+ "--" +:+ dq).

(** What both reporters return when the encoder fails. *)
Definition format_failure : string * option error :=
  ("", Some (errorsWrap comment_error "unable to format test results as xUnit")).

(** A name that can stand in an XML comment. *)
Definition dash_free (s : string) : Prop := strings.Contains s "--" = false.

(** The three grouping keys of a result can stand in an XML comment. *)
Definition keys_dash_free (r : testrunner.TestResult) : Prop :=
  dash_free (testrunner.TestType r) ∧ dash_free (testrunner.Package r)
  ∧ dash_free (testrunner.DataStream r).

(** The encoder accepts the comments of a suite and of the suites below. *)
Definition suite_ok (s : formats.testSuite.t) : Prop :=
  comments_ok (formats.xml_of_testSuite s) = true.

(** A result whose package name holds two dashes in a row. *)
Definition dashed_package : testrunner.TestResult :=
  testrunner.mkTestResult "pipeline" "my--package" "access" "case1" 5 "" "" "".

(** Two results agree on the fields [ReportXUnit] reads. *)
Definition same_report_fields (r r' : testrunner.TestResult) : Prop :=
  testrunner.Package r = testrunner.Package r'
  ∧ testrunner.DataStream r = testrunner.DataStream r'
  ∧ testrunner.Name r = testrunner.Name r'
  ∧ testrunner.TimeTaken r = testrunner.TimeTaken r'
  ∧ testrunner.ErrorMsg r = testrunner.ErrorMsg r'
  ∧ testrunner.FailureMsg r = testrunner.FailureMsg r'.

(** The results of [two_packages] under another test type and with failure
    details. *)
Definition two_packages_system : list testrunner.TestResult :=
  [testrunner.mkTestResult "system" "apache" "access" "case1" 5 "" "" "details";
   testrunner.mkTestResult "asset" "nginx" "access" "case1" 7 "" "" ""].

(** A successful report: no error, and the XML header before the document. *)
Definition report_ok (out : string * option error) : Prop :=
  out.2 = None ∧ ∃ document, out.1 = xml.Header +:+ document.

(** Results of two test types, two of them with a failure message and one
    with an error message. *)
Definition mixed_types : list testrunner.TestResult :=
  [testrunner.mkTestResult "pipeline" "apache" "access" "case1" 5 "" "mismatch" "diff";
   testrunner.mkTestResult "system" "apache" "access" "case2" 7 "timeout" "" "";
   testrunner.mkTestResult "pipeline" "nginx" "access" "case3" 9 "" "" "";
   testrunner.mkTestResult "system" "nginx" "error" "case4" 11 "" "mismatch" ""].

(** Two results of one test type, one package and one data stream. *)
Definition same_group : list testrunner.TestResult :=
  [testrunner.mkTestResult "pipeline" "apache" "access" "case1" 5 "" "" "";
   testrunner.mkTestResult "pipeline" "apache" "access" "case2" 9 "" "mismatch" "diff"].

(** The same environment with another [writeTestResult]. *)
Definition with_write (E : pipeline.Env)
           (wr : string → pipeline.testResult E → pipeline.W E
                 → option error * pipeline.W E) : pipeline.Env :=
  pipeline.mkEnv (pipeline.W E) (pipeline.Client E) (pipeline.testCase E)
    (pipeline.name E) (pipeline.testResult E) (pipeline.config E)
    (pipeline.expectedTestResultSuffix E) (pipeline.configTestSuffix E)
    (pipeline.Join E) (pipeline.ReadDir E) (pipeline.ReadFile E)
    (pipeline.Now E) (pipeline.FindDataStreamRootForPath E)
    (pipeline.installIngestPipelines E) (pipeline.uninstallIngestPipelines E)
    (pipeline.createTestCaseForEvents E) (pipeline.readConfigForTestCase E)
    (pipeline.createTestCaseForRawInput E)
    (pipeline.simulatePipelineProcessing E) wr
    (pipeline.compareResults E).

(** The test folder in memory with one write-protected expected result:
    writing the expected result of [protected] is refused, every other
    write goes through. *)
Definition permission_denied : error := errExternal "permission denied".
Definition write_protected (protected : string) : pipeline.Env :=
  with_write memfs.env
    (λ path result w,
       if String.eqb path protected then (Some permission_denied, w)
       else pipeline.writeTestResult memfs.env path result w).
Definition write_protected_options (protected : string)
  : pipeline.TestOptions (write_protected protected) :=
  pipeline.mkTestOptions (write_protected protected)
    (pipeline.mkTestFolder memfs.dir "pkg" "ds") tt true.

(** What the deferred function of [run] logs after the call of
    [uninstallIngestPipelines]: a warning with the error, if there is one. *)
Definition uninstall_warning (err : option error) : list pipeline.event :=
  match err with
  | Some err =>
    [pipeline.EvWarnf ("uninstalling ingest pipelines failed: " +:+ Error err)]
  | None => []
  end.

(** ** Strings *)

Section Strings.

Lemma length_append (s t : string) :
  String.length (s +:+ t) = (String.length s + String.length t)%nat.
Proof. induction s as [|c s IH]; simpl; [done | by rewrite IH]. Qed.

Lemma substring_0_length (s : string) : substring 0 (String.length s) s = s.
Proof. induction s as [|c s IH]; simpl; [done | by rewrite IH]. Qed.

Lemma substring_append (p t : string) :
  substring (String.length p) (String.length t) (p +:+ t) = t.
Proof. induction p as [|c p IH]; simpl; [apply substring_0_length | done]. Qed.

Lemma substring_split (s : string) (n m : nat) :
  (n + m)%nat = String.length s → ∃ p, s = p +:+ substring n m s.
Proof.
  revert s. induction n as [|n IH]; intros s Hlen.
  - exists "". simpl in Hlen. subst m. by rewrite substring_0_length.
  - destruct s as [|c s]; simpl in Hlen; [lia|].
    destruct (IH s) as [p Hp]; [lia|].
    exists (String c p).
    change (String c s = String c (p +:+ substring (S n) m (String c s))).
    simpl. by f_equal.
Qed.

Lemma HasSuffix_spec (s suffix : string) :
  strings.HasSuffix s suffix = true ↔ ends_with s suffix.
Proof.
  unfold strings.HasSuffix, ends_with. rewrite andb_true_iff, String.eqb_eq.
  rewrite Nat.leb_le. split.
  - intros [Hle Hsub].
    destruct (substring_split s (String.length s - String.length suffix)
                              (String.length suffix)) as [p Hp]; [lia|].
    exists p. by rewrite Hsub in Hp.
  - intros [p ->]. rewrite length_append. split; [lia|].
    replace (String.length p + String.length suffix - String.length suffix)%nat
      with (String.length p) by lia.
    apply substring_append.
Qed.

Lemma HasSuffix_false (s suffix : string) :
  strings.HasSuffix s suffix = false ↔ ¬ ends_with s suffix.
Proof.
  rewrite <- HasSuffix_spec. destruct (strings.HasSuffix s suffix); split;
    congruence.
Qed.

End Strings.

(** ** Test-case discovery *)

Section Discovery.
Context {E : pipeline.Env} (options : pipeline.TestOptions E).

Instance reserved_dec (n : string) : Decision (reserved E n).
Proof.
  refine (cast_if (decide (strings.HasSuffix n (pipeline.expectedTestResultSuffix E)
                           || strings.HasSuffix n (pipeline.configTestSuffix E)
                           = true)));
    unfold reserved; rewrite <- !HasSuffix_spec, <- orb_true_iff; done.
Defined.

Lemma keep_test_case_files (fis : list pipeline.FileInfo) (acc : list string) :
  fold_left (pipeline.keep_test_case_file (E:=E)) fis acc
  = acc ++ filter (λ n, ¬ reserved E n) (pipeline.Name <$> fis).
Proof.
  revert acc. induction fis as [|fi fis IH]; intros acc; simpl.
  - by rewrite app_nil_r.
  - rewrite IH. unfold pipeline.keep_test_case_file. rewrite filter_cons.
    destruct (decide (¬ reserved E (pipeline.Name fi))) as [Hk|Hk];
      case_match eqn:Hs.
    + exfalso. apply Hk. unfold reserved. rewrite <- !HasSuffix_spec.
      by apply orb_true_iff.
    + by rewrite <- app_assoc.
    + done.
    + exfalso. apply Hk. unfold reserved. rewrite <- !HasSuffix_spec.
      rewrite <- orb_true_iff. congruence.
Qed.

(** One call of [ReadDir], whose outcome decides the result. *)
Lemma listTestCaseFiles_reads_once (s : pipeline.state E) :
  let path := pipeline.Path (pipeline.TestFolder_ options) in
  let listed := pipeline.ReadDir E path s.1 in
  pipeline.listTestCaseFiles options s
  = (match listed.1.2 with
     | None => (fold_left (pipeline.keep_test_case_file (E:=E)) listed.1.1 [], None)
     | Some err =>
       ([], Some (errorsWrap err ("reading pipeline tests failed (path: "
                                  +:+ path +:+ ")")))
     end,
     (listed.2, s.2 ++ [pipeline.EvReadDir path])).
Proof.
  unfold pipeline.listTestCaseFiles, pipeline.bind, pipeline.call, pipeline.ret.
  simpl. by destruct (pipeline.ReadDir E _ s.1) as [[fis [err|]] w'].
Qed.

(** C5. Test-case discovery reads the test folder once.  When the listing
    succeeds it returns, in the order of the listing, exactly the names
    that end with neither the expected-result suffix nor the config suffix,
    and no error; when the directory cannot be read it returns no name and
    the I/O error wrapped with the path. *)
Theorem listTestCaseFiles_discovery (s : pipeline.state E) :
  let path := pipeline.Path (pipeline.TestFolder_ options) in
  let listed := pipeline.ReadDir E path s.1 in
  pipeline.listTestCaseFiles options s
  = (match listed.1.2 with
     | None =>
       (filter (λ n, ¬ reserved E n) (pipeline.Name <$> listed.1.1), None)
     | Some err =>
       ([], Some (errorsWrap err ("reading pipeline tests failed (path: "
                                  +:+ path +:+ ")")))
     end,
     (listed.2, s.2 ++ [pipeline.EvReadDir path])).
Proof.
  intros path listed. rewrite listTestCaseFiles_reads_once. fold path listed.
  destruct (listed.1.2); [done|]. by rewrite keep_test_case_files.
Qed.

End Discovery.

(** ** The log of a run *)

Section RunLog.
Context {E : pipeline.Env} (options : pipeline.TestOptions E).

Ltac unfold_M :=
  unfold pipeline.bind, pipeline.call, pipeline.emit, pipeline.ret,
    pipeline.defer in *.

Ltac close_log :=
  simpl; rewrite <- ?app_assoc; simpl; eexists; (split; [reflexivity|]).

Lemma loadTestCaseFile_log (testCaseFile : string) (s : pipeline.state E) :
  ∃ new, (pipeline.loadTestCaseFile options testCaseFile s).2.2 = s.2 ++ new
         ∧ forallb is_case_event new = true ∧ simulated new = [].
Proof.
  unfold pipeline.loadTestCaseFile. unfold_M.
  destruct (pipeline.ReadFile E _ s.1) as [[data [err|]] w1]; [by close_log|].
  destruct (String.eqb _ ".json").
  { destruct (pipeline.createTestCaseForEvents E _ _); by close_log. }
  destruct (String.eqb _ ".log"); [|by close_log].
  simpl. destruct (pipeline.readConfigForTestCase E _ w1) as [[err|cfg] w2];
    [by close_log|].
  destruct (pipeline.createTestCaseForRawInput E _ _ _); by close_log.
Qed.

Lemma verifyResults_log (testCaseFile : string) (result : pipeline.testResult E)
      (s : pipeline.state E) :
  ∃ new, (pipeline.verifyResults options testCaseFile result s).2.2 = s.2 ++ new
         ∧ forallb is_case_event new = true ∧ simulated new = [].
Proof.
  unfold pipeline.verifyResults. unfold_M.
  destruct (pipeline.GenerateTestResult options); simpl.
  - destruct (pipeline.writeTestResult E _ _ s.1) as [[err|] w1];
      [by close_log|].
    simpl. destruct (pipeline.compareResults E _ _ w1) as [[err|] w2];
      [destruct (is_errTestCaseFailed err)|]; by close_log.
  - destruct (pipeline.compareResults E _ _ s.1) as [[err|] w2];
      [destruct (is_errTestCaseFailed err)|]; by close_log.
Qed.

Lemma simulated_app (l1 l2 : list pipeline.event) :
  simulated (l1 ++ l2) = simulated l1 ++ simulated l2.
Proof. unfold simulated. apply omap_app. Qed.

(** One iteration appends a result exactly when the case was loaded, and
    what it appends is the blank result of that case. *)
Lemma run_case_log (entryPipeline : string) (failed : bool)
      (results : list testrunner.TestResult) (testCaseFile : string)
      (s : pipeline.state E) :
  let out := pipeline.run_case options entryPipeline failed results testCaseFile s in
  ∃ new, out.2.2 = s.2 ++ new
         ∧ forallb is_case_event new = true
         ∧ flow_results out.1.2
           = results ++ (blank_result options <$> simulated new).
Proof.
  unfold pipeline.run_case. unfold_M. simpl.
  destruct (pipeline.Now E s.1) as [startTime w1]. simpl.
  destruct (loadTestCaseFile_log testCaseFile (w1, s.2 ++ [pipeline.EvNow]))
    as (n1 & Hlog1 & Hev1 & Hsim1).
  destruct (pipeline.loadTestCaseFile options testCaseFile _)
    as [[err|tc] [w2 l2]]; simpl in *; subst l2.
  { rewrite <- app_assoc. eexists; split; [reflexivity|]. simpl.
    rewrite Hev1. split; [done|]. change (simulated (pipeline.EvNow :: n1))
      with (simulated n1). by rewrite Hsim1, app_nil_r. }
  destruct (pipeline.simulatePipelineProcessing E _ _ _ w2) as [[err|result] w3];
    simpl.
  { rewrite <- !app_assoc. eexists; split; [reflexivity|]. simpl.
    rewrite forallb_app, Hev1. split; [done|].
    change (simulated (pipeline.EvNow :: ?l)) with (simulated l).
    rewrite !simulated_app, Hsim1. done. }
  destruct (pipeline.Now E w3) as [now w4]. simpl.
  match goal with
  | |- context [pipeline.verifyResults options testCaseFile result ?s0] =>
    destruct (verifyResults_log testCaseFile result s0)
      as (n2 & Hlog2 & Hev2 & Hsim2);
    destruct (pipeline.verifyResults options testCaseFile result s0)
      as [err [w5 l5]]
  end.
  simpl in *. subst l5.
  assert (Hshape : ∃ new,
    (((s.2 ++ [pipeline.EvNow]) ++ n1)
       ++ [pipeline.EvPrintf ("Test case: " +:+ pipeline.name E tc +:+ nl)])
      ++ [pipeline.EvSimulate entryPipeline (pipeline.name E tc)]
      ++ [pipeline.EvNow] ++ n2 = s.2 ++ new
    ∧ forallb is_case_event new = true
    ∧ simulated new = [pipeline.name E tc]).
  { rewrite <- !app_assoc. eexists; split; [reflexivity|]. simpl.
    rewrite !forallb_app, Hev1. simpl. rewrite Hev2. split; [done|].
    change (simulated (pipeline.EvNow :: ?l)) with (simulated l).
    rewrite !simulated_app, Hsim1. simpl.
    change (simulated (pipeline.EvPrintf ?m :: ?l)) with (simulated l).
    change (simulated (pipeline.EvSimulate ?e ?n :: ?l)) with (n :: simulated l).
    change (simulated (pipeline.EvNow :: ?l)) with (simulated l).
    by rewrite Hsim2. }
  destruct Hshape as (new & Hnew & Hev & Hsim).
  exists new. rewrite <- !app_assoc in *. simpl in *.
  destruct err as [err|]; [destruct (is_errTestCaseFailed err)|]; simpl;
    rewrite Hsim; done.
Qed.

Lemma range_testCaseFiles_log (entryPipeline : string)
      (testCaseFiles : list string) (failed : bool)
      (results : list testrunner.TestResult) (s : pipeline.state E) :
  let out := pipeline.range_testCaseFiles options entryPipeline testCaseFiles
                                          failed results s in
  ∃ new, out.2.2 = s.2 ++ new
         ∧ forallb is_case_event new = true
         ∧ flow_results out.1
           = results ++ (blank_result options <$> simulated new).
Proof.
  revert failed results s.
  induction testCaseFiles as [|f rest IH]; intros failed results s; simpl.
  { exists []. by rewrite !app_nil_r. }
  unfold pipeline.bind.
  destruct (run_case_log entryPipeline failed results f s)
    as (n1 & Hlog1 & Hev1 & Hres1).
  destruct (pipeline.run_case options entryPipeline failed results f s)
    as [[tr fl] [w1 l1]]; simpl in *; subst l1.
  destruct fl as [failed' results' | results' err]; simpl in *.
  - destruct (IH failed' results' (w1, s.2 ++ n1)) as (n2 & Hlog2 & Hev2 & Hres2).
    exists (n1 ++ n2). simpl in *. rewrite Hlog2, Hres2, Hres1.
    rewrite app_assoc, forallb_app, Hev1, Hev2, simulated_app, fmap_app.
    by rewrite <- !app_assoc.
  - exists n1. done.
Qed.

Lemma run_installed_log (entryPipeline : string) (testCaseFiles : list string)
      (s : pipeline.state E) :
  let out := pipeline.run_installed options entryPipeline testCaseFiles s in
  ∃ new, out.2.2 = s.2 ++ new
         ∧ forallb is_case_event new = true
         ∧ out.1.1 = blank_result options <$> simulated new.
Proof.
  unfold pipeline.run_installed. unfold_M.
  destruct (range_testCaseFiles_log entryPipeline testCaseFiles false [] s)
    as (new & Hlog & Hev & Hres).
  destruct (pipeline.range_testCaseFiles options _ _ _ _ s) as [fl [w1 l1]].
  simpl in *. exists new.
  destruct fl as [[] results | results err]; simpl in *; by subst.
Qed.

Lemma simulated_case_free (l : list pipeline.event) :
  forallb (λ ev, negb (is_case_event ev)) l = true → simulated l = [].
Proof.
  induction l as [|ev l IH]; [done|]. simpl. intros [Hev Hl]%andb_true_iff.
  destruct ev; try done; by apply IH.
Qed.

(** The shape of the log of [run], and the results in terms of it. *)
Lemma run_log (s : pipeline.state E) :
  let path := pipeline.Path (pipeline.TestFolder_ options) in
  let out := pipeline.run options s in
  ∃ new, out.2.2 = s.2 ++ new
         ∧ out.1.1 = blank_result options <$> simulated new
         ∧ (forallb (λ ev, negb (is_installation ev)) new = true
            ∨ installed_log path new).
Proof.
  intros path out. subst out. unfold pipeline.run.
  unfold pipeline.bind. rewrite !listTestCaseFiles_reads_once.
  destruct (pipeline.ReadDir E _ s.1) as [[fis [err|]] w1]; simpl.
  { unfold_M. eexists; split; [reflexivity|]. by split; [|left]. }
  unfold_M. simpl.
  destruct (pipeline.FindDataStreamRootForPath E _ w1)
    as [[[dataStreamPath found] [err|]] w2]; simpl.
  { rewrite <- app_assoc. eexists; split; [reflexivity|]. by split; [|left]. }
  destruct found; simpl;
    [|rewrite <- app_assoc; eexists; split; [reflexivity|]; by split; [|left]].
  destruct (pipeline.installIngestPipelines E _ _ w2)
    as [[[entryPipeline pipelineIDs] [err|]] w3]; simpl.
  { rewrite <- !app_assoc. eexists; split; [reflexivity|]. by split; [|left]. }
  unfold_M.
  match goal with
  | |- context [pipeline.run_installed options ?e ?fs ?s0] =>
    destruct (run_installed_log e fs s0) as (body & Hlog & Hev & Hres);
    destruct (pipeline.run_installed options e fs s0) as [[results err] [w4 l4]]
  end.
  simpl in *. subst l4 results. unfold pipeline.uninstall_deferred. unfold_M.
  simpl.
  assert (Hsim : ∀ tail,
    forallb (λ ev, negb (is_case_event ev)) tail = true →
    blank_result options <$> simulated body
    = blank_result options
        <$> simulated ([pipeline.EvReadDir path;
                        pipeline.EvFindDataStreamRoot path;
                        pipeline.EvInstall dataStreamPath entryPipeline
                                           pipelineIDs false]
                       ++ body ++ tail)).
  { intros tail Htail. rewrite !simulated_app.
    rewrite (simulated_case_free tail Htail), app_nil_r. done. }
  destruct (pipeline.uninstallIngestPipelines E _ _ w4) as [[err'|] w5]; simpl.
  - rewrite <- !app_assoc. simpl. eexists; split; [reflexivity|].
    split; [by apply (Hsim [_; _])|]. right.
    exists dataStreamPath, entryPipeline, pipelineIDs, body, true.
    eexists. split; [reflexivity|]. split; [done|]. by eexists.
  - rewrite <- !app_assoc. simpl. eexists; split; [reflexivity|].
    split; [by apply (Hsim [_])|]. right.
    exists dataStreamPath, entryPipeline, pipelineIDs, body, false.
    eexists. split; [reflexivity|]. by split.
Qed.

End RunLog.

(** ** What [Run] returns and what it leaves behind *)

Section RunResults.
Context {E : pipeline.Env} (options : pipeline.TestOptions E).

Lemma blank_result_fields (n : string) :
  testrunner.ErrorMsg (blank_result options n) = ""
  ∧ testrunner.FailureMsg (blank_result options n) = ""
  ∧ testrunner.TimeTaken (blank_result options n) = 0.
Proof. done. Qed.

(** The value [run] returns does not depend on [uninstallIngestPipelines]. *)
Lemma run_retarget u (s : pipeline.state E) :
  (pipeline.run (retarget u options) s).1 = (pipeline.run options s).1.
Proof.
  unfold pipeline.run. unfold pipeline.bind.
  change (pipeline.listTestCaseFiles (retarget u options) s)
    with (pipeline.listTestCaseFiles options s).
  destruct (pipeline.listTestCaseFiles options s) as [[files [err|]] s1];
    [done|].
  unfold pipeline.call, pipeline.ret. simpl.
  destruct (pipeline.FindDataStreamRootForPath E _ s1.1)
    as [[[dataStreamPath found] [err|]] w2]; [done|].
  destruct found; [|done]. simpl.
  destruct (pipeline.installIngestPipelines E _ _ w2)
    as [[[entryPipeline pipelineIDs] [err|]] w3]; [done|].
  simpl. unfold pipeline.defer, pipeline.bind, pipeline.ret.
  match goal with
  | |- context [pipeline.run_installed options ?e ?fs ?s0] =>
    change (pipeline.run_installed (retarget u options) e fs s0)
      with (pipeline.run_installed options e fs s0);
    destruct (pipeline.run_installed options e fs s0) as [r s4]
  end.
  destruct (pipeline.uninstall_deferred (retarget u options) _ s4).
  destruct (pipeline.uninstall_deferred options _ s4). done.
Qed.

(** C8. Every result in the sequence [Run] returns has an empty [ErrorMsg],
    an empty [FailureMsg] and a zero [TimeTaken]: the sequence holds one
    result for each test case that was loaded (those submitted to the
    simulate operation, in that order), carrying the type, package, data
    stream and name only, and none for a case whose load failed. *)
Theorem Run_results_blank (s : pipeline.state E) :
  let out := pipeline.Run options s in
  Forall (λ tr, testrunner.ErrorMsg tr = ""
                ∧ testrunner.FailureMsg tr = ""
                ∧ testrunner.TimeTaken tr = 0) out.1.1
  ∧ ∃ new, out.2.2 = s.2 ++ new
           ∧ out.1.1 = blank_result options <$> simulated new.
Proof.
  intros out. destruct (run_log options s) as (new & Hlog & Hres & _).
  split; [|by exists new].
  subst out. unfold pipeline.Run. rewrite Hres.
  apply Forall_fmap, Forall_true. intros n. apply blank_result_fields.
Qed.

(** A run whose log shows a successful installation: what it returns is
    what the loop returned, and the world and the log are those the loop
    left, followed by the call of [uninstallIngestPipelines]. *)
Lemma run_teardown (s : pipeline.state E) (new : list pipeline.event)
      (dataStreamPath entryPipeline : string) (pipelineIDs : list string) :
  let path := pipeline.Path (pipeline.TestFolder_ options) in
  let client := pipeline.ESClient options in
  let listed := pipeline.ReadDir E path s.1 in
  let located := pipeline.FindDataStreamRootForPath E path listed.2 in
  let installed :=
    pipeline.installIngestPipelines E client dataStreamPath located.2 in
  let files := (pipeline.listTestCaseFiles options s).1.1 in
  let installation :=
    [pipeline.EvReadDir path; pipeline.EvFindDataStreamRoot path;
     pipeline.EvInstall dataStreamPath entryPipeline pipelineIDs false] in
  let loop := pipeline.run_installed options entryPipeline files
                                     (installed.2, s.2 ++ installation) in
  let uninstalled :=
    pipeline.uninstallIngestPipelines E client pipelineIDs loop.2.1 in
  (pipeline.run options s).2.2 = s.2 ++ new →
  pipeline.EvInstall dataStreamPath entryPipeline pipelineIDs false ∈ new →
  pipeline.run options s
  = (loop.1,
     (uninstalled.2,
      loop.2.2 ++ pipeline.EvUninstall pipelineIDs
                                       (bool_decide (is_Some uninstalled.1))
               :: uninstall_warning uninstalled.1))
  ∧ ∃ body, loop.2.2 = (s.2 ++ installation) ++ body
            ∧ forallb is_case_event body = true.
Proof.
  intros path client listed located installed files installation loop
         uninstalled.
  subst uninstalled loop files installed located listed client.
  unfold pipeline.run. unfold pipeline.bind.
  rewrite !listTestCaseFiles_reads_once. fold path.
  unfold pipeline.defer, pipeline.uninstall_deferred, pipeline.bind,
    pipeline.call, pipeline.emit, pipeline.ret.
  destruct (pipeline.ReadDir E path s.1) as [[fis [err|]] w1]; simpl.
  { intros Hnew%app_inv_head Hin. subst new.
    apply list_elem_of_singleton in Hin. discriminate. }
  destruct (pipeline.FindDataStreamRootForPath E path w1)
    as [[[dsp found] [err|]] w2]; simpl.
  { rewrite <- app_assoc.
    intros Hnew%app_inv_head Hin. subst new.
    repeat (apply elem_of_cons in Hin as [Hin|Hin]; [discriminate|]).
    by apply elem_of_nil in Hin. }
  destruct found; simpl.
  2:{ rewrite <- app_assoc.
      intros Hnew%app_inv_head Hin. subst new.
      repeat (apply elem_of_cons in Hin as [Hin|Hin]; [discriminate|]).
      by apply elem_of_nil in Hin. }
  destruct (pipeline.installIngestPipelines E (pipeline.ESClient options) dsp w2)
    as [[[entry ids] [err|]] w3] eqn:Hinst; simpl.
  { rewrite <- !app_assoc.
    intros Hnew%app_inv_head Hin. subst new.
    repeat (apply elem_of_cons in Hin as [Hin|Hin]; [discriminate|]).
    by apply elem_of_nil in Hin. }
  rewrite <- !app_assoc. simpl.
  match goal with
  | |- context [pipeline.run_installed options ?e ?fs ?s0] =>
    destruct (run_installed_log options e fs s0) as (body & Hlog & Hev & _);
    destruct (pipeline.run_installed options e fs s0)
      as [[results err] [w4 l4]] eqn:Hloop
  end.
  simpl in Hlog. subst l4.
  assert (Hkey : ∀ tail l,
    l = s.2 ++ [pipeline.EvReadDir path; pipeline.EvFindDataStreamRoot path;
                pipeline.EvInstall dsp entry ids false] ++ body ++ tail →
    l = s.2 ++ new →
    pipeline.EvInstall dataStreamPath entryPipeline pipelineIDs false ∈ new →
    forallb (λ ev, negb (is_installation ev)) tail = true →
    dataStreamPath = dsp ∧ entryPipeline = entry ∧ pipelineIDs = ids).
  { intros tail l -> Hnew Hin Htail.
    apply app_inv_head in Hnew. subst new. simpl in Hin.
    repeat (apply elem_of_cons in Hin as [Hin|Hin]; [discriminate|]).
    apply elem_of_cons in Hin as [Hin|Hin]; [by simplify_eq|].
    apply elem_of_app in Hin as [Hin|Hin].
    - rewrite forallb_forall in Hev. apply list_elem_of_In, Hev in Hin. done.
    - rewrite forallb_forall in Htail. apply list_elem_of_In, Htail in Hin.
      done. }
  intros Hnew Hin.
  destruct (pipeline.uninstallIngestPipelines E (pipeline.ESClient options)
                                               ids w4)
    as [[err'|] w5] eqn:Hun; simpl in Hnew; rewrite Hun in Hnew;
    simpl in Hnew.
  - match type of Hnew with
    | ?l = _ =>
      assert (Hl : l = s.2 ++ [pipeline.EvReadDir path;
                               pipeline.EvFindDataStreamRoot path;
                               pipeline.EvInstall dsp entry ids false]
                       ++ body
                       ++ [pipeline.EvUninstall ids true;
                           pipeline.EvWarnf
                             ("uninstalling ingest pipelines failed: "
                              +:+ Error err')])
        by (by rewrite <- !app_assoc)
    end.
    destruct (Hkey _ _ Hl Hnew Hin eq_refl) as (-> & -> & ->).
    subst installation. rewrite Hinst. simpl. rewrite Hloop. simpl.
    rewrite Hun. simpl. split; [|by exists body].
    by rewrite <- !app_assoc.
  - match type of Hnew with
    | ?l = _ =>
      assert (Hl : l = s.2 ++ [pipeline.EvReadDir path;
                               pipeline.EvFindDataStreamRoot path;
                               pipeline.EvInstall dsp entry ids false]
                       ++ body ++ [pipeline.EvUninstall ids false])
        by (by rewrite <- !app_assoc)
    end.
    destruct (Hkey _ _ Hl Hnew Hin eq_refl) as (-> & -> & ->).
    subst installation. rewrite Hinst. simpl. rewrite Hloop. simpl.
    rewrite Hun. simpl. split; [|by exists body]. done.
Qed.

(** C4. When [installIngestPipelines] succeeded in a run, then however
    the loop over the test cases ended, [Run] calls
    [uninstallIngestPipelines] on exactly the installed identifiers, once,
    after the loop: the world [Run] leaves is the world that call leaves,
    and the log ends with that call, followed by a warning if and only if
    the call failed.  The results and the error [Run] returns are those of
    the loop, and they are the same whatever [uninstallIngestPipelines]
    does. *)
Theorem Run_uninstalls_installed_pipelines (s : pipeline.state E)
        (new : list pipeline.event)
        (dataStreamPath entryPipeline : string) (pipelineIDs : list string) :
  let path := pipeline.Path (pipeline.TestFolder_ options) in
  let client := pipeline.ESClient options in
  let listed := pipeline.ReadDir E path s.1 in
  let located := pipeline.FindDataStreamRootForPath E path listed.2 in
  let installed :=
    pipeline.installIngestPipelines E client dataStreamPath located.2 in
  let files := (pipeline.listTestCaseFiles options s).1.1 in
  let installation :=
    [pipeline.EvReadDir path; pipeline.EvFindDataStreamRoot path;
     pipeline.EvInstall dataStreamPath entryPipeline pipelineIDs false] in
  let loop := pipeline.run_installed options entryPipeline files
                                     (installed.2, s.2 ++ installation) in
  let uninstalled :=
    pipeline.uninstallIngestPipelines E client pipelineIDs loop.2.1 in
  (pipeline.Run options s).2.2 = s.2 ++ new →
  pipeline.EvInstall dataStreamPath entryPipeline pipelineIDs false ∈ new →
  (pipeline.Run options s).2.1 = uninstalled.2
  ∧ (∃ body,
       new = installation ++ body
             ++ pipeline.EvUninstall pipelineIDs
                                     (bool_decide (is_Some uninstalled.1))
             :: uninstall_warning uninstalled.1
       ∧ forallb is_case_event body = true)
  ∧ (pipeline.Run options s).1 = loop.1
  ∧ ∀ u, (pipeline.Run (retarget u options) s).1 = (pipeline.Run options s).1.
Proof.
  intros path client listed located installed files installation loop
         uninstalled Hnew Hin.
  destruct (run_teardown s new dataStreamPath entryPipeline pipelineIDs
              Hnew Hin) as (Hrun & body & Hloop & Hbody).
  fold path client listed located installed files installation loop
       uninstalled in Hrun, Hloop.
  unfold pipeline.Run in *.
  assert (Hret : ∀ u, (pipeline.run (retarget u options) s).1
                      = (pipeline.run options s).1)
    by (intros u; apply run_retarget).
  revert Hret. rewrite Hrun in Hnew. rewrite Hrun. simpl in *. intros Hret.
  split; [done|]. split; [|by split].
  exists body. split; [|done].
  rewrite Hloop, <- !app_assoc in Hnew. by apply app_inv_head in Hnew.
Qed.

(** In generate mode a failed write is returned wrapped, and the expected
    result is not compared. *)
Lemma verifyResults_generate_write_failed (testCaseFile : string)
      (result : pipeline.testResult E) (s : pipeline.state E) (err : error) :
  let path := pipeline.Join E (pipeline.Path (pipeline.TestFolder_ options))
                            testCaseFile in
  pipeline.GenerateTestResult options = true →
  (pipeline.writeTestResult E path result s.1).1 = Some err →
  let out := pipeline.verifyResults options testCaseFile result s in
  out.1 = Some (errorsWrap err "writing test result failed")
  ∧ out.2.2 = s.2 ++ [pipeline.EvWriteTestResult path true].
Proof.
  intros path Hgen Hwrite. unfold pipeline.verifyResults.
  rewrite Hgen. fold path.
  unfold pipeline.bind, pipeline.call, pipeline.ret.
  destruct (pipeline.writeTestResult E path result s.1) as [e w1].
  simpl in *. by subst e.
Qed.

(** C7, as far as it holds.  In generate mode [verifyResults] first writes
    the observed result as the expected result of the test case.  When the
    write fails it returns that error wrapped and compares nothing.  When
    the write succeeds it compares in the store the write left, and with
    the write-then-compare round trip of the store it returns no error.
    The equation fixes the value, the store left behind and the calls
    made. *)
Theorem verifyResults_generate_matches (testCaseFile : string)
        (result : pipeline.testResult E) (s : pipeline.state E) :
  let path := pipeline.Join E (pipeline.Path (pipeline.TestFolder_ options))
                            testCaseFile in
  let written := pipeline.writeTestResult E path result s.1 in
  let compared := pipeline.compareResults E path result written.2 in
  pipeline.GenerateTestResult options = true →
  write_then_compare_matches E →
  pipeline.verifyResults options testCaseFile result s
  = match written.1 with
    | Some err =>
      (Some (errorsWrap err "writing test result failed"),
       (written.2, s.2 ++ [pipeline.EvWriteTestResult path true]))
    | None =>
      (None,
       (compared.2, s.2 ++ [pipeline.EvWriteTestResult path false;
                            pipeline.EvCompareResults path]))
    end.
Proof.
  intros path written compared Hgen Hrt. unfold pipeline.verifyResults.
  rewrite Hgen. fold path.
  unfold pipeline.bind, pipeline.call, pipeline.ret.
  subst compared written.
  destruct (pipeline.writeTestResult E path result s.1) as [[err|] w1] eqn:Hw;
    simpl; [done|].
  specialize (Hrt path result s.1 w1 Hw).
  destruct (pipeline.compareResults E path result w1) as [e w2].
  simpl in *. subst e. simpl. by rewrite <- app_assoc.
Qed.

End RunResults.

(** ** The runner on the test folder in memory *)

Lemma memfs_write_then_compare : write_then_compare_matches memfs.env.
Proof.
  intros path result w w' Hw. simpl in *. injection Hw as <-. simpl.
  rewrite lookup_insert_eq. simpl. by rewrite String.eqb_refl.
Qed.

Lemma Run_uninstalls_installed_pipelines_witness :
  let accepted := pipeline.Run (memfs.options false) (memfs.two_cases false, []) in
  let refused := pipeline.Run (memfs.options false) (memfs.two_cases true, []) in
  let aborted := pipeline.Run (memfs.options false) (memfs.csv_case, []) in
  (memfs.installed accepted.2.1 = []
   ∧ last accepted.2.2 = Some (pipeline.EvUninstall ["entry"; "sub"] false))
  ∧ (memfs.installed refused.2.1 = ["entry"; "sub"]
     ∧ refused.2.2 = two_cases_log
     ∧ ∀ u, (pipeline.Run (retarget u (memfs.options false))
                          (memfs.two_cases true, [])).1
            = refused.1)
  ∧ (memfs.installed aborted.2.1 = []
     ∧ last aborted.2.2 = Some (pipeline.EvUninstall ["entry"; "sub"] false)
     ∧ is_abort aborted.1.2).
Proof.
  intros accepted refused aborted. split; [|split].
  - destruct (Run_uninstalls_installed_pipelines
                (memfs.options false) (memfs.two_cases false, [])
                accepted.2.2 "/pkg/data_stream/ds" "entry" ["entry"; "sub"])
      as (Hworld & (body & Hlog & _) & _).
    + reflexivity.
    + do 2 apply list_elem_of_further. apply list_elem_of_here.
    + split.
      * fold accepted in Hworld. rewrite Hworld. reflexivity.
      * rewrite Hlog. rewrite !app_assoc. apply last_snoc.
  - destruct (Run_uninstalls_installed_pipelines
                (memfs.options false) (memfs.two_cases true, [])
                two_cases_log "/pkg/data_stream/ds" "entry" ["entry"; "sub"])
      as (Hworld & _ & _ & Hret).
    + vm_compute. reflexivity.
    + do 2 apply list_elem_of_further. apply list_elem_of_here.
    + split; [|split].
      * fold refused in Hworld. rewrite Hworld. reflexivity.
      * vm_compute. reflexivity.
      * exact Hret.
  - destruct (Run_uninstalls_installed_pipelines
                (memfs.options false) (memfs.csv_case, [])
                aborted.2.2 "/pkg/data_stream/ds" "entry" ["entry"; "sub"])
      as (Hworld & (body & Hlog & _) & Hres & _).
    + reflexivity.
    + do 2 apply list_elem_of_further. apply list_elem_of_here.
    + split; [|split].
      * fold aborted in Hworld. rewrite Hworld. reflexivity.
      * rewrite Hlog. rewrite !app_assoc. apply last_snoc.
      * fold aborted in Hres. rewrite Hres. vm_compute. eauto.
Defined.

(** The store with a write-protected expected result has the round trip. *)
Lemma write_protected_round_trip (protected : string) :
  write_then_compare_matches (write_protected protected).
Proof.
  intros path result w w' Hw. simpl in Hw.
  destruct (String.eqb path protected); [discriminate|].
  injection Hw as <-. simpl.
  rewrite lookup_insert_eq. simpl. by rewrite String.eqb_refl.
Qed.

Lemma verifyResults_generate_matches_witness :
  let path := memfs.dir +:+ "/case2.json" in
  let out := pipeline.verifyResults (memfs.options true) "case2.json" "b"
                                    (memfs.two_cases false, []) in
  let refused := pipeline.verifyResults (write_protected_options path)
                                        "case2.json" "b"
                                        (memfs.two_cases false, []) in
  (memfs.golden (memfs.two_cases false) !! path = Some "c"
   ∧ out.1 = None
   ∧ memfs.golden out.2.1 !! path = Some "b"
   ∧ out.2.2 = [pipeline.EvWriteTestResult path false;
                pipeline.EvCompareResults path])
  ∧ (refused.1 = Some (errorsWrap permission_denied "writing test result failed")
     ∧ memfs.golden refused.2.1 !! path = Some "c"
     ∧ refused.2.2 = [pipeline.EvWriteTestResult path true]).
Proof.
  intros path out refused. subst out refused. split.
  - rewrite (verifyResults_generate_matches
               (memfs.options true) "case2.json" "b" (memfs.two_cases false, [])
               eq_refl memfs_write_then_compare).
    vm_compute. done.
  - rewrite (verifyResults_generate_matches
               (write_protected_options path) "case2.json" "b"
               (memfs.two_cases false, [])
               eq_refl (write_protected_round_trip path)).
    vm_compute. done.
Defined.

(** C7 as stated fails: when the expected result of [case2.json] is
    write-protected, the store still has the round trip and generate mode
    is on, and [verifyResults] returns an error for [case2.json]; nothing
    is written or compared.  For [case1.json], in the same store, the
    write goes through and the comparison matches. *)
Lemma verifyResults_generate_write_refused :
  let protected := memfs.dir +:+ "/case2.json" in
  let options := write_protected_options protected in
  write_then_compare_matches (write_protected protected)
  ∧ pipeline.GenerateTestResult options = true
  ∧ pipeline.verifyResults options "case2.json" "b" (memfs.two_cases false, [])
    = (Some (errorsWrap permission_denied "writing test result failed"),
       (memfs.two_cases false, [pipeline.EvWriteTestResult protected true]))
  ∧ (pipeline.verifyResults options "case1.json" "z"
                            (memfs.two_cases false, [])).1 = None.
Proof.
  intros protected options. split; [|split; [|split]].
  - apply write_protected_round_trip.
  - reflexivity.
  - vm_compute. reflexivity.
  - vm_compute. reflexivity.
Qed.

(** C1, on a folder whose first file is [case3.csv]: [Run] returns the load
    error and no result at all, although the body of the loop had put the
    error text on its local result. *)
Example Run_unsupported_extension :
  let err := errorsWrap
               (errorsNew "unsupported extension for test case file (ext: .csv)")
               "loading test case failed" in
  (pipeline.Run (memfs.options false) (memfs.csv_case, [])).1 = ([], Some err)
  ∧ (pipeline.run_case (memfs.options false) "entry" false [] "case3.csv"
                       (memfs.csv_case, [])).1
    = (testrunner.set_ErrorMsg (Error err)
         (blank_result (memfs.options false) ""),
       pipeline.Return [] err).
Proof. split; vm_compute; reflexivity. Qed.

(** C2, on a folder where [case1.json] matches its golden file and
    [case2.json] differs from it: [Run] returns both results and the error
    that at least one test case failed, but the result of [case2.json] has
    an empty [FailureMsg]; the failure text was put on the local result of
    the iteration only. *)
Example Run_mismatch_not_recorded :
  (pipeline.Run (memfs.options false) (memfs.two_cases false, [])).1
  = ([blank_result (memfs.options false) "case1.json";
      blank_result (memfs.options false) "case2.json"],
     Some (errorsNew "at least one test case failed"))
  ∧ (pipeline.run_case (memfs.options false) "entry" false
                       [blank_result (memfs.options false) "case1.json"]
                       "case2.json" (memfs.two_cases false, [])).1
    = (testrunner.set_FailureMsg errTestCaseFailed_text
         (testrunner.set_TimeTaken 1
            (blank_result (memfs.options false) "case2.json")),
       pipeline.Next true [blank_result (memfs.options false) "case1.json";
                           blank_result (memfs.options false) "case2.json"]).
Proof. split; vm_compute; reflexivity. Qed.

(** ** The grouping loop of [reportXUnitFormat] *)

Section Grouping.
Import testrunner.

Lemma get3_assign3 (m : formats.cases_by_type) tt p d v tt' p' d' :
  get3 (formats.assign3 m tt p d v) tt' p' d'
  = if decide (tt = tt' ∧ p = p' ∧ d = d') then Some v else get3 m tt' p' d'.
Proof.
  unfold get3, formats.assign3, formats.assign2.
  rewrite lookup_total_insert. destruct (decide (tt = tt')) as [->|Htt].
  - rewrite lookup_total_insert. destruct (decide (p = p')) as [->|Hp].
    + rewrite lookup_insert. destruct (decide (d = d')) as [->|Hd].
      * by rewrite decide_True.
      * rewrite decide_False; [done | by intros (_ & _ & ?)].
    + rewrite decide_False; [done | by intros (_ & ? & _)].
  - rewrite decide_False; [done | by intros (? & _ & _)].
Qed.

Lemma get3_ensure_type (m : formats.cases_by_type) tt tt' p' d' :
  m !! tt = None → get3 (<[tt := ∅]> m) tt' p' d' = get3 m tt' p' d'.
Proof.
  intros Hnone. unfold get3. rewrite lookup_total_insert.
  destruct (decide (tt = tt')) as [<-|]; [|done].
  by rewrite (lookup_total_alt m tt), Hnone.
Qed.

Lemma get3_ensure_package (m : formats.cases_by_type) tt p tt' p' d' :
  (m !!! tt) !! p = None →
  get3 (formats.assign2 m tt p ∅) tt' p' d' = get3 m tt' p' d'.
Proof.
  intros Hnone. unfold get3, formats.assign2. rewrite lookup_total_insert.
  destruct (decide (tt = tt')) as [<-|]; [|done].
  rewrite lookup_total_insert. destruct (decide (p = p')) as [<-|]; [|done].
  by rewrite (lookup_total_alt (m !!! tt) p), Hnone.
Qed.

(** The three existence checks leave every group as it was, except that
    the group of [r] now exists. *)
Lemma add_result_tests (st : formats.counters) (r : TestResult) tt p d :
  get3 (formats.tests (formats.add_result st r)) tt p d
  = if decide (in_group tt p d r)
    then Some (default [] (get3 (formats.tests st) tt p d) ++ [xunit_case r])
    else get3 (formats.tests st) tt p d.
Proof.
  unfold formats.add_result.
  set (t0 := formats.tests st).
  set (t1 := match t0 !! TestType r with
             | Some _ => t0 | None => <[TestType r := ∅]> t0 end).
  set (t2 := match (t1 !!! TestType r) !! Package r with
             | Some _ => t1
             | None => formats.assign2 t1 (TestType r) (Package r) ∅ end).
  set (t3 := match ((t2 !!! TestType r) !!! Package r) !! DataStream r with
             | Some _ => t2
             | None => formats.assign3 t2 (TestType r) (Package r)
                                       (DataStream r) [] end).
  assert (H1 : ∀ a b c, get3 t1 a b c = get3 t0 a b c).
  { intros a b c. subst t1. destruct (t0 !! TestType r) eqn:H0; [done|].
    by apply get3_ensure_type. }
  assert (H2 : ∀ a b c, get3 t2 a b c = get3 t0 a b c).
  { intros a b c. rewrite <- H1. subst t2.
    destruct ((t1 !!! TestType r) !! Package r) eqn:H0; [done|].
    by apply get3_ensure_package. }
  assert (H3 : default [] (get3 t3 (TestType r) (Package r) (DataStream r))
               = default [] (get3 t0 (TestType r) (Package r) (DataStream r))).
  { rewrite <- H2. subst t3. unfold get3 at 2.
    destruct (((t2 !!! TestType r) !!! Package r) !! DataStream r) eqn:H0.
    - unfold get3. by rewrite H0.
    - rewrite get3_assign3, decide_True; done. }
  assert (H3' : ∀ a b c, ¬ in_group a b c r → get3 t3 a b c = get3 t0 a b c).
  { intros a b c Hne. rewrite <- H2. subst t3.
    destruct (((t2 !!! TestType r) !!! Package r) !! DataStream r); [done|].
    rewrite get3_assign3, decide_False; [done|].
    unfold in_group in Hne. naive_solver. }
  assert (Hcase : ∀ failure nf,
    (let '(failure, numFailures) :=
       if negb (String.eqb (FailureMsg r) "")
       then (FailureMsg r, formats.numFailures st + 1)
       else ("", formats.numFailures st) in
     (if negb (String.eqb (FailureDetails r) "")
      then failure +:+ ": " +:+ FailureDetails r else failure, numFailures))
    = (failure, nf) →
    formats.testCase.mk (Name r) "" (TimeElapsed r) (ErrorMsg r) failure
    = xunit_case r).
  { intros failure nf. unfold xunit_case.
    destruct (String.eqb_spec (FailureMsg r) "") as [->|];
      destruct (String.eqb (FailureDetails r) ""); simpl; by intros [= <- _]. }
  destruct (if negb (String.eqb (FailureMsg r) "")
            then (FailureMsg r, formats.numFailures st + 1)
            else ("", formats.numFailures st)) as [failure nf] eqn:Hf.
  simpl. rewrite get3_assign3.
  fold (get3 t3 (TestType r) (Package r) (DataStream r)).
  rewrite (Hcase _ nf eq_refl).
  destruct (decide (in_group tt p d r)) as [(<- & <- & <-)|Hne].
  - rewrite decide_True by done. do 2 f_equal.
    rewrite (lookup_total_alt ((t3 !!! TestType r) !!! Package r)).
    exact H3.
  - rewrite decide_False; [by apply H3'|].
    unfold in_group in Hne. naive_solver.
Qed.

Lemma add_result_counts (st : formats.counters) (r : TestResult) :
  formats.numTests (formats.add_result st r) = formats.numTests st + 1
  ∧ formats.numFailures (formats.add_result st r)
    = formats.numFailures st + count_failures [r]
  ∧ formats.numErrors (formats.add_result st r)
    = formats.numErrors st + count_errors [r].
Proof.
  unfold formats.add_result, count_failures, count_errors.
  rewrite !filter_cons, !filter_nil.
  destruct (String.eqb_spec (FailureMsg r) "") as [Hf|Hf];
    destruct (String.eqb_spec (ErrorMsg r) "") as [He|He]; simpl;
    repeat case_decide; simpl; try done; repeat split; lia.
Qed.

Lemma fold_add_result_counts (results : list TestResult) (st : formats.counters) :
  let st' := fold_left formats.add_result results st in
  formats.numTests st' = formats.numTests st + Z.of_nat (length results)
  ∧ formats.numFailures st' = formats.numFailures st + count_failures results
  ∧ formats.numErrors st' = formats.numErrors st + count_errors results.
Proof.
  revert st. induction results as [|r rs IH]; intros st; simpl.
  { unfold count_failures, count_errors. simpl. repeat split; lia. }
  destruct (IH (formats.add_result st r)) as (-> & -> & ->).
  destruct (add_result_counts st r) as (-> & -> & ->).
  unfold count_failures, count_errors. rewrite !filter_cons, !filter_nil.
  repeat case_decide; simpl length; repeat split; lia.
Qed.

Lemma group_results_counts (results : list TestResult) :
  let st := formats.group_results results in
  formats.numTests st = Z.of_nat (length results)
  ∧ formats.numFailures st = count_failures results
  ∧ formats.numErrors st = count_errors results.
Proof.
  destruct (fold_add_result_counts results (formats.mkCounters ∅ 0 0 0))
    as (H1 & H2 & H3).
  unfold formats.group_results. simpl in *. by rewrite H1, H2, H3.
Qed.

Lemma fold_add_result_tests (results : list TestResult) (st : formats.counters)
      tt p d :
  get3 (formats.tests (fold_left formats.add_result results st)) tt p d
  = match filter (in_group tt p d) results with
    | [] => get3 (formats.tests st) tt p d
    | l => Some (default [] (get3 (formats.tests st) tt p d) ++ (xunit_case <$> l))
    end.
Proof.
  revert st. induction results as [|r rs IH]; intros st; simpl; [done|].
  rewrite IH, add_result_tests, filter_cons.
  destruct (decide (in_group tt p d r)) as [Hin|Hin]; [|done].
  destruct (filter (in_group tt p d) rs) as [|r' l]; simpl; [done|].
  by rewrite <- app_assoc.
Qed.

Lemma get3_empty tt p d : get3 ∅ tt p d = None.
Proof. reflexivity. Qed.

(** Each group of the map holds the cases of its results, in input order. *)
Lemma group_results_tests (results : list TestResult) tt p d :
  get3 (formats.tests (formats.group_results results)) tt p d
  = match filter (in_group tt p d) results with
    | [] => None
    | l => Some (xunit_case <$> l)
    end.
Proof.
  unfold formats.group_results. rewrite fold_add_result_tests. simpl.
  by rewrite get3_empty.
Qed.

Lemma get3_Some (m : formats.cases_by_type) tt p d cs :
  get3 m tt p d = Some cs →
  ∃ pm dm, m !! tt = Some pm ∧ pm !! p = Some dm ∧ dm !! d = Some cs.
Proof.
  unfold get3. rewrite (lookup_total_alt m tt).
  destruct (m !! tt) as [pm|]; [|intros H; by vm_compute in H].
  simpl. rewrite (lookup_total_alt pm p).
  destruct (pm !! p) as [dm|] eqn:Hp; [|intros H; by vm_compute in H].
  simpl. intros Hd. by exists pm, dm.
Qed.

End Grouping.

(** ** The suite tree of [reportXUnitFormat] *)

Section SuiteTree.
Import testrunner.

Lemma Forall2_elem_of_l {A B} (R : A → B → Prop) l k x :
  Forall2 R l k → x ∈ l → ∃ y, y ∈ k ∧ R x y.
Proof.
  induction 1 as [|a b l k HR _ IH]; intros Hin.
  - by apply elem_of_nil in Hin.
  - apply elem_of_cons in Hin as [->|Hin].
    + exists b. split; [apply list_elem_of_here | done].
    + destruct (IH Hin) as (y & Hy & HRy). exists y.
      split; [by apply list_elem_of_further | done].
Qed.

Lemma Forall2_fmap_fun {A B} (f : A → B) (R : A → B → Prop) (l : list A) :
  (∀ x, R x (f x)) → Forall2 R l (f <$> l).
Proof. intros HR. induction l; constructor; auto. Qed.

(** Every way of reordering the listings gives a possible tree. *)
Lemma suite_tree_by_ok pick (results : list TestResult) :
  (∀ A (l : list (string * A)), pick A l ≡ₚ l) →
  formats.suite_tree results (formats.suite_tree_by pick results).
Proof.
  intros Hpick. unfold formats.suite_tree, formats.suite_tree_by.
  eexists _, _. split; [by apply Hpick|]. split; [|reflexivity].
  apply Forall2_fmap_fun. intros [tt pm]. eexists _, _.
  split; [by apply Hpick|]. split; [|reflexivity].
  apply Forall2_fmap_fun. intros [p dm]. eexists.
  split; [by apply Hpick | done].
Qed.

(** The listed order is one of the possible orders. *)
Lemma suite_tree_listed_ok (results : list TestResult) :
  formats.suite_tree results (formats.suite_tree_listed results).
Proof. by apply suite_tree_by_ok. Qed.

(** A group of the map is a data-stream suite of the tree, under the
    package suite and the test-type suite of its keys. *)
Lemma suite_tree_group (results : list TestResult) (ts : formats.testSuites.t)
      tt p d cs :
  formats.suite_tree results ts →
  get3 (formats.tests (formats.group_results results)) tt p d = Some cs →
  ∃ tsuite psuite dsuite,
    tsuite ∈ formats.testSuites.Suites ts
    ∧ formats.testSuite.Name tsuite = tt
    ∧ psuite ∈ formats.testSuite.Suites tsuite
    ∧ formats.testSuite.Name psuite = p
    ∧ dsuite ∈ formats.testSuite.Suites psuite
    ∧ formats.testSuite.Name dsuite = d
    ∧ formats.testSuite.Cases dsuite = cs.
Proof.
  intros (order & suites & Horder & Hsuites & ->) Hget.
  apply get3_Some in Hget as (pm & dm & Htt & Hp & Hd).
  assert (Hin : (tt, pm) ∈ order).
  { unfold go_range in Horder. rewrite Horder. by apply elem_of_map_to_list. }
  destruct (Forall2_elem_of_l _ _ _ _ Hsuites Hin)
    as (tsuite & Htsuite & order' & suites' & Horder' & Hsuites' & ->).
  assert (Hin' : (p, dm) ∈ order').
  { unfold go_range in Horder'. rewrite Horder'. by apply elem_of_map_to_list. }
  destruct (Forall2_elem_of_l _ _ _ _ Hsuites' Hin')
    as (psuite & Hpsuite & order'' & Horder'' & ->).
  assert (Hin'' : (d, cs) ∈ order'').
  { unfold go_range in Horder''. rewrite Horder''. by apply elem_of_map_to_list. }
  exists (formats.testTypeSuite (formats.group_results results) tt suites'),
         (formats.pkgSuite p order''), (formats.dsSuite (d, cs)).
  simpl. repeat split; try done.
  by apply (list_elem_of_fmap_2 formats.dsSuite).
Qed.

Lemma suite_tree_counts (results : list TestResult)
      (ts : formats.testSuites.t) :
  formats.suite_tree results ts →
  Forall (λ s, formats.testSuite.NumTests s = Z.of_nat (length results)
               ∧ formats.testSuite.NumFailures s = count_failures results
               ∧ formats.testSuite.NumErrors s = count_errors results)
         (formats.testSuites.Suites ts).
Proof.
  intros (order & suites & _ & Hsuites & ->). simpl.
  destruct (group_results_counts results) as (H1 & H2 & H3).
  induction Hsuites as [|kv s order suites (o & ss & _ & _ & ->) _ IH];
    constructor; [|done].
  simpl. by rewrite H1, H2, H3.
Qed.

(** C9. A result with an empty [FailureMsg] and a non-empty
    [FailureDetails] yields, in the data-stream suite of its group, a case
    whose failure text is ": " followed by the details, and it is not
    counted among the failures: the failures total is that of the input
    without this result. *)
Theorem xunit_details_without_message (pre post : list TestResult)
        (r : TestResult) (ts : formats.testSuites.t) :
  FailureMsg r = "" →
  FailureDetails r ≠ "" →
  formats.suite_tree (pre ++ r :: post) ts →
  (∃ tsuite psuite dsuite,
     tsuite ∈ formats.testSuites.Suites ts
     ∧ formats.testSuite.Name tsuite = TestType r
     ∧ psuite ∈ formats.testSuite.Suites tsuite
     ∧ formats.testSuite.Name psuite = Package r
     ∧ dsuite ∈ formats.testSuite.Suites psuite
     ∧ formats.testSuite.Name dsuite = DataStream r
     ∧ formats.testCase.mk (Name r) "" (TimeElapsed r) (ErrorMsg r)
                           (": " +:+ FailureDetails r)
       ∈ formats.testSuite.Cases dsuite)
  ∧ Forall (λ s, formats.testSuite.NumFailures s = count_failures (pre ++ post))
           (formats.testSuites.Suites ts).
Proof.
  intros Hmsg Hdetails Htree. split.
  - pose proof (group_results_tests (pre ++ r :: post)
                  (TestType r) (Package r) (DataStream r)) as Hget.
    assert (Hr : r ∈ filter (in_group (TestType r) (Package r) (DataStream r))
                            (pre ++ r :: post)).
    { apply list_elem_of_filter. split; [done|].
      apply elem_of_app. right. apply list_elem_of_here. }
    destruct (filter _ (pre ++ r :: post)) as [|r' l] eqn:Hfilter;
      [by apply elem_of_nil in Hr|].
    destruct (suite_tree_group _ _ _ _ _ _ Htree Hget)
      as (tsuite & psuite & dsuite & H1 & H2 & H3 & H4 & H5 & H6 & H7).
    exists tsuite, psuite, dsuite. repeat split; try done.
    rewrite H7. apply list_elem_of_fmap. exists r. split; [|done].
    unfold xunit_case. rewrite Hmsg.
    by destruct (String.eqb_spec (FailureDetails r) "").
  - eapply Forall_impl; [by apply suite_tree_counts|].
    intros s (_ & -> & _). unfold count_failures.
    rewrite !filter_app, filter_cons_False; [done|]. by intros [].
Qed.

End SuiteTree.

(** ** How far the order of [range] determines the report *)

Section Determinism.
Import testrunner.

Lemma Forall2_same_source {A B} (R1 R2 : A → B → Prop) (Q : B → B → Prop)
      (l : list A) (s t : list B) :
  (∀ x a b, R1 x a → R2 x b → Q a b) →
  Forall2 R1 l s → Forall2 R2 l t → Forall2 Q s t.
Proof.
  intros HQ H1. revert t. induction H1 as [|x a l s Ha _ IH]; intros t H2.
  - apply Forall2_nil_inv_l in H2 as ->. constructor.
  - apply Forall2_cons_inv_l in H2 as (b & t' & Hb & Ht' & ->).
    constructor; [by eapply HQ | by apply IH].
Qed.

(** Images of two enumerations of the same entries agree up to order. *)
Lemma Forall2_reordered {A B} (R1 R2 : A → B → Prop) (Q : B → B → Prop)
      (l1 l2 : list A) (s1 s2 : list B) :
  (∀ x a b, R1 x a → R2 x b → Q a b) →
  l1 ≡ₚ l2 → Forall2 R1 l1 s1 → Forall2 R2 l2 s2 →
  ∃ reordered, s1 ≡ₚ reordered ∧ Forall2 Q reordered s2.
Proof.
  intros HQ Hperm H1 H2.
  destruct (Permutation_Forall2 Hperm H1) as (s1' & Hs1 & H1').
  exists s1'. split; [done|]. by eapply Forall2_same_source.
Qed.

Lemma dsSuite_equiv (kv : string * list formats.testCase.t) :
  suite_equiv (formats.dsSuite kv) (formats.dsSuite kv).
Proof. by apply (suite_equiv_intro _ _ _ _ _ [] [] []). Qed.

Lemma pkgSuite_of_equiv kv (a b : formats.testSuite.t) :
  formats.pkgSuite_of kv a → formats.pkgSuite_of kv b → suite_equiv a b.
Proof.
  intros (o1 & Ho1 & ->) (o2 & Ho2 & ->). unfold go_range in *.
  apply suite_equiv_intro with (reordered := formats.dsSuite <$> o2).
  - apply fmap_Permutation. by rewrite Ho1, Ho2.
  - apply Forall2_fmap, Forall_Forall2_diag, Forall_true, dsSuite_equiv.
Qed.

Lemma testTypeSuite_of_equiv st kv (a b : formats.testSuite.t) :
  formats.testTypeSuite_of st kv a → formats.testTypeSuite_of st kv b →
  suite_equiv a b.
Proof.
  intros (o1 & s1 & Ho1 & Hs1 & ->) (o2 & s2 & Ho2 & Hs2 & ->).
  unfold go_range in *.
  destruct (Forall2_reordered _ _ suite_equiv o1 o2 s1 s2 pkgSuite_of_equiv)
    as (reordered & Hperm & Hequiv); [by rewrite Ho1, Ho2 | done | done |].
  by eapply suite_equiv_intro.
Qed.

(** Two suite trees of the same results differ at most in the order of
    sibling suites. *)
Lemma suite_tree_equiv (results : list TestResult)
      (ts1 ts2 : formats.testSuites.t) :
  formats.suite_tree results ts1 → formats.suite_tree results ts2 →
  ∃ reordered, formats.testSuites.Suites ts1 ≡ₚ reordered
               ∧ Forall2 suite_equiv reordered (formats.testSuites.Suites ts2).
Proof.
  intros (o1 & s1 & Ho1 & Hs1 & ->) (o2 & s2 & Ho2 & Hs2 & ->).
  unfold go_range in *. simpl.
  eapply Forall2_reordered; [apply testTypeSuite_of_equiv | | done | done].
  by rewrite Ho1, Ho2.
Qed.

Ltac map_steps :=
  repeat first
    [ rewrite lookup_empty | rewrite lookup_total_insert_eq
    | rewrite lookup_insert_eq | rewrite insert_insert_eq
    | rewrite lookup_total_singleton_eq | rewrite lookup_singleton_eq
    | rewrite insert_singleton_eq | rewrite insert_empty
    | progress unfold formats.assign3, formats.assign2
    | progress simpl ].

(** A group added to the empty map, or to the map that holds only this
    group, gives the map that holds only this group. *)
Lemma add_result_one_group (st : formats.counters) (r : TestResult) tt p d :
  in_group tt p d r →
  (formats.tests st = ∅ ∨ ∃ cs, formats.tests st = {[tt := {[p := {[d := cs]}]}]}) →
  ∃ cs, formats.tests (formats.add_result st r) = {[tt := {[p := {[d := cs]}]}]}.
Proof.
  intros (<- & <- & <-) [Hst | [cs Hst]]; unfold formats.add_result;
    rewrite Hst; destruct (negb (String.eqb (FailureMsg r) ""));
    map_steps; by eexists.
Qed.

Lemma fold_add_result_one_group (results : list TestResult)
      (st : formats.counters) tt p d :
  Forall (in_group tt p d) results →
  (formats.tests st = ∅ ∨ ∃ cs, formats.tests st = {[tt := {[p := {[d := cs]}]}]}) →
  let st' := fold_left formats.add_result results st in
  formats.tests st' = ∅ ∨ ∃ cs, formats.tests st' = {[tt := {[p := {[d := cs]}]}]}.
Proof.
  intros Hall. revert st. induction Hall as [|r rs Hr _ IH]; intros st Hst.
  - done.
  - simpl. apply IH. right. by apply add_result_one_group.
Qed.

(** Over a map with at most one entry at each level, every [range] has one
    possible order, so the suite tree is unique. *)
Lemma suite_tree_one_group (results : list TestResult)
      (ts1 ts2 : formats.testSuites.t) :
  one_group results →
  formats.suite_tree results ts1 → formats.suite_tree results ts2 → ts1 = ts2.
Proof.
  intros (tt & p & d & Hall).
  assert (Hshape :
    formats.tests (formats.group_results results) = ∅
    ∨ ∃ cs, formats.tests (formats.group_results results)
            = {[tt := {[p := {[d := cs]}]}]}).
  { apply (fold_add_result_one_group results (formats.mkCounters ∅ 0 0 0)
             tt p d Hall). by left. }
  unfold formats.suite_tree, formats.suite_tree_listed, formats.suite_tree_by.
  cbv zeta.
  remember (formats.group_results results) as st eqn:Hst_def. clear Hst_def.
  assert (Hunique : ∀ ts,
    (∃ order suites, go_range (formats.tests st) order
                     ∧ Forall2 (formats.testTypeSuite_of st) order suites
                     ∧ ts = formats.testSuites.mk suites) →
    ts = formats.testSuites.mk
           (map (λ kv : string * formats.cases_by_pkg,
                   formats.testTypeSuite st kv.1
                     (map (λ kv' : string * formats.cases_by_ds,
                             formats.pkgSuite kv'.1 (map_to_list kv'.2))
                          (map_to_list kv.2)))
                (map_to_list (formats.tests st)))).
  { intros ts (order & suites & Horder & Hsuites & ->).
    unfold go_range in Horder.
    destruct Hshape as [Hst | [cs Hst]]; rewrite Hst in *.
    - rewrite map_to_list_empty in *. apply Permutation_nil_r in Horder as ->.
      by apply Forall2_nil_inv_l in Hsuites as ->.
    - rewrite map_to_list_singleton in *.
      apply Permutation_singleton_r in Horder as ->.
      apply Forall2_cons_inv_l in Hsuites
        as (s & rest & (o' & ss' & Ho' & Hss' & ->) & ->%Forall2_nil_inv_l & ->).
      unfold go_range in Ho'. simpl in *.
      rewrite map_to_list_singleton in *.
      apply Permutation_singleton_r in Ho' as ->.
      apply Forall2_cons_inv_l in Hss'
        as (s' & rest' & (o'' & Ho'' & ->) & ->%Forall2_nil_inv_l & ->).
      unfold go_range in Ho''. simpl in *.
      rewrite map_to_list_singleton in *.
      by apply Permutation_singleton_r in Ho'' as ->. }
  intros H1 H2. by rewrite (Hunique ts1 H1), (Hunique ts2 H2).
Qed.

(** C6, as far as it holds.  Two renderings of the same results are the
    encodings of two suite trees that differ at most in the order of
    sibling suites; when all results belong to one group (one test type,
    one package, one data stream) the two outputs are byte-identical. *)
Theorem xunit_rendering_up_to_order (results : list TestResult)
        (out1 out2 : string * option error) :
  formats.reportXUnitFormat results out1 →
  formats.reportXUnitFormat results out2 →
  (one_group results → out1 = out2)
  ∧ ∃ ts1 ts2 reordered,
      out1 = formats.format_tree ts1 ∧ out2 = formats.format_tree ts2
      ∧ formats.testSuites.Suites ts1 ≡ₚ reordered
      ∧ Forall2 suite_equiv reordered (formats.testSuites.Suites ts2).
Proof.
  intros (ts1 & Hts1 & ->) (ts2 & Hts2 & ->). split.
  - intros Hone. by rewrite (suite_tree_one_group results ts1 ts2).
  - destruct (suite_tree_equiv results ts1 ts2 Hts1 Hts2) as (reordered & ? & ?).
    by exists ts1, ts2, reordered.
Qed.

End Determinism.

(** C6 as stated fails: with two packages, visiting the entries of the
    package map in the listed order or in the reverse order gives two
    outputs of [reportXUnitFormat] that differ. *)
Lemma xunit_rendering_not_deterministic :
  ∃ out1 out2,
    formats.reportXUnitFormat two_packages out1
    ∧ formats.reportXUnitFormat two_packages out2
    ∧ out1 ≠ out2.
Proof.
  exists (formats.format_tree (formats.suite_tree_by (λ _ l, l) two_packages)),
         (formats.format_tree (formats.suite_tree_by (λ _ l, rev l) two_packages)).
  split; [|split].
  - eexists. split; [|reflexivity]. by apply suite_tree_by_ok.
  - eexists. split; [|reflexivity]. apply suite_tree_by_ok.
    intros A l. symmetry. apply Permutation_rev.
  - vm_compute. discriminate.
Qed.

Lemma xunit_rendering_up_to_order_witness :
  (let out1 := formats.format_tree
                 (formats.suite_tree_by (λ _ l, l) two_packages) in
   let out2 := formats.format_tree
                 (formats.suite_tree_by (λ _ l, rev l) two_packages) in
   out1 ≠ out2
   ∧ ∃ ts1 ts2 reordered,
       out1 = formats.format_tree ts1 ∧ out2 = formats.format_tree ts2
       ∧ formats.testSuites.Suites ts1 ≡ₚ reordered
       ∧ Forall2 suite_equiv reordered (formats.testSuites.Suites ts2))
  ∧ (one_group same_group
     ∧ formats.format_tree (formats.suite_tree_by (λ _ l, l) same_group)
       = formats.format_tree (formats.suite_tree_by (λ _ l, rev l) same_group)).
Proof.
  assert (Hlisted : ∀ results,
    formats.reportXUnitFormat results
      (formats.format_tree (formats.suite_tree_by (λ _ l, l) results))).
  { intros results. eexists. split; [|reflexivity]. by apply suite_tree_by_ok. }
  assert (Hreversed : ∀ results,
    formats.reportXUnitFormat results
      (formats.format_tree (formats.suite_tree_by (λ _ l, rev l) results))).
  { intros results. eexists. split; [|reflexivity]. apply suite_tree_by_ok.
    intros A l. symmetry. apply Permutation_rev. }
  assert (Hone : one_group same_group).
  { exists "pipeline", "apache", "access".
    apply Forall_cons. split; [done|]. apply Forall_cons. split; [done|].
    apply Forall_nil_2. }
  split; [split|split].
  - vm_compute. discriminate.
  - apply (xunit_rendering_up_to_order two_packages _ _
             (Hlisted two_packages) (Hreversed two_packages)).
  - exact Hone.
  - apply (xunit_rendering_up_to_order same_group _ _
             (Hlisted same_group) (Hreversed same_group)).
    exact Hone.
Defined.

Lemma xunit_details_without_message_witness :
  let ts := formats.suite_tree_listed (two_packages ++ [details_only]) in
  (∃ tsuite psuite dsuite,
     tsuite ∈ formats.testSuites.Suites ts
     ∧ formats.testSuite.Name tsuite = "pipeline"
     ∧ psuite ∈ formats.testSuite.Suites tsuite
     ∧ formats.testSuite.Name psuite = "apache"
     ∧ dsuite ∈ formats.testSuite.Suites psuite
     ∧ formats.testSuite.Name dsuite = "access"
     ∧ formats.testCase.mk "case2" "" 9 "" ": diff"
       ∈ formats.testSuite.Cases dsuite)
  ∧ Forall (λ s, formats.testSuite.NumFailures s = count_failures (two_packages ++ []))
           (formats.testSuites.Suites ts).
Proof.
  apply (xunit_details_without_message two_packages [] details_only).
  - reflexivity.
  - discriminate.
  - apply suite_tree_listed_ok.
Defined.

(** ** The earlier reporter [ReportXUnit] *)

Section Reporters.
Import testrunner.

Lemma get2_assign2 (m : reporters.cases_by_pkg) p d v p' d' :
  get2 (reporters.assign2 m p d v) p' d'
  = if decide (p = p' ∧ d = d') then Some v else get2 m p' d'.
Proof.
  unfold get2, reporters.assign2. rewrite lookup_total_insert.
  destruct (decide (p = p')) as [->|Hp].
  - rewrite lookup_insert. destruct (decide (d = d')) as [->|Hd].
    + by rewrite decide_True.
    + rewrite decide_False; [done | by intros (_ & ?)].
  - rewrite decide_False; [done | by intros (? & _)].
Qed.

Lemma get2_ensure_package (m : reporters.cases_by_pkg) p p' d' :
  m !! p = None → get2 (<[p := ∅]> m) p' d' = get2 m p' d'.
Proof.
  intros Hnone. unfold get2. rewrite lookup_total_insert.
  destruct (decide (p = p')) as [<-|]; [|done].
  by rewrite (lookup_total_alt m p), Hnone.
Qed.

Lemma reporters_add_result_packages (st : reporters.grouping) (r : TestResult)
      p d :
  get2 (reporters.packages (reporters.add_result st r)) p d
  = if decide (in_stream p d r)
    then Some (default [reporters.testCase.zero] (get2 (reporters.packages st) p d)
               ++ [reporters.case_of r])
    else get2 (reporters.packages st) p d.
Proof.
  unfold reporters.add_result.
  set (m0 := reporters.packages st).
  destruct (m0 !! Package r) as [dm|] eqn:H0.
  - set (m2 := match (m0 !!! Package r) !! DataStream r with
               | Some _ => m0
               | None => reporters.assign2 m0 (Package r) (DataStream r)
                           (reporters.make reporters.testCase.zero 1)
               end).
    simpl. fold m2. rewrite get2_assign2.
    assert (H2 : ∀ a b, get2 m2 a b
                 = if decide (in_stream a b r)
                   then Some (default [reporters.testCase.zero] (get2 m0 a b))
                   else get2 m0 a b).
    { intros a b. subst m2. unfold in_stream.
      destruct (decide (Package r = a ∧ DataStream r = b)) as [[<- <-]|Hne].
      - unfold get2 at 2. destruct ((m0 !!! Package r) !! DataStream r) eqn:H1.
        + unfold get2. by rewrite H1.
        + by rewrite get2_assign2, decide_True.
      - destruct ((m0 !!! Package r) !! DataStream r); [done|].
        by rewrite get2_assign2, decide_False. }
    unfold in_stream in *.
    destruct (decide (Package r = p ∧ DataStream r = d)) as [[<- <-]|Hne];
      [|by rewrite H2, decide_False].
    do 2 f_equal. rewrite (lookup_total_alt (m2 !!! Package r)).
    fold (get2 m2 (Package r) (DataStream r)). rewrite H2, decide_True; done.
  - set (m1 := <[Package r := ∅]> m0).
    set (m2 := match (m1 !!! Package r) !! DataStream r with
               | Some _ => m1
               | None => reporters.assign2 m1 (Package r) (DataStream r)
                           (reporters.make reporters.testCase.zero 1)
               end).
    simpl. fold m1. fold m2. rewrite get2_assign2.
    assert (H1 : ∀ a b, get2 m1 a b = get2 m0 a b).
    { intros a b. by apply get2_ensure_package. }
    assert (H2 : ∀ a b, get2 m2 a b
                 = if decide (in_stream a b r)
                   then Some (default [reporters.testCase.zero] (get2 m0 a b))
                   else get2 m0 a b).
    { intros a b. rewrite <- H1. subst m2. unfold in_stream.
      destruct (decide (Package r = a ∧ DataStream r = b)) as [[<- <-]|Hne].
      - unfold get2 at 2. destruct ((m1 !!! Package r) !! DataStream r) eqn:H3.
        + unfold get2. by rewrite H3.
        + by rewrite get2_assign2, decide_True.
      - destruct ((m1 !!! Package r) !! DataStream r); [done|].
        by rewrite get2_assign2, decide_False. }
    unfold in_stream in *.
    destruct (decide (Package r = p ∧ DataStream r = d)) as [[<- <-]|Hne];
      [|by rewrite H2, decide_False].
    do 2 f_equal. rewrite (lookup_total_alt (m2 !!! Package r)).
    fold (get2 m2 (Package r) (DataStream r)). rewrite H2, decide_True; done.
Qed.

Lemma reporters_fold_packages (results : list TestResult)
      (st : reporters.grouping) p d :
  get2 (reporters.packages (fold_left reporters.add_result results st)) p d
  = match filter (in_stream p d) results with
    | [] => get2 (reporters.packages st) p d
    | l => Some (default [reporters.testCase.zero] (get2 (reporters.packages st) p d)
                 ++ (reporters.case_of <$> l))
    end.
Proof.
  revert st. induction results as [|r rs IH]; intros st; simpl; [done|].
  rewrite IH, reporters_add_result_packages, filter_cons.
  destruct (decide (in_stream p d r)) as [Hin|Hin]; [|done].
  destruct (filter (in_stream p d) rs) as [|r' l]; simpl; [done|].
  by rewrite <- app_assoc.
Qed.

(** Each data stream of the map holds the placeholder case and then the
    cases of its results, in input order. *)
Lemma reporters_group_packages (results : list TestResult) p d :
  get2 (reporters.packages (reporters.group_results results)) p d
  = match filter (in_stream p d) results with
    | [] => None
    | l => Some (reporters.testCase.zero :: (reporters.case_of <$> l))
    end.
Proof.
  unfold reporters.group_results. rewrite reporters_fold_packages. done.
Qed.

(** The shape of one step on the package map. *)
Lemma reporters_add_result_insert (st : reporters.grouping) (r : TestResult) :
  ∃ dm, reporters.packages (reporters.add_result st r)
        = <[Package r := dm]> (reporters.packages st)
        ∧ reporters.numPackages (reporters.add_result st r)
          = match reporters.packages st !! Package r with
            | Some _ => reporters.numPackages st
            | None => reporters.numPackages st + 1
            end.
Proof.
  unfold reporters.add_result.
  destruct (reporters.packages st !! Package r) as [dm0|] eqn:H0.
  - destruct ((reporters.packages st !!! Package r) !! DataStream r);
      simpl; unfold reporters.assign2; rewrite ?insert_insert_eq; by eexists.
  - destruct ((<[Package r := ∅]> (reporters.packages st) !!! Package r)
                !! DataStream r);
      simpl; unfold reporters.assign2; rewrite ?insert_insert_eq; by eexists.
Qed.

Lemma reporters_fold_keys (results : list TestResult) (st : reporters.grouping) :
  let st' := fold_left reporters.add_result results st in
  dom (reporters.packages st')
  = list_to_set (Package <$> results) ∪ dom (reporters.packages st)
  ∧ (reporters.numPackages st = Z.of_nat (size (reporters.packages st)) →
     reporters.numPackages st' = Z.of_nat (size (reporters.packages st'))).
Proof.
  revert st. induction results as [|r rs IH]; intros st; simpl.
  { split; [set_solver | done]. }
  destruct (IH (reporters.add_result st r)) as [Hdom Hnum].
  destruct (reporters_add_result_insert st r) as (dm & Hpk & Hn).
  split.
  - rewrite Hdom, Hpk, dom_insert_L. set_solver.
  - intros Hst. apply Hnum. rewrite Hn, Hpk, map_size_insert.
    destruct (reporters.packages st !! Package r); simpl; lia.
Qed.

Lemma keys_distinct {A} (m : gmap string A) (l : list string)
      (order : list (string * A)) :
  go_range m order → (∀ k, is_Some (m !! k) ↔ k ∈ l) →
  order.*1 ≡ₚ distinct l.
Proof.
  unfold go_range, distinct. intros Horder Hkeys. apply NoDup_Permutation.
  - rewrite Horder. apply NoDup_fst_map_to_list.
  - apply NoDup_elements.
  - intros k. rewrite elem_of_elements, elem_of_list_to_set, <- Hkeys.
    rewrite Horder, list_elem_of_fmap. split.
    + intros ([k' v] & -> & Hin). apply elem_of_map_to_list in Hin. by exists v.
    + intros [v Hv]. exists (k, v). split; [done|].
      by apply elem_of_map_to_list.
Qed.

(** The package suite of an entry of the package map. *)
Lemma reporters_package_suite (results : list TestResult) p dm s :
  reporters.packages (reporters.group_results results) !! p = Some dm →
  reporters.pkgSuite_of (p, dm) s →
  ∃ dss, dss ≡ₚ distinct (DataStream <$> filter (λ r, Package r = p) results)
         ∧ s = package_suite results p dss.
Proof.
  intros Hp (order & Horder & ->). simpl in Horder.
  assert (Hget : ∀ d, dm !! d
                 = get2 (reporters.packages (reporters.group_results results)) p d).
  { intros d. unfold get2. by rewrite (lookup_total_alt _ p), Hp. }
  exists (order.*1). split.
  - apply (keys_distinct dm); [done|]. intros d.
    rewrite Hget, reporters_group_packages, list_elem_of_fmap.
    split.
    + destruct (filter (in_stream p d) results) as [|r l] eqn:Hf;
        [by intros [? ?]|]. intros _.
      assert (Hr : r ∈ filter (in_stream p d) results)
        by (rewrite Hf; apply list_elem_of_here).
      apply list_elem_of_filter in Hr as [[Hrp Hrd] Hr].
      exists r. split; [done|]. by apply list_elem_of_filter.
    + intros (r & -> & [Hrp Hr]%list_elem_of_filter).
      assert (Hin : r ∈ filter (in_stream p (DataStream r)) results).
      { apply list_elem_of_filter. by split. }
      destruct (filter (in_stream p (DataStream r)) results);
        [by apply elem_of_nil in Hin | by eexists].
  - unfold reporters.pkgSuite, package_suite. f_equal. simpl. f_equal.
    rewrite <- list_fmap_compose. apply Forall_fmap_ext_1, Forall_forall.
    intros [d cs] Hin. unfold go_range in Horder. rewrite Horder in Hin.
    apply elem_of_map_to_list in Hin. rewrite Hget, reporters_group_packages in Hin.
    unfold reporters.dsSuite, stream_suite. simpl.
    destruct (filter (in_stream p d) results); [done|]. by injection Hin as <-.
Qed.

(** C10. In every suite tree of [ReportXUnit] the root holds one empty
    placeholder suite per distinct package of the input and then the
    package suites, one per distinct package; a package suite holds one
    empty placeholder suite and then its data-stream suites, one per
    distinct data stream of the package; a data-stream suite holds one
    zero-valued placeholder case and then one case per result of the
    group, in input order. *)
Theorem ReportXUnit_placeholders (results : list TestResult)
        (ts : reporters.testSuites.t) :
  reporters.suite_tree results ts →
  ∃ pkgs real,
    pkgs ≡ₚ distinct (Package <$> results)
    ∧ reporters.testSuites.Suites ts
      = replicate (length pkgs) reporters.testSuite.zero ++ real
    ∧ Forall2 (λ p s,
         ∃ dss, dss ≡ₚ distinct (DataStream <$> filter (λ r, Package r = p) results)
                ∧ s = package_suite results p dss) pkgs real.
Proof.
  intros (order & suites & Horder & Hsuites & ->).
  destruct (reporters_fold_keys results (reporters.mkGrouping ∅ 0))
    as [Hdom Hnum].
  fold (reporters.group_results results) in Hdom, Hnum.
  simpl in Hdom, Hnum. rewrite dom_empty_L, union_empty_r_L in Hdom.
  specialize (Hnum eq_refl).
  exists (order.*1), suites. split; [|split].
  - apply (keys_distinct _ _ _ Horder). intros p.
    by rewrite <- elem_of_dom, Hdom, elem_of_list_to_set.
  - simpl. unfold reporters.make. rewrite Hnum, Nat2Z.id.
    rewrite <- length_map_to_list. unfold go_range in Horder.
    by rewrite <- Horder, length_fmap.
  - apply Forall2_fmap_l.
    assert (Hentries : Forall (λ kv, reporters.packages
                                       (reporters.group_results results) !! kv.1
                                     = Some kv.2) order).
    { apply Forall_forall. intros [p dm] Hin. unfold go_range in Horder.
      rewrite Horder in Hin. by apply elem_of_map_to_list in Hin. }
    clear Horder. induction Hsuites as [|[p dm] s order suites Hs _ IH];
      [constructor|].
    apply Forall_cons in Hentries as [Hp Hrest].
    constructor; [|by apply IH].
    by apply (reporters_package_suite results p dm).
Qed.

End Reporters.

Lemma ReportXUnit_placeholders_witness :
  ∃ pkgs real,
    pkgs ≡ₚ distinct (testrunner.Package <$> two_packages)
    ∧ reporters.testSuites.Suites (reporters.suite_tree_listed two_packages)
      = replicate (length pkgs) reporters.testSuite.zero ++ real
    ∧ Forall2 (λ p s,
         ∃ dss, dss ≡ₚ distinct (testrunner.DataStream
                                   <$> filter (λ r, testrunner.Package r = p)
                                              two_packages)
                ∧ s = package_suite two_packages p dss) pkgs real.
Proof.
  apply (ReportXUnit_placeholders two_packages).
  unfold reporters.suite_tree, reporters.suite_tree_listed.
  eexists _, _. split; [by unfold go_range|]. split; [|reflexivity].
  apply Forall2_fmap_fun. intros [p dm]. eexists.
  split; [by unfold go_range | done].
Defined.

(** ** The loop of [run], file by file *)

Section Attempts.
Context {E : pipeline.Env} (options : pipeline.TestOptions E).

Ltac unfold_M :=
  unfold pipeline.bind, pipeline.call, pipeline.emit, pipeline.ret,
    pipeline.defer in *.

Ltac close_log :=
  simpl; rewrite <- ?app_assoc; simpl; eexists; (split; [reflexivity|]).

Lemma read_files_app (l1 l2 : list pipeline.event) :
  read_files (l1 ++ l2) = read_files l1 ++ read_files l2.
Proof. unfold read_files. apply omap_app. Qed.

Lemma loadTestCaseFile_reads (testCaseFile : string) (s : pipeline.state E) :
  ∃ new, (pipeline.loadTestCaseFile options testCaseFile s).2.2 = s.2 ++ new
         ∧ read_files new
           = [pipeline.Join E (pipeline.Path (pipeline.TestFolder_ options))
                            testCaseFile].
Proof.
  unfold pipeline.loadTestCaseFile. unfold_M.
  destruct (pipeline.ReadFile E _ s.1) as [[data [err|]] w1]; [by close_log|].
  destruct (String.eqb _ ".json").
  { destruct (pipeline.createTestCaseForEvents E _ _); by close_log. }
  destruct (String.eqb _ ".log"); [|by close_log].
  simpl. destruct (pipeline.readConfigForTestCase E _ w1) as [[err|cfg] w2];
    [by close_log|].
  destruct (pipeline.createTestCaseForRawInput E _ _ _); by close_log.
Qed.

Lemma verifyResults_reads (testCaseFile : string) (result : pipeline.testResult E)
      (s : pipeline.state E) :
  ∃ new, (pipeline.verifyResults options testCaseFile result s).2.2 = s.2 ++ new
         ∧ read_files new = [].
Proof.
  unfold pipeline.verifyResults. unfold_M.
  destruct (pipeline.GenerateTestResult options); simpl.
  - destruct (pipeline.writeTestResult E _ _ s.1) as [[err|] w1];
      [by close_log|].
    simpl. destruct (pipeline.compareResults E _ _ w1) as [[err|] w2];
      [destruct (is_errTestCaseFailed err)|]; by close_log.
  - destruct (pipeline.compareResults E _ _ s.1) as [[err|] w2];
      [destruct (is_errTestCaseFailed err)|]; by close_log.
Qed.

(** One iteration reads exactly its own file; it adds one result when it
    goes on to the next file, and one or none when it makes [run] return. *)
Lemma run_case_attempt (entryPipeline : string) (failed : bool)
      (results : list testrunner.TestResult) (testCaseFile : string)
      (s : pipeline.state E) :
  let out := pipeline.run_case options entryPipeline failed results testCaseFile s in
  ∃ new, out.2.2 = s.2 ++ new
         ∧ read_files new
           = [pipeline.Join E (pipeline.Path (pipeline.TestFolder_ options))
                            testCaseFile]
         ∧ match out.1.2 with
           | pipeline.Next _ results' => length results' = S (length results)
           | pipeline.Return results' err =>
             (length results' = length results
              ∨ length results' = S (length results))
             ∧ ∃ cause msg, err = errorsWrap cause msg
           end.
Proof.
  unfold pipeline.run_case. unfold_M. simpl.
  destruct (pipeline.Now E s.1) as [startTime w1]. simpl.
  destruct (loadTestCaseFile_reads testCaseFile (w1, s.2 ++ [pipeline.EvNow]))
    as (n1 & Hlog1 & Hread1).
  destruct (pipeline.loadTestCaseFile options testCaseFile _)
    as [[err|tc] [w2 l2]]; simpl in *; subst l2.
  { rewrite <- app_assoc. eexists. split; [reflexivity|].
    split; [|split; [by left | by eexists _, _]].
    change (read_files (pipeline.EvNow :: n1)) with (read_files n1). done. }
  destruct (pipeline.simulatePipelineProcessing E _ _ _ w2) as [[err|result] w3];
    simpl.
  { rewrite <- !app_assoc. eexists. split; [reflexivity|].
    split; [|split; [right; rewrite length_app; simpl; lia | by eexists _, _]].
    by rewrite !read_files_app, Hread1. }
  destruct (pipeline.Now E w3) as [now w4]. simpl.
  match goal with
  | |- context [pipeline.verifyResults options testCaseFile result ?s0] =>
    destruct (verifyResults_reads testCaseFile result s0)
      as (n2 & Hlog2 & Hread2);
    destruct (pipeline.verifyResults options testCaseFile result s0)
      as [err [w5 l5]]
  end.
  simpl in *. subst l5.
  exists (pipeline.EvNow :: n1
          ++ [pipeline.EvPrintf ("Test case: " +:+ pipeline.name E tc +:+ nl);
              pipeline.EvSimulate entryPipeline (pipeline.name E tc);
              pipeline.EvNow] ++ n2).
  assert (Hshape : ∀ (A : Type) (x : A), (x, s.2 ++ pipeline.EvNow :: n1
          ++ [pipeline.EvPrintf ("Test case: " +:+ pipeline.name E tc +:+ nl);
              pipeline.EvSimulate entryPipeline (pipeline.name E tc);
              pipeline.EvNow] ++ n2)
          = (x, ((((s.2 ++ [pipeline.EvNow]) ++ n1)
                    ++ [pipeline.EvPrintf ("Test case: " +:+ pipeline.name E tc +:+ nl)])
                   ++ [pipeline.EvSimulate entryPipeline (pipeline.name E tc)])
                  ++ [pipeline.EvNow] ++ n2)).
  { intros A x. f_equal. by rewrite <- !app_assoc. }
  assert (Hread : read_files (pipeline.EvNow :: n1
          ++ [pipeline.EvPrintf ("Test case: " +:+ pipeline.name E tc +:+ nl);
              pipeline.EvSimulate entryPipeline (pipeline.name E tc);
              pipeline.EvNow] ++ n2)
          = [pipeline.Join E (pipeline.Path (pipeline.TestFolder_ options))
                           testCaseFile]).
  { change (read_files (pipeline.EvNow :: ?l)) with (read_files l).
    rewrite !read_files_app, Hread1, Hread2. done. }
  destruct err as [err|]; [destruct (is_errTestCaseFailed err)|]; simpl;
    (split; [by rewrite <- !app_assoc|]); (split; [exact Hread|]);
    rewrite ?length_app; simpl; try lia.
  split; [lia | by eexists _, _].
Qed.

(** The loop reads the files in order and stops at the first one that
    makes [run] return. *)
Lemma range_testCaseFiles_attempt (entryPipeline : string)
      (testCaseFiles : list string) (failed : bool)
      (results : list testrunner.TestResult) (s : pipeline.state E) :
  let out := pipeline.range_testCaseFiles options entryPipeline testCaseFiles
                                          failed results s in
  ∃ new k,
    out.2.2 = s.2 ++ new
    ∧ (k ≤ length testCaseFiles)%nat
    ∧ read_files new
      = pipeline.Join E (pipeline.Path (pipeline.TestFolder_ options))
        <$> take k testCaseFiles
    ∧ match out.1 with
      | pipeline.Next _ results' =>
        k = length testCaseFiles
        ∧ length results' = (length results + k)%nat
      | pipeline.Return results' err =>
        (length results' = (length results + k)%nat
         ∨ S (length results') = (length results + k)%nat)
        ∧ ∃ cause msg, err = errorsWrap cause msg
      end.
Proof.
  revert failed results s.
  induction testCaseFiles as [|f rest IH]; intros failed results s; simpl.
  { exists [], 0%nat. rewrite app_nil_r. repeat split; lia. }
  unfold pipeline.bind.
  destruct (run_case_attempt entryPipeline failed results f s)
    as (n1 & Hlog1 & Hread1 & Hres1).
  destruct (pipeline.run_case options entryPipeline failed results f s)
    as [[tr fl] [w1 l1]]; simpl in *; subst l1.
  destruct fl as [failed' results' | results' err]; simpl in *.
  - destruct (IH failed' results' (w1, s.2 ++ n1))
      as (n2 & k & Hlog2 & Hk & Hread2 & Hres2).
    exists (n1 ++ n2), (S k). simpl in *. rewrite Hlog2.
    split; [by rewrite <- app_assoc|]. split; [lia|].
    split; [by rewrite read_files_app, Hread1, Hread2|].
    destruct (pipeline.range_testCaseFiles options entryPipeline rest failed'
                results' (w1, s.2 ++ n1)) as [[failed'' results''|results'' err] ?];
      simpl in *.
    + destruct Hres2 as [-> ->]. split; lia.
    + destruct Hres2 as [Hlen Herr]. split; [lia | done].
  - exists n1, 1%nat. destruct Hres1 as [Hlen Herr].
    repeat split; [lia | done | lia | done].
Qed.

Lemma read_files_case_free (l : list pipeline.event) :
  forallb (λ ev, negb (is_case_event ev)) l = true → read_files l = [].
Proof.
  induction l as [|ev l IH]; [done|]. simpl. intros [Hev Hl]%andb_true_iff.
  destruct ev; try done; by apply IH.
Qed.

(** [run] from the installation on: the events of the loop, how many files
    it read, and what it returns. *)
Lemma run_installed_attempt (entryPipeline : string)
      (testCaseFiles : list string) (s : pipeline.state E) :
  let out := pipeline.run_installed options entryPipeline testCaseFiles s in
  ∃ body k,
    out.2.2 = s.2 ++ body
    ∧ forallb is_case_event body = true
    ∧ (k ≤ length testCaseFiles)%nat
    ∧ read_files body
      = pipeline.Join E (pipeline.Path (pipeline.TestFolder_ options))
        <$> take k testCaseFiles
    ∧ (is_completed out.1.2 ∧ k = length testCaseFiles ∧ length out.1.1 = k
       ∨ (∃ cause msg, out.1.2 = Some (errorsWrap cause msg))
         ∧ (length out.1.1 = k ∨ S (length out.1.1) = k)).
Proof.
  unfold pipeline.run_installed. unfold_M.
  destruct (range_testCaseFiles_log options entryPipeline testCaseFiles false [] s)
    as (body & Hlog & Hev & _).
  destruct (range_testCaseFiles_attempt entryPipeline testCaseFiles false [] s)
    as (body' & k & Hlog' & Hk & Hread & Hres).
  rewrite Hlog in Hlog'. apply app_inv_head in Hlog'. subst body'.
  destruct (pipeline.range_testCaseFiles options _ _ _ _ s) as [fl [w1 l1]].
  simpl in *. exists body, k.
  destruct fl as [[] results | results err]; simpl in *.
  - destruct Hres as [-> Hlen]. repeat split; try done.
    left. by split; [right|].
  - destruct Hres as [-> Hlen]. repeat split; try done.
    left. by split; [left|].
  - destruct Hres as [Hlen (cause & msg & ->)]. repeat split; try done.
    right. split; [by eexists _, _ | done].
Qed.

(** Every way [run] can end. *)
Lemma run_outcome (s : pipeline.state E) :
  let path := pipeline.Path (pipeline.TestFolder_ options) in
  let files := (pipeline.listTestCaseFiles options s).1.1 in
  let out := pipeline.run options s in
  ∃ new k,
    out.2.2 = s.2 ++ new
    ∧ (k ≤ length files)%nat
    ∧ read_files new = pipeline.Join E path <$> take k files
    ∧ (uninstalled_log path new ∧ k = 0%nat ∧ out.1.1 = [] ∧ is_abort out.1.2
       ∨ installed_log path new
         ∧ (is_completed out.1.2 ∧ k = length files ∧ length out.1.1 = k
            ∨ (∃ cause msg, out.1.2 = Some (errorsWrap cause msg))
              ∧ (length out.1.1 = k ∨ S (length out.1.1) = k))).
Proof.
  intros path files out. subst files out. unfold pipeline.run.
  unfold pipeline.bind. rewrite !listTestCaseFiles_reads_once.
  destruct (pipeline.ReadDir E _ s.1) as [[fis [err|]] w1]; simpl.
  { unfold_M. exists [pipeline.EvReadDir path], 0%nat. simpl.
    repeat split; [lia|]. left. repeat split; [by left|].
    right. by eexists _, _. }
  unfold_M. simpl.
  destruct (pipeline.FindDataStreamRootForPath E _ w1)
    as [[[dataStreamPath found] [err|]] w2]; simpl.
  { exists [pipeline.EvReadDir path; pipeline.EvFindDataStreamRoot path], 0%nat.
    rewrite <- app_assoc. simpl. repeat split; [lia|].
    left. repeat split; [by right; left|]. right. by eexists _, _. }
  destruct found; simpl.
  2:{ exists [pipeline.EvReadDir path; pipeline.EvFindDataStreamRoot path], 0%nat.
      rewrite <- app_assoc. simpl. repeat split; [lia|].
      left. repeat split; [by right; left|]. by left. }
  destruct (pipeline.installIngestPipelines E _ _ w2)
    as [[[entryPipeline pipelineIDs] [err|]] w3]; simpl.
  { exists [pipeline.EvReadDir path; pipeline.EvFindDataStreamRoot path;
            pipeline.EvInstall dataStreamPath entryPipeline pipelineIDs true],
           0%nat.
    rewrite <- !app_assoc. simpl. repeat split; [lia|].
    left. repeat split; [right; right; by eexists _, _, _|].
    right. by eexists _, _. }
  unfold_M.
  match goal with
  | |- context [pipeline.run_installed options ?e ?fs ?s0] =>
    destruct (run_installed_attempt e fs s0)
      as (body & k & Hlog & Hev & Hk & Hread & Hres);
    destruct (pipeline.run_installed options e fs s0) as [[results err] [w4 l4]]
  end.
  simpl in *. subst l4. unfold pipeline.uninstall_deferred. unfold_M. simpl.
  assert (Hreads : ∀ tail,
    forallb (λ ev, negb (is_case_event ev)) tail = true →
    read_files ([pipeline.EvReadDir path; pipeline.EvFindDataStreamRoot path;
                 pipeline.EvInstall dataStreamPath entryPipeline pipelineIDs false]
                ++ body ++ tail)
    = read_files body).
  { intros tail Htail. rewrite !read_files_app.
    by rewrite (read_files_case_free tail Htail), app_nil_r. }
  destruct (pipeline.uninstallIngestPipelines E _ _ w4) as [[err'|] w5]; simpl.
  - eexists _, k. rewrite <- !app_assoc. simpl. split; [reflexivity|].
    split; [done|].
    split; [etransitivity; [by apply (Hreads [_; _]) | exact Hread]|].
    right. split; [|done].
    exists dataStreamPath, entryPipeline, pipelineIDs, body, true.
    eexists. split; [reflexivity|]. split; [done|]. by eexists.
  - eexists _, k. rewrite <- !app_assoc. simpl. split; [reflexivity|].
    split; [done|].
    split; [etransitivity; [by apply (Hreads [_]) | exact Hread]|].
    right. split; [|done].
    exists dataStreamPath, entryPipeline, pipelineIDs, body, false.
    eexists. split; [reflexivity|]. by split.
Qed.

(** X1. [Run] attempts the discovered test case files in discovery order
    and stops at the first one that aborts the run: the files it reads are
    a prefix of the discovered files, it returns one result per file read
    or one less (when the last file read could not be loaded), and when it
    returns no error or the error that some case failed, it has read every
    discovered file and returns one result per file. *)
Theorem Run_attempts_in_order (s : pipeline.state E) :
  let path := pipeline.Path (pipeline.TestFolder_ options) in
  let files := (pipeline.listTestCaseFiles options s).1.1 in
  let out := pipeline.Run options s in
  ∃ new k,
    out.2.2 = s.2 ++ new
    ∧ (k ≤ length files)%nat
    ∧ read_files new = pipeline.Join E path <$> take k files
    ∧ (length out.1.1 = k ∨ S (length out.1.1) = k)
    ∧ (is_completed out.1.2 → k = length files ∧ length out.1.1 = k).
Proof.
  intros path files out. subst path files out. unfold pipeline.Run.
  pose proof (run_outcome s) as Hout. cbv zeta in Hout.
  destruct Hout as (new & k & Hlog & Hk & Hread & Hcases).
  exists new, k. split; [done|]. split; [done|]. split; [done|].
  unfold is_completed, is_abort, root_not_found, some_case_failed in *.
  destruct Hcases as [(_ & -> & Hres & Habort) | [_ [(Hdone & -> & Hlen) | [Hwrap Hlen]]]].
  - rewrite Hres. split; [by left|]. intros [Hd|Hd];
      destruct Habort as [Ha|(c & m & Ha)]; congruence.
  - split; [by left | done].
  - split; [done|]. destruct Hwrap as (c & m & Hw). intros [Hd|Hd]; congruence.
Qed.

(** X2. [Run] never returns the mismatch sentinel itself: its error is nil,
    the new error that at least one test case failed, the new error that
    the data stream root was not found, or a wrapped error. *)
Theorem Run_error_is_never_the_sentinel (s : pipeline.state E) :
  let err := (pipeline.Run options s).1.2 in
  (is_completed err ∨ is_abort err)
  ∧ err ≠ Some errTestCaseFailed.
Proof.
  intros err. subst err. unfold pipeline.Run.
  pose proof (run_outcome s) as Hout. cbv zeta in Hout.
  destruct Hout as (new & k & _ & _ & _ & Hcases).
  assert (Hkind : is_completed (pipeline.run options s).1.2
                  ∨ is_abort (pipeline.run options s).1.2).
  { destruct Hcases as [(_ & _ & _ & ?) | [_ [(? & _) | [? _]]]];
      [by right | by left | by right; right]. }
  split; [done|].
  unfold is_completed, is_abort, root_not_found, some_case_failed in Hkind.
  destruct Hkind as [[Hk|Hk] | [Hk | (c & m & Hk)]]; rewrite Hk; done.
Qed.

(** X3. Unless [installIngestPipelines] succeeded, [Run] does nothing but
    list the folder, locate the data stream root and try to install: it
    reads no test case file, never calls [uninstallIngestPipelines],
    returns no result and returns an error. *)
Theorem Run_without_installation (s : pipeline.state E)
        (new : list pipeline.event) :
  let path := pipeline.Path (pipeline.TestFolder_ options) in
  let out := pipeline.Run options s in
  out.2.2 = s.2 ++ new →
  forallb (λ ev, negb (is_installation ev)) new = true →
  uninstalled_log path new ∧ out.1.1 = [] ∧ is_abort out.1.2.
Proof.
  intros path out. subst path out. unfold pipeline.Run. intros Hnew Hnone.
  pose proof (run_outcome s) as Hout. cbv zeta in Hout.
  destruct Hout as (new' & k & Hlog & _ & _ & Hcases).
  rewrite Hlog in Hnew. apply app_inv_head in Hnew. subst new'.
  destruct Hcases as [(? & _ & ? & ?) | [Hinst _]]; [done|].
  destruct Hinst as (d & e & ids & body & failed & warning & -> & _).
  simpl in Hnone. done.
Qed.

End Attempts.

Lemma Run_without_installation_witness :
  uninstalled_log memfs.dir
    [pipeline.EvReadDir memfs.dir; pipeline.EvFindDataStreamRoot memfs.dir]
  ∧ (pipeline.Run no_root_options (memfs.csv_case, [])).1.1 = []
  ∧ is_abort (pipeline.Run no_root_options (memfs.csv_case, [])).1.2.
Proof.
  apply (Run_without_installation no_root_options (memfs.csv_case, [])).
  - vm_compute. reflexivity.
  - reflexivity.
Defined.

(** ** Writing and comparing expected results *)

Section GoldenFiles.
Context {E : pipeline.Env} (options : pipeline.TestOptions E).

Ltac unfold_M :=
  unfold pipeline.bind, pipeline.call, pipeline.emit, pipeline.ret,
    pipeline.defer in *.

Ltac close_log :=
  simpl; rewrite <- ?app_assoc; simpl; eexists; (split; [reflexivity|]).

(** X4. [verifyResults] returns the mismatch sentinel itself exactly when
    the comparison was reached and returned it; whatever else fails is
    returned wrapped, also a failed write whose error is the sentinel. *)
Theorem verifyResults_sentinel (testCaseFile : string)
        (result : pipeline.testResult E) (s : pipeline.state E) :
  let path := pipeline.Join E (pipeline.Path (pipeline.TestFolder_ options))
                            testCaseFile in
  let written := if pipeline.GenerateTestResult options
                 then pipeline.writeTestResult E path result s.1
                 else (None, s.1) in
  let err := (pipeline.verifyResults options testCaseFile result s).1 in
  (err = Some errTestCaseFailed
   ↔ written.1 = None
     ∧ (pipeline.compareResults E path result written.2).1
       = Some errTestCaseFailed)
  ∧ (err = None ∨ err = Some errTestCaseFailed
     ∨ ∃ cause msg, err = Some (errorsWrap cause msg)).
Proof.
  intros path written err. subst err written. unfold pipeline.verifyResults.
  fold path. unfold_M.
  destruct (pipeline.GenerateTestResult options); simpl.
  - destruct (pipeline.writeTestResult E path result s.1) as [[werr|] w1];
      simpl.
    { split; [split; [done | by intros []]|]. right; right. by eexists _, _. }
    destruct (pipeline.compareResults E path result w1) as [[cerr|] w2]; simpl.
    + destruct cerr; simpl; (split; [split; [done | by intros []]|]);
        first [by right; left | right; right; by eexists _, _].
    + split; [split; [done | by intros []] | by left].
  - destruct (pipeline.compareResults E path result s.1) as [[cerr|] w2]; simpl.
    + destruct cerr; simpl; (split; [split; [done | by intros []]|]);
        first [by right; left | right; right; by eexists _, _].
    + split; [split; [done | by intros []] | by left].
Qed.

Lemma loadTestCaseFile_no_write (testCaseFile : string) (s : pipeline.state E) :
  ∃ new, (pipeline.loadTestCaseFile options testCaseFile s).2.2 = s.2 ++ new
         ∧ forallb (λ ev, negb (is_write ev)) new = true.
Proof.
  unfold pipeline.loadTestCaseFile. unfold_M.
  destruct (pipeline.ReadFile E _ s.1) as [[data [err|]] w1]; [by close_log|].
  destruct (String.eqb _ ".json").
  { destruct (pipeline.createTestCaseForEvents E _ _); by close_log. }
  destruct (String.eqb _ ".log"); [|by close_log].
  simpl. destruct (pipeline.readConfigForTestCase E _ w1) as [[err|cfg] w2];
    [by close_log|].
  destruct (pipeline.createTestCaseForRawInput E _ _ _); by close_log.
Qed.

Lemma verifyResults_no_write (testCaseFile : string)
      (result : pipeline.testResult E) (s : pipeline.state E) :
  pipeline.GenerateTestResult options = false →
  ∃ new, (pipeline.verifyResults options testCaseFile result s).2.2 = s.2 ++ new
         ∧ forallb (λ ev, negb (is_write ev)) new = true.
Proof.
  intros Hgen. unfold pipeline.verifyResults. rewrite Hgen. unfold_M. simpl.
  destruct (pipeline.compareResults E _ _ s.1) as [[err|] w2];
    [destruct (is_errTestCaseFailed err)|]; by close_log.
Qed.

Lemma run_case_no_write (entryPipeline : string) (failed : bool)
      (results : list testrunner.TestResult) (testCaseFile : string)
      (s : pipeline.state E) :
  pipeline.GenerateTestResult options = false →
  ∃ new, (pipeline.run_case options entryPipeline failed results testCaseFile s).2.2
         = s.2 ++ new
         ∧ forallb (λ ev, negb (is_write ev)) new = true.
Proof.
  intros Hgen. unfold pipeline.run_case. unfold_M. simpl.
  destruct (pipeline.Now E s.1) as [startTime w1]. simpl.
  destruct (loadTestCaseFile_no_write testCaseFile (w1, s.2 ++ [pipeline.EvNow]))
    as (n1 & Hlog1 & Hev1).
  destruct (pipeline.loadTestCaseFile options testCaseFile _)
    as [[err|tc] [w2 l2]]; simpl in *; subst l2.
  { exists (pipeline.EvNow :: n1). by rewrite <- app_assoc. }
  destruct (pipeline.simulatePipelineProcessing E _ _ _ w2) as [[err|result] w3];
    simpl.
  { rewrite <- !app_assoc. eexists. split; [reflexivity|]. simpl.
    by rewrite forallb_app, Hev1. }
  destruct (pipeline.Now E w3) as [now w4]. simpl.
  match goal with
  | |- context [pipeline.verifyResults options testCaseFile result ?s0] =>
    destruct (verifyResults_no_write testCaseFile result s0 Hgen)
      as (n2 & Hlog2 & Hev2);
    destruct (pipeline.verifyResults options testCaseFile result s0)
      as [err [w5 l5]]
  end.
  simpl in *. subst l5.
  assert (Hshape : ∃ new,
    (((s.2 ++ [pipeline.EvNow]) ++ n1)
       ++ [pipeline.EvPrintf ("Test case: " +:+ pipeline.name E tc +:+ nl)])
      ++ [pipeline.EvSimulate entryPipeline (pipeline.name E tc)]
      ++ [pipeline.EvNow] ++ n2 = s.2 ++ new
    ∧ forallb (λ ev, negb (is_write ev)) new = true).
  { rewrite <- !app_assoc. eexists; split; [reflexivity|]. simpl.
    rewrite !forallb_app, Hev1. simpl. by rewrite Hev2. }
  destruct Hshape as (new & Hnew & Hev). exists new.
  rewrite <- !app_assoc in *. simpl in *.
  destruct err as [err|]; [destruct (is_errTestCaseFailed err)|]; done.
Qed.

Lemma range_testCaseFiles_no_write (entryPipeline : string)
      (testCaseFiles : list string) (failed : bool)
      (results : list testrunner.TestResult) (s : pipeline.state E) :
  pipeline.GenerateTestResult options = false →
  ∃ new, (pipeline.range_testCaseFiles options entryPipeline testCaseFiles
                                       failed results s).2.2 = s.2 ++ new
         ∧ forallb (λ ev, negb (is_write ev)) new = true.
Proof.
  intros Hgen. revert failed results s.
  induction testCaseFiles as [|f rest IH]; intros failed results s; simpl.
  { exists []. by rewrite app_nil_r. }
  unfold pipeline.bind.
  destruct (run_case_no_write entryPipeline failed results f s Hgen)
    as (n1 & Hlog1 & Hev1).
  destruct (pipeline.run_case options entryPipeline failed results f s)
    as [[tr fl] [w1 l1]]; simpl in *; subst l1.
  destruct fl as [failed' results' | results' err]; simpl in *.
  - destruct (IH failed' results' (w1, s.2 ++ n1)) as (n2 & Hlog2 & Hev2).
    exists (n1 ++ n2). simpl in *. rewrite Hlog2, forallb_app, Hev1, Hev2.
    by rewrite app_assoc.
  - by exists n1.
Qed.

(** X5. Without generate mode [Run] never calls [writeTestResult]: a
    comparing run leaves the expected results as they are. *)
Theorem Run_compares_without_writing (s : pipeline.state E)
        (new : list pipeline.event) :
  pipeline.GenerateTestResult options = false →
  (pipeline.Run options s).2.2 = s.2 ++ new →
  forallb (λ ev, negb (is_write ev)) new = true.
Proof.
  intros Hgen Hnew. unfold pipeline.Run, pipeline.run in Hnew.
  unfold pipeline.bind in Hnew. rewrite !listTestCaseFiles_reads_once in Hnew.
  destruct (pipeline.ReadDir E _ s.1) as [[fis [err|]] w1]; simpl in Hnew.
  { unfold_M. simpl in Hnew. by apply app_inv_head in Hnew as <-. }
  unfold_M. simpl in Hnew.
  destruct (pipeline.FindDataStreamRootForPath E _ w1)
    as [[[dataStreamPath found] [err|]] w2]; simpl in Hnew.
  { rewrite <- app_assoc in Hnew. by apply app_inv_head in Hnew as <-. }
  destruct found; simpl in Hnew;
    [|rewrite <- app_assoc in Hnew; by apply app_inv_head in Hnew as <-].
  destruct (pipeline.installIngestPipelines E _ _ w2)
    as [[[entryPipeline pipelineIDs] [err|]] w3]; simpl in Hnew.
  { rewrite <- !app_assoc in Hnew. by apply app_inv_head in Hnew as <-. }
  unfold pipeline.run_installed, pipeline.uninstall_deferred in Hnew.
  unfold_M.
  match type of Hnew with
  | context [pipeline.range_testCaseFiles options ?e ?fs ?f0 ?r0 ?s0] =>
    destruct (range_testCaseFiles_no_write e fs f0 r0 s0 Hgen)
      as (body & Hlog & Hev);
    destruct (pipeline.range_testCaseFiles options e fs f0 r0 s0)
      as [fl [w4 l4]]
  end.
  simpl in *. subst l4.
  assert (Hend : ∀ tail, forallb (λ ev, negb (is_write ev)) tail = true →
    ((((s.2 ++ [pipeline.EvReadDir (pipeline.Path (pipeline.TestFolder_ options))])
         ++ [pipeline.EvFindDataStreamRoot
               (pipeline.Path (pipeline.TestFolder_ options))])
        ++ [pipeline.EvInstall dataStreamPath entryPipeline pipelineIDs false])
       ++ body) ++ tail = s.2 ++ new →
    forallb (λ ev, negb (is_write ev)) new = true).
  { intros tail Htail Heq. rewrite <- !app_assoc in Heq.
    apply app_inv_head in Heq as <-. simpl. by rewrite forallb_app, Hev. }
  destruct fl as [[] results | results err]; simpl in Hnew;
    destruct (pipeline.uninstallIngestPipelines E _ _ w4) as [[err'|] w5];
    simpl in Hnew;
    first [ by eapply Hend; [|exact Hnew]
          | rewrite <- (app_assoc _ [_] [_]) in Hnew;
            by eapply Hend; [|exact Hnew] ].
Qed.

Lemma verifyResults_generate_nil (testCaseFile : string)
      (result : pipeline.testResult E) (s : pipeline.state E) :
  pipeline.GenerateTestResult options = true →
  writes_always_succeed E →
  write_then_compare_matches E →
  (pipeline.verifyResults options testCaseFile result s).1 = None.
Proof.
  intros Hgen Hwrite Hrt. unfold pipeline.verifyResults. rewrite Hgen.
  unfold_M.
  match goal with
  | |- context [pipeline.writeTestResult E ?p result s.1] =>
    pose proof (Hwrite p result s.1) as Hw;
    destruct (pipeline.writeTestResult E p result s.1) as [e w1] eqn:Heq;
    simpl in Hw; subst e; simpl;
    pose proof (Hrt p result s.1 w1 Heq) as Hc;
    destruct (pipeline.compareResults E p result w1) as [e w2]
  end.
  simpl in *. by subst e.
Qed.

Lemma run_case_generate (entryPipeline : string) (failed : bool)
      (results : list testrunner.TestResult) (testCaseFile : string)
      (s : pipeline.state E) :
  pipeline.GenerateTestResult options = true →
  writes_always_succeed E →
  write_then_compare_matches E →
  match (pipeline.run_case options entryPipeline failed results testCaseFile s).1.2
  with
  | pipeline.Next failed' _ => failed' = failed
  | pipeline.Return _ _ => True
  end.
Proof.
  intros Hgen Hwrite Hrt. unfold pipeline.run_case. unfold_M. simpl.
  destruct (pipeline.Now E s.1) as [startTime w1]. simpl.
  destruct (pipeline.loadTestCaseFile options testCaseFile _)
    as [[err|tc] [w2 l2]]; simpl; [done|].
  destruct (pipeline.simulatePipelineProcessing E _ _ _ w2) as [[err|result] w3];
    simpl; [done|].
  destruct (pipeline.Now E w3) as [now w4]. simpl.
  match goal with
  | |- context [pipeline.verifyResults options testCaseFile result ?s0] =>
    pose proof (verifyResults_generate_nil testCaseFile result s0 Hgen Hwrite Hrt)
      as Hnil;
    destruct (pipeline.verifyResults options testCaseFile result s0)
      as [err [w5 l5]]
  end.
  simpl in *. by subst err.
Qed.

Lemma range_testCaseFiles_generate (entryPipeline : string)
      (testCaseFiles : list string) (failed : bool)
      (results : list testrunner.TestResult) (s : pipeline.state E) :
  pipeline.GenerateTestResult options = true →
  writes_always_succeed E →
  write_then_compare_matches E →
  match (pipeline.range_testCaseFiles options entryPipeline testCaseFiles
                                      failed results s).1
  with
  | pipeline.Next failed' _ => failed' = failed
  | pipeline.Return _ _ => True
  end.
Proof.
  intros Hgen Hwrite Hrt. revert failed results s.
  induction testCaseFiles as [|f rest IH]; intros failed results s; simpl;
    [done|].
  unfold pipeline.bind.
  pose proof (run_case_generate entryPipeline failed results f s Hgen Hwrite Hrt)
    as Hcase.
  destruct (pipeline.run_case options entryPipeline failed results f s)
    as [[tr fl] s1]; simpl in *.
  destruct fl as [failed' results' | results' err]; simpl; [|done].
  subst failed'. apply IH.
Qed.

(** What [run] returns is the error of an early return, or what
    [run_installed] returns. *)
Lemma run_returns (s : pipeline.state E) :
  ((pipeline.run options s).1.1 = [] ∧ is_abort (pipeline.run options s).1.2)
  ∨ ∃ entryPipeline testCaseFiles s0,
      (pipeline.run options s).1
      = (pipeline.run_installed options entryPipeline testCaseFiles s0).1.
Proof.
  unfold pipeline.run. unfold pipeline.bind.
  rewrite !listTestCaseFiles_reads_once.
  destruct (pipeline.ReadDir E _ s.1) as [[fis [err|]] w1]; simpl.
  { left. split; [done|]. right. by eexists _, _. }
  unfold pipeline.call, pipeline.ret. simpl.
  destruct (pipeline.FindDataStreamRootForPath E _ w1)
    as [[[dataStreamPath found] [err|]] w2]; simpl.
  { left. split; [done|]. right. by eexists _, _. }
  destruct found; simpl; [|left; split; [done | by left]].
  destruct (pipeline.installIngestPipelines E _ _ w2)
    as [[[entryPipeline pipelineIDs] [err|]] w3]; simpl.
  { left. split; [done|]. right. by eexists _, _. }
  right. unfold pipeline.defer, pipeline.bind, pipeline.ret.
  match goal with
  | |- context [pipeline.run_installed options ?e ?fs ?s0] =>
    exists e, fs, s0;
    destruct (pipeline.run_installed options e fs s0) as [r s4]
  end.
  by destruct (pipeline.uninstall_deferred options _ s4).
Qed.

(** X6. In generate mode, with a golden-file store whose writes succeed and
    that has the write-then-compare round trip, [Run] never reports that a
    test case failed. *)
Theorem Run_generate_reports_no_failure (s : pipeline.state E) :
  pipeline.GenerateTestResult options = true →
  writes_always_succeed E →
  write_then_compare_matches E →
  (pipeline.Run options s).1.2 ≠ Some some_case_failed.
Proof.
  intros Hgen Hwrite Hrt. unfold pipeline.Run.
  destruct (run_returns s) as [[_ Habort] | (e & fs & s0 & ->)].
  { unfold is_abort, root_not_found, some_case_failed in *.
    destruct Habort as [-> | (c & m & ->)]; done. }
  unfold pipeline.run_installed, pipeline.bind, pipeline.ret.
  pose proof (range_testCaseFiles_generate e fs false [] s0 Hgen Hwrite Hrt)
    as Hflag.
  pose proof (range_testCaseFiles_attempt options e fs false [] s0) as Hatt.
  cbv zeta in Hatt. destruct Hatt as (new & k & _ & _ & _ & Hres).
  destruct (pipeline.range_testCaseFiles options e fs false [] s0)
    as [[failed' results | results err] s1]; simpl in *.
  - by subst failed'.
  - destruct Hres as [_ (c & m & ->)]. done.
Qed.



End GoldenFiles.

Lemma memfs_writes_succeed : writes_always_succeed memfs.env.
Proof. by intros path result w. Qed.

Lemma Run_compares_without_writing_witness :
  forallb (λ ev, negb (is_write ev)) two_cases_log = true.
Proof.
  apply (Run_compares_without_writing (memfs.options false)
           (memfs.two_cases true, []) two_cases_log).
  - reflexivity.
  - vm_compute. reflexivity.
Defined.

Lemma Run_generate_reports_no_failure_witness :
  (pipeline.Run (memfs.options true) (memfs.two_cases false, [])).1.2
  ≠ Some some_case_failed.
Proof.
  apply (Run_generate_reports_no_failure (memfs.options true)
           (memfs.two_cases false, [])).
  - reflexivity.
  - exact memfs_writes_succeed.
  - exact memfs_write_then_compare.
Defined.


(** ** Loading a test case file *)

Section Loading.
Context {E : pipeline.Env} (options : pipeline.TestOptions E).

Lemma list_ascii_of_string_app (s t : string) :
  list_ascii_of_string (s +:+ t)
  = list_ascii_of_string s ++ list_ascii_of_string t.
Proof.
  induction s as [|c s IH]; [done|].
  change (String c s +:+ t) with (String c (s +:+ t)). simpl. by rewrite IH.
Qed.

Lemma scan_ext_plain (l : list ascii) (rest : list ascii) (tail : string) :
  forallb plain_byte l = true →
  filepath.scan_ext (rev l ++ rest) tail
  = filepath.scan_ext rest (string_of_list_ascii l +:+ tail).
Proof.
  revert tail. induction l as [|c l IH] using rev_ind; intros tail Hl; [done|].
  rewrite forallb_app in Hl. apply andb_true_iff in Hl as [Hl Hc].
  simpl in Hc. rewrite andb_true_r in Hc. unfold plain_byte in Hc.
  apply andb_true_iff in Hc as [Hslash Hdot].
  rewrite rev_app_distr. simpl.
  destruct (Ascii.eqb c "/"); [done|]. destruct (Ascii.eqb c "."); [done|].
  rewrite IH by done. f_equal. clear.
  induction l as [|a l IH]; [done|]. simpl.
  change (String a (string_of_list_ascii l) +:+ String c tail)
    with (String a (string_of_list_ascii l +:+ String c tail)).
  change (String a (string_of_list_ascii (l ++ [c])) +:+ tail)
    with (String a (string_of_list_ascii (l ++ [c]) +:+ tail)).
  by rewrite IH.
Qed.

(** [filepath.Ext] finds the last dot of the last path element. *)
Lemma Ext_last_dot (stem ext : string) :
  forallb plain_byte (list_ascii_of_string ext) = true →
  filepath.Ext (stem +:+ "." +:+ ext) = "." +:+ ext.
Proof.
  intros Hext. unfold filepath.Ext.
  rewrite !list_ascii_of_string_app, !rev_app_distr, <- app_assoc.
  rewrite scan_ext_plain by done. simpl.
  rewrite string_of_list_ascii_of_string.
  change (String "." (ext +:+ "") = String "." ext). f_equal.
  clear. induction ext as [|c e IH]; [done|].
  change (String c e +:+ "") with (String c (e +:+ "")). by rewrite IH.
Qed.

(** X8. A file whose name ends in [.json], whatever comes before, is loaded
    as a sequence of events: [loadTestCaseFile] reads the file, hands its
    bytes to [createTestCaseForEvents] and never reads a config; an error of
    that function is returned wrapped with the path of the file. *)
Theorem loadTestCaseFile_json (stem : string) (s : pipeline.state E) :
  let file := stem +:+ ".json" in
  let path := pipeline.Join E (pipeline.Path (pipeline.TestFolder_ options))
                            file in
  let read := pipeline.ReadFile E path s.1 in
  read.1.2 = None →
  pipeline.loadTestCaseFile options file s
  = (match pipeline.createTestCaseForEvents E file read.1.1 with
     | inl err =>
       inl (errorsWrap err
              ("creating test case for events failed (testCasePath: "
               +:+ path +:+ ")"))
     | inr tc => inr tc
     end,
     (read.2, s.2 ++ [pipeline.EvReadFile path])).
Proof.
  intros file path read. subst read. unfold pipeline.loadTestCaseFile.
  fold path. unfold pipeline.bind, pipeline.call, pipeline.ret.
  destruct (pipeline.ReadFile E path s.1) as [[data err] w1]; simpl.
  intros ->. subst file.
  change (filepath.Ext (stem +:+ ".json"))
    with (filepath.Ext (stem +:+ "." +:+ "json")).
  rewrite (Ext_last_dot stem "json") by done. simpl.
  by destruct (pipeline.createTestCaseForEvents E _ data).
Qed.

(** X9. A file whose extension is neither [.json] nor [.log] never yields a
    test case: [loadTestCaseFile] still reads the file first, reads no
    config, and returns the read error wrapped or, when the read succeeded,
    the error that names the unsupported extension. *)
Theorem loadTestCaseFile_unsupported (testCaseFile : string)
        (s : pipeline.state E) :
  let ext := filepath.Ext testCaseFile in
  let path := pipeline.Join E (pipeline.Path (pipeline.TestFolder_ options))
                            testCaseFile in
  let read := pipeline.ReadFile E path s.1 in
  ext ≠ ".json" →
  ext ≠ ".log" →
  pipeline.loadTestCaseFile options testCaseFile s
  = (inl match read.1.2 with
         | Some err =>
           errorsWrap err ("reading input file failed (testCasePath: "
                           +:+ path +:+ ")")
         | None =>
           errorsNew ("unsupported extension for test case file (ext: "
                      +:+ ext +:+ ")")
         end,
     (read.2, s.2 ++ [pipeline.EvReadFile path])).
Proof.
  intros ext path read Hjson Hlog. subst read.
  unfold pipeline.loadTestCaseFile. fold path ext.
  unfold pipeline.bind, pipeline.call, pipeline.ret.
  destruct (pipeline.ReadFile E path s.1) as [[data [err|]] w1]; simpl; [done|].
  destruct (String.eqb_spec ext ".json"); [done|].
  destruct (String.eqb_spec ext ".log"); done.
Qed.

End Loading.

Lemma loadTestCaseFile_json_witness :
  pipeline.loadTestCaseFile (memfs.options false) ("case4" +:+ ".json")
                            (memfs.csv_case, [])
  = (inr ("case4.json", "a"),
     (memfs.csv_case, [pipeline.EvReadFile (memfs.dir +:+ "/case4.json")])).
Proof.
  apply (loadTestCaseFile_json (memfs.options false) "case4" (memfs.csv_case, [])).
  reflexivity.
Defined.

Lemma loadTestCaseFile_unsupported_witness :
  pipeline.loadTestCaseFile (memfs.options false) "case3.csv"
                            (memfs.csv_case, [])
  = (inl (errorsNew "unsupported extension for test case file (ext: .csv)"),
     (memfs.csv_case, [pipeline.EvReadFile (memfs.dir +:+ "/case3.csv")])).
Proof.
  apply (loadTestCaseFile_unsupported (memfs.options false) "case3.csv"
           (memfs.csv_case, [])); discriminate.
Defined.

(** ** The shape of the suite tree of [reportXUnitFormat] *)

Section TreeShape.
Import testrunner.

Lemma get2_type_assign2 (m : formats.cases_by_type) a b v tt p :
  get2_type (formats.assign2 m a b v) tt p
  = if decide (a = tt ∧ b = p) then Some v else get2_type m tt p.
Proof.
  unfold get2_type, formats.assign2. rewrite lookup_total_insert.
  destruct (decide (a = tt)) as [->|Ha].
  - rewrite lookup_insert. destruct (decide (b = p)) as [->|Hb].
    + by rewrite decide_True.
    + rewrite decide_False; [done | by intros (_ & ?)].
  - rewrite decide_False; [done | by intros (? & _)].
Qed.

Lemma get2_type_ensure_type (m : formats.cases_by_type) a tt p :
  m !! a = None → get2_type (<[a := ∅]> m) tt p = get2_type m tt p.
Proof.
  intros Hnone. unfold get2_type. rewrite lookup_total_insert.
  destruct (decide (a = tt)) as [<-|]; [|done].
  by rewrite (lookup_total_alt m a), Hnone.
Qed.

Lemma get2_type_assign2_present (m : formats.cases_by_type) a b v tt p :
  is_Some (get2_type m a b) →
  is_Some (get2_type (formats.assign2 m a b v) tt p)
  ↔ is_Some (get2_type m tt p).
Proof.
  intros Hab. rewrite get2_type_assign2.
  destruct (decide (a = tt ∧ b = p)) as [[<- <-]|]; [|done].
  split; [done | by eexists].
Qed.

(** One step keeps the packages of every test type and adds that of [r]. *)
Lemma add_result_packages (st : formats.counters) (r : TestResult) tt p :
  is_Some (get2_type (formats.tests (formats.add_result st r)) tt p)
  ↔ (TestType r = tt ∧ Package r = p)
    ∨ is_Some (get2_type (formats.tests st) tt p).
Proof.
  unfold formats.add_result.
  set (t0 := formats.tests st).
  set (t1 := match t0 !! TestType r with
             | Some _ => t0 | None => <[TestType r := ∅]> t0 end).
  set (t2 := match (t1 !!! TestType r) !! Package r with
             | Some _ => t1
             | None => formats.assign2 t1 (TestType r) (Package r) ∅ end).
  set (t3 := match ((t2 !!! TestType r) !!! Package r) !! DataStream r with
             | Some _ => t2
             | None => formats.assign3 t2 (TestType r) (Package r)
                                       (DataStream r) [] end).
  assert (H1 : ∀ a b, get2_type t1 a b = get2_type t0 a b).
  { intros a b. subst t1. destruct (t0 !! TestType r) eqn:H0; [done|].
    by apply get2_type_ensure_type. }
  assert (H2 : ∀ a b, is_Some (get2_type t2 a b)
                      ↔ (TestType r = a ∧ Package r = b)
                        ∨ is_Some (get2_type t0 a b)).
  { intros a b. rewrite <- H1. subst t2.
    destruct ((t1 !!! TestType r) !! Package r) as [dm|] eqn:H0.
    - split; [by right|]. intros [[<- <-]|?]; [|done].
      unfold get2_type. rewrite H0. by eexists.
    - rewrite get2_type_assign2.
      destruct (decide (TestType r = a ∧ Package r = b)) as [?|Hne].
      + split; [by left | by eexists].
      + split; [by right | by intros [?|?]]. }
  assert (Hkey : is_Some (get2_type t2 (TestType r) (Package r))).
  { apply H2. by left. }
  assert (H3 : ∀ a b, is_Some (get2_type t3 a b) ↔ is_Some (get2_type t2 a b)).
  { intros a b. subst t3.
    destruct (((t2 !!! TestType r) !!! Package r) !! DataStream r); [done|].
    unfold formats.assign3. by apply get2_type_assign2_present. }
  destruct (if negb (String.eqb (FailureMsg r) "")
            then (FailureMsg r, formats.numFailures st + 1)
            else ("", formats.numFailures st)) as [failure nf].
  simpl. unfold formats.assign3.
  rewrite get2_type_assign2_present by (by apply H3).
  by rewrite H3, H2.
Qed.

Lemma fold_add_result_packages (results : list TestResult)
      (st : formats.counters) tt p :
  is_Some (get2_type (formats.tests (fold_left formats.add_result results st)) tt p)
  ↔ (∃ r, r ∈ results ∧ TestType r = tt ∧ Package r = p)
    ∨ is_Some (get2_type (formats.tests st) tt p).
Proof.
  revert st. induction results as [|r rs IH]; intros st; simpl.
  { split; [by right|]. intros [(r & Hr & _)|?]; [|done].
    by apply elem_of_nil in Hr. }
  rewrite IH, add_result_packages. split.
  - intros [(r' & Hr' & ?)|[?|?]].
    + left. exists r'. split; [by apply list_elem_of_further | done].
    + left. exists r. split; [apply list_elem_of_here | done].
    + by right.
  - intros [(r' & Hr' & ?)|?]; [|by right; right].
    apply elem_of_cons in Hr' as [->|Hr']; [by right; left|].
    left. by exists r'.
Qed.

Lemma add_result_insert (st : formats.counters) (r : TestResult) :
  ∃ pm, formats.tests (formats.add_result st r)
        = <[TestType r := pm]> (formats.tests st).
Proof.
  unfold formats.add_result.
  destruct (if negb (String.eqb (FailureMsg r) "")
            then (FailureMsg r, formats.numFailures st + 1)
            else ("", formats.numFailures st)) as [failure nf].
  simpl. unfold formats.assign3, formats.assign2.
  repeat case_match; rewrite ?insert_insert_eq; by eexists.
Qed.

Lemma fold_add_result_types (results : list TestResult) (st : formats.counters) :
  dom (formats.tests (fold_left formats.add_result results st))
  = list_to_set (TestType <$> results) ∪ dom (formats.tests st).
Proof.
  revert st. induction results as [|r rs IH]; intros st; simpl.
  { by rewrite union_empty_l_L. }
  destruct (add_result_insert st r) as [pm Hpm].
  rewrite IH, Hpm, dom_insert_L. set_solver.
Qed.

Lemma Forall2_impl_elem {A B} (R Q : A → B → Prop) (l : list A) (k : list B) :
  Forall2 R l k → (∀ x y, x ∈ l → R x y → Q x y) → Forall2 Q l k.
Proof.
  induction 1 as [|x y l k HR _ IH]; intros HQ; constructor.
  - apply HQ; [apply list_elem_of_here | done].
  - apply IH. intros x' y' Hx'. apply HQ. by apply list_elem_of_further.
Qed.

Lemma entries_of_range {A} (m : gmap string A) (order : list (string * A)) kv :
  go_range m order → kv ∈ order → m !! kv.1 = Some kv.2.
Proof.
  unfold go_range. intros -> Hin. by apply elem_of_map_to_list'.
Qed.

(** The package suite of an entry of the map of a test type. *)
Lemma xunit_package_suite_of (results : list TestResult) tt pm p dm ps :
  formats.tests (formats.group_results results) !! tt = Some pm →
  pm !! p = Some dm →
  formats.pkgSuite_of (p, dm) ps →
  ∃ dss, dss ≡ₚ streams_of results tt p
         ∧ ps = xunit_package_suite results tt p dss.
Proof.
  intros Htt Hp (order & Horder & ->). simpl in Horder.
  assert (Hget : ∀ d, dm !! d
                 = get3 (formats.tests (formats.group_results results)) tt p d).
  { intros d. unfold get3. rewrite (lookup_total_alt _ tt), Htt. simpl.
    by rewrite (lookup_total_alt pm p), Hp. }
  exists (order.*1). split.
  - apply (keys_distinct dm); [done|]. intros d.
    rewrite Hget, group_results_tests, list_elem_of_fmap. split.
    + destruct (filter (in_group tt p d) results) as [|r l] eqn:Hf;
        [by intros [? ?]|]. intros _.
      assert (Hr : r ∈ filter (in_group tt p d) results)
        by (rewrite Hf; apply list_elem_of_here).
      apply list_elem_of_filter in Hr as [(Hrt & Hrp & Hrd) Hr].
      exists r. split; [done|]. by apply list_elem_of_filter.
    + intros (r & -> & [[Hrt Hrp] Hr]%list_elem_of_filter).
      assert (Hin : r ∈ filter (in_group tt p (DataStream r)) results).
      { apply list_elem_of_filter. by split. }
      destruct (filter (in_group tt p (DataStream r)) results);
        [by apply elem_of_nil in Hin | by eexists].
  - unfold formats.pkgSuite, xunit_package_suite. f_equal. simpl.
    rewrite <- list_fmap_compose. apply Forall_fmap_ext_1, Forall_forall.
    intros [d cs] Hin. apply (entries_of_range _ _ _ Horder) in Hin.
    simpl in Hin. rewrite Hget, group_results_tests in Hin.
    unfold formats.dsSuite, xunit_stream_suite. simpl.
    destruct (filter (in_group tt p d) results); [done|]. by injection Hin as <-.
Qed.

(** The test-type suite of an entry of the map. *)
Lemma xunit_type_suite_of (results : list TestResult) tt pm s :
  formats.tests (formats.group_results results) !! tt = Some pm →
  formats.testTypeSuite_of (formats.group_results results) (tt, pm) s →
  ∃ pkgs psuites,
    pkgs ≡ₚ packages_of results tt
    ∧ s = xunit_type_suite results tt psuites
    ∧ Forall2 (λ p ps, ∃ dss, dss ≡ₚ streams_of results tt p
                              ∧ ps = xunit_package_suite results tt p dss)
              pkgs psuites.
Proof.
  intros Htt (order & suites & Horder & Hsuites & ->). simpl in *.
  assert (Hget : ∀ p, pm !! p
                 = get2_type (formats.tests (formats.group_results results)) tt p).
  { intros p. unfold get2_type. by rewrite (lookup_total_alt _ tt), Htt. }
  exists (order.*1), suites. split; [|split].
  - apply (keys_distinct pm); [done|]. intros p.
    rewrite Hget. unfold formats.group_results.
    rewrite fold_add_result_packages, list_elem_of_fmap. simpl. split.
    + intros [(r & Hr & Hrt & Hrp)|[x Hx]]; [|done].
      exists r. split; [done|]. by apply list_elem_of_filter.
    + intros (r & -> & [Hrt Hr]%list_elem_of_filter). left. by exists r.
  - unfold formats.testTypeSuite, xunit_type_suite.
    by destruct (group_results_counts results) as (-> & -> & ->).
  - apply Forall2_fmap_l.
    apply (Forall2_impl_elem _ _ _ _ Hsuites). intros [p dm] ps Hin Hps.
    apply (entries_of_range _ _ _ Horder) in Hin.
    by apply (xunit_package_suite_of results tt pm p dm).
Qed.

(** The suite tree in terms of the input. *)
Lemma suite_tree_shape (results : list TestResult)
        (ts : formats.testSuites.t) :
  formats.suite_tree results ts →
  ∃ tts,
    tts ≡ₚ types_of results
    ∧ Forall2 (λ tt s,
         ∃ pkgs psuites,
           pkgs ≡ₚ packages_of results tt
           ∧ s = xunit_type_suite results tt psuites
           ∧ Forall2 (λ p ps, ∃ dss, dss ≡ₚ streams_of results tt p
                                     ∧ ps = xunit_package_suite results tt p dss)
                     pkgs psuites)
       tts (formats.testSuites.Suites ts).
Proof.
  intros (order & suites & Horder & Hsuites & ->). simpl.
  exists (order.*1). split.
  - apply (keys_distinct _ _ _ Horder). intros tt.
    rewrite <- elem_of_dom. unfold formats.group_results.
    rewrite fold_add_result_types. simpl.
    by rewrite dom_empty_L, union_empty_r_L, elem_of_list_to_set.
  - apply Forall2_fmap_l.
    apply (Forall2_impl_elem _ _ _ _ Hsuites). intros [tt pm] s Hin Hs.
    apply (entries_of_range _ _ _ Horder) in Hin.
    by apply (xunit_type_suite_of results tt pm).
Qed.


(** C3. Every suite tree of [reportXUnitFormat] has exactly one test-type
    suite per distinct test type of the input, and each of them carries as
    tests, failures and errors the number of all input results, the number
    of those with a non-empty [FailureMsg] and the number of those with a
    non-empty [ErrorMsg]: the totals of the whole input, the same on every
    test-type suite, whatever the results of that test type are. *)
Theorem xunit_counts_are_global (results : list TestResult)
        (ts : formats.testSuites.t) :
  formats.suite_tree results ts →
  ∃ testTypes,
    testTypes ≡ₚ distinct (TestType <$> results)
    ∧ Forall2 (λ testType s,
         formats.testSuite.Name s = testType
         ∧ formats.testSuite.NumTests s = Z.of_nat (length results)
         ∧ formats.testSuite.NumFailures s = count_failures results
         ∧ formats.testSuite.NumErrors s = count_errors results)
       testTypes (formats.testSuites.Suites ts).
Proof.
  intros Htree.
  destruct (suite_tree_shape results ts Htree) as (tts & Htts & Hsuites).
  exists tts. split; [exact Htts|].
  eapply Forall2_impl; [exact Hsuites|].
  intros tt s (pkgs & psuites & _ & -> & _). done.
Qed.

(** X10. Every suite tree of [reportXUnitFormat] has one test-type suite
    per distinct test type of the input, each with one package suite per
    distinct package of that test type, each with one data-stream suite per
    distinct data stream of that package; a data-stream suite holds one case
    per result of its group, in input order.  No suite is missing, doubled
    or empty; only the order of sibling suites is open. *)
Theorem xunit_tree_shape (results : list TestResult)
        (ts : formats.testSuites.t) :
  formats.suite_tree results ts →
  ∃ tts,
    tts ≡ₚ types_of results
    ∧ Forall2 (λ tt s,
         ∃ pkgs psuites,
           pkgs ≡ₚ packages_of results tt
           ∧ s = xunit_type_suite results tt psuites
           ∧ Forall2 (λ p ps, ∃ dss, dss ≡ₚ streams_of results tt p
                                     ∧ ps = xunit_package_suite results tt p dss)
                     pkgs psuites)
       tts (formats.testSuites.Suites ts).
Proof. apply suite_tree_shape. Qed.

End TreeShape.

Lemma xunit_counts_are_global_witness :
  ∃ testTypes,
    testTypes ≡ₚ ["pipeline"; "system"]
    ∧ Forall2 (λ testType s,
         formats.testSuite.Name s = testType
         ∧ formats.testSuite.NumTests s = 4
         ∧ formats.testSuite.NumFailures s = 2
         ∧ formats.testSuite.NumErrors s = 1)
       testTypes
       (formats.testSuites.Suites (formats.suite_tree_listed mixed_types)).
Proof.
  destruct (xunit_counts_are_global mixed_types
              (formats.suite_tree_listed mixed_types)
              (suite_tree_listed_ok mixed_types))
    as (testTypes & Htypes & Hsuites).
  exists testTypes. split; [|exact Hsuites].
  rewrite Htypes.
  change (distinct (testrunner.TestType <$> mixed_types))
    with ["system"; "pipeline"].
  apply perm_swap.
Defined.

(** ** When the XML encoder fails *)

Section Encoder.
Variables prefix indent : string.

Lemma xmlItem_induction (P : xml.xmlItem → Prop) :
  (∀ s, P (xml.XComment s)) →
  (∀ s, P (xml.XText s)) →
  (∀ name attrs items, Forall P items → P (xml.XElement name attrs items)) →
  ∀ it, P it.
Proof.
  intros Hcomment Htext Helement. fix IH 1.
  intros [s|s|name attrs items]; [apply Hcomment | apply Htext |].
  apply Helement. induction items as [|i items IHitems]; constructor.
  - apply IH.
  - apply IHitems.
Qed.

Lemma writeComment_ok (s : string) (p : xml.printer) :
  if strings.Contains s "--"
  then xml.writeComment prefix indent s p = inl comment_error
  else ∃ p', xml.writeComment prefix indent s p = inr p'.
Proof.
  unfold xml.writeComment.
  destruct (String.length s =? 0)%nat eqn:Hlen.
  { destruct s; [|done]. simpl. by eexists. }
  destruct (strings.Contains s "--"); [done|].
  destruct (strings.last_byte s) as [c|]; [|by eexists].
  destruct (Ascii.eqb_spec c "-") as [->|Hc]; [by eexists|].
  eexists. repeat case_match; done.
Qed.

(** The encoder fails exactly on a comment with two dashes in a row, and
    then with [comment_error]. *)
Lemma marshalItem_ok (it : xml.xmlItem) :
  ∀ p, if comments_ok it
       then ∃ p', xml.marshalItem prefix indent it p = inr p'
       else xml.marshalItem prefix indent it p = inl comment_error.
Proof.
  induction it as [s|s|name attrs items IH] using xmlItem_induction; intros p.
  - simpl. pose proof (writeComment_ok s p) as Hc.
    by destruct (strings.Contains s "--").
  - simpl. by eexists.
  - simpl.
    set (marshalItems := fix marshalItems (its : list xml.xmlItem)
                             (p : xml.printer) : error + xml.printer :=
           match its with
           | [] => inr p
           | i :: rest =>
             match xml.marshalItem prefix indent i p with
             | inl e => inl e
             | inr p' => marshalItems rest p'
             end
           end).
    assert (Hitems : ∀ q, if forallb comments_ok items
                          then ∃ q', marshalItems items q = inr q'
                          else marshalItems items q = inl comment_error).
    { clear p. induction IH as [|i items Hi _ IHitems]; intros q; simpl.
      { by eexists. }
      specialize (Hi q). destruct (comments_ok i); simpl.
      - destruct Hi as [q' ->]. apply IHitems.
      - by rewrite Hi. }
    specialize (Hitems (xml.writeStart prefix indent name attrs p)).
    destruct (forallb comments_ok items).
    + destruct Hitems as [q' ->]. by eexists.
    + by rewrite Hitems.
Qed.

Lemma MarshalIndent_ok (it : xml.xmlItem) :
  if comments_ok it
  then ∃ out, xml.MarshalIndent prefix indent it = inr out
  else xml.MarshalIndent prefix indent it = inl comment_error.
Proof.
  unfold xml.MarshalIndent.
  pose proof (marshalItem_ok it (xml.mkPrinter EmptyString 0 false false)) as H.
  destruct (comments_ok it); [destruct H as [p' ->]; by eexists | by rewrite H].
Qed.

End Encoder.

(** ** When [reportXUnitFormat] fails *)

Section ReportFailure.
Import testrunner.

Lemma prefix_dash (x : string) :
  String.prefix "-" x
  = match x with String b _ => Ascii.eqb b "-" | EmptyString => false end.
Proof.
  destruct x as [|b x]; [done|].
  change (String.prefix "-" (String b x))
    with (if ascii_dec "-" b then String.prefix "" x else false).
  destruct (ascii_dec "-" b) as [<-|Hne];
    [rewrite Ascii.eqb_refl; by destruct x|].
  by destruct (Ascii.eqb_spec b "-") as [->|].
Qed.

Lemma prefix_dashes (c : ascii) (x : string) :
  String.prefix "--" (String c x)
  = if Ascii.eqb c "-" then String.prefix "-" x else false.
Proof.
  change (String.prefix "--" (String c x))
    with (if ascii_dec "-" c then String.prefix "-" x else false).
  destruct (ascii_dec "-" c) as [<-|Hne]; [by rewrite Ascii.eqb_refl|].
  by destruct (Ascii.eqb_spec c "-") as [->|].
Qed.

Lemma Contains_cons (c : ascii) (x sub : string) :
  strings.Contains (String c x) sub
  = String.prefix sub (String c x) || strings.Contains x sub.
Proof. done. Qed.

Lemma Contains_after_plain (pre s : string) :
  forallb (λ c, negb (Ascii.eqb c "-")) (list_ascii_of_string pre) = true →
  strings.Contains (pre +:+ s) "--" = strings.Contains s "--".
Proof.
  induction pre as [|c pre IH]; [done|]. intros Hall. simpl in Hall.
  apply andb_true_iff in Hall as [Hc Hpre].
  change (String c pre +:+ s) with (String c (pre +:+ s)).
  rewrite Contains_cons, prefix_dashes, IH by done.
  apply negb_true_iff in Hc. by rewrite Hc.
Qed.

Lemma Contains_before_tests (s : string) :
  strings.Contains (s +:+ " tests") "--" = strings.Contains s "--".
Proof.
  induction s as [|c s IH]; [done|].
  change (String c s +:+ " tests") with (String c (s +:+ " tests")).
  rewrite !Contains_cons, !prefix_dashes, IH, !prefix_dash. f_equal.
  destruct (Ascii.eqb c "-"); [|done]. by destruct s.
Qed.

Lemma testCase_comments_ok (c : formats.testCase.t) :
  comments_ok (formats.xml_of_testCase c) = true.
Proof.
  unfold formats.xml_of_testCase, formats.omitempty_string.
  by repeat case_match.
Qed.

Lemma testCases_comments_ok (cs : list formats.testCase.t) :
  forallb comments_ok (map formats.xml_of_testCase cs) = true.
Proof.
  induction cs as [|c cs IH]; [done|]. cbn [map forallb].
  by rewrite testCase_comments_ok, IH.
Qed.

Lemma forallb_suites_ok (suites : list formats.testSuite.t) :
  forallb comments_ok (map formats.xml_of_testSuite suites) = true
  ↔ Forall suite_ok suites.
Proof.
  induction suites as [|s suites IH]; cbn [map forallb].
  { split; [constructor | done]. }
  rewrite andb_true_iff, IH, Forall_cons. done.
Qed.

Lemma suite_ok_unfold comment name nt nf ne suites cases :
  suite_ok (formats.testSuite.mk comment name nt nf ne suites cases)
  ↔ dash_free comment ∧ Forall suite_ok suites.
Proof.
  unfold suite_ok at 1, dash_free.
  change (negb (strings.Contains comment "--")
          && forallb comments_ok
               (map formats.xml_of_testSuite suites
                ++ map formats.xml_of_testCase cases) = true
          ↔ strings.Contains comment "--" = false ∧ Forall suite_ok suites).
  rewrite forallb_app, testCases_comments_ok, andb_true_r.
  rewrite andb_true_iff, forallb_suites_ok, negb_true_iff. done.
Qed.

Lemma stream_suite_ok (results : list TestResult) tt p d :
  suite_ok (xunit_stream_suite results tt p d) ↔ dash_free d.
Proof.
  unfold xunit_stream_suite. rewrite suite_ok_unfold. unfold dash_free.
  rewrite (Contains_after_plain "test suite for data stream: ") by done.
  split; [by intros [? _] | by split].
Qed.

Lemma package_suite_ok (results : list TestResult) tt p dss :
  suite_ok (xunit_package_suite results tt p dss)
  ↔ dash_free p ∧ Forall dash_free dss.
Proof.
  unfold xunit_package_suite. rewrite suite_ok_unfold. unfold dash_free at 1.
  rewrite (Contains_after_plain "test suite for package: ") by done.
  rewrite Forall_fmap. apply and_iff_compat_l. apply Forall_iff.
  intros d. apply stream_suite_ok.
Qed.

Lemma type_suite_ok (results : list TestResult) tt psuites :
  suite_ok (xunit_type_suite results tt psuites)
  ↔ dash_free tt ∧ Forall suite_ok psuites.
Proof.
  unfold xunit_type_suite. rewrite suite_ok_unfold. unfold dash_free at 1.
  rewrite (Contains_after_plain "test suite for ") by done.
  by rewrite Contains_before_tests.
Qed.

Lemma Forall2_Forall_iff {A B} (R : A → B → Prop) (P : B → Prop) (Q : A → Prop)
      (l : list A) (k : list B) :
  Forall2 R l k → (∀ x y, R x y → (P y ↔ Q x)) → (Forall P k ↔ Forall Q l).
Proof.
  intros HR HPQ. induction HR as [|x y l k Hxy _ IH]; [done|].
  by rewrite !Forall_cons, IH, (HPQ x y Hxy).
Qed.

Lemma elem_of_distinct (l : list string) (x : string) :
  x ∈ distinct l ↔ x ∈ l.
Proof. unfold distinct. by rewrite elem_of_elements, elem_of_list_to_set. Qed.

Lemma Forall_distinct (P : string → Prop) (l l' : list string) :
  l' ≡ₚ distinct l → (Forall P l' ↔ Forall P l).
Proof.
  intros Hperm. rewrite !Forall_forall.
  split; intros H x Hx; apply H.
  - rewrite Hperm. by apply elem_of_distinct.
  - apply elem_of_distinct. by rewrite <- Hperm.
Qed.

Lemma Forall_permuted (P : string → Prop) (l l' : list string) :
  l ≡ₚ l' → (Forall P l ↔ Forall P l').
Proof.
  intros Hperm. rewrite !Forall_forall.
  split; intros H x Hx; apply H; [by rewrite Hperm | by rewrite <- Hperm].
Qed.

Lemma Forall_distinct_self (P : string → Prop) (l : list string) :
  Forall P (distinct l) ↔ Forall P l.
Proof. by apply Forall_distinct. Qed.

Lemma keys_dash_free_iff (results : list TestResult) :
  Forall (λ tt, dash_free tt
                ∧ Forall (λ p, dash_free p
                               ∧ Forall dash_free (streams_of results tt p))
                         (packages_of results tt))
         (types_of results)
  ↔ Forall keys_dash_free results.
Proof.
  unfold types_of, packages_of, streams_of.
  rewrite Forall_distinct_self.
  rewrite Forall_fmap. rewrite !Forall_forall. split.
  - intros H r Hr. destruct (H r Hr) as [Htt Hpk]. simpl in *.
    rewrite Forall_distinct_self in Hpk.
    rewrite Forall_fmap, Forall_forall in Hpk.
    destruct (Hpk r) as [Hp Hds]; [by apply list_elem_of_filter|].
    simpl in *.
    rewrite Forall_distinct_self in Hds.
    rewrite Forall_fmap, Forall_forall in Hds.
    repeat split; [done | done |]. apply (Hds r). by apply list_elem_of_filter.
  - intros H r Hr. simpl. split; [by apply (H r Hr)|].
    rewrite Forall_distinct_self.
    rewrite Forall_fmap, Forall_forall.
    intros r' [Htt' Hr']%list_elem_of_filter. simpl.
    split; [by apply (H r' Hr')|].
    rewrite Forall_distinct_self.
    rewrite Forall_fmap, Forall_forall.
    intros r'' [_ Hr'']%list_elem_of_filter. simpl. by apply (H r'' Hr'').
Qed.

(** The encoder accepts a suite tree exactly when no grouping key of the
    input holds two dashes in a row. *)
Lemma suite_tree_comments (results : list TestResult)
      (ts : formats.testSuites.t) :
  formats.suite_tree results ts →
  comments_ok (formats.xml_of_testSuites ts) = true
  ↔ Forall keys_dash_free results.
Proof.
  intros Htree.
  change (comments_ok (formats.xml_of_testSuites ts))
    with (forallb comments_ok
            (map formats.xml_of_testSuite (formats.testSuites.Suites ts))).
  rewrite forallb_suites_ok, <- keys_dash_free_iff.
  destruct (suite_tree_shape results ts Htree) as (tts & Htts & Hsuites).
  rewrite <- (Forall_permuted _ _ _ Htts).
  apply (Forall2_Forall_iff _ _ _ _ _ Hsuites).
  intros tt s (pkgs & psuites & Hpkgs & -> & Hpsuites).
  rewrite type_suite_ok. apply and_iff_compat_l.
  rewrite <- (Forall_permuted _ _ _ Hpkgs).
  apply (Forall2_Forall_iff _ _ _ _ _ Hpsuites).
  intros p ps (dss & Hdss & ->).
  rewrite package_suite_ok. apply and_iff_compat_l.
  by apply Forall_permuted.
Qed.

(** X11. [reportXUnitFormat] succeeds exactly when no test type, package or
    data stream of the input holds two dashes in a row (each is copied into
    an XML comment).  It then returns the XML header followed by the
    document and no error; otherwise it returns the empty string and the
    encoder's error wrapped, whatever the other results are. *)
Theorem reportXUnitFormat_fails_on_dashes (results : list TestResult)
        (out : string * option error) :
  formats.reportXUnitFormat results out →
  (Forall keys_dash_free results →
   out.2 = None ∧ ∃ document, out.1 = xml.Header +:+ document)
  ∧ (¬ Forall keys_dash_free results → out = format_failure).
Proof.
  intros (ts & Htree & ->). unfold formats.format_tree.
  pose proof (MarshalIndent_ok "" "  " (formats.xml_of_testSuites ts)) as Hm.
  pose proof (suite_tree_comments results ts Htree) as Hok.
  destruct (comments_ok (formats.xml_of_testSuites ts)).
  - destruct Hm as [document ->]. split.
    + intros _. split; [done | by eexists].
    + intros Hne. exfalso. apply Hne, Hok. done.
  - rewrite Hm. split; [|done].
    intros Hall. apply Hok in Hall. done.
Qed.

End ReportFailure.

Lemma xunit_tree_shape_witness :
  ∃ tts,
    tts ≡ₚ types_of two_packages
    ∧ Forall2 (λ tt s,
         ∃ pkgs psuites,
           pkgs ≡ₚ packages_of two_packages tt
           ∧ s = xunit_type_suite two_packages tt psuites
           ∧ Forall2 (λ p ps, ∃ dss, dss ≡ₚ streams_of two_packages tt p
                                     ∧ ps = xunit_package_suite two_packages tt p dss)
                     pkgs psuites)
       tts (formats.testSuites.Suites (formats.suite_tree_listed two_packages)).
Proof.
  apply (xunit_tree_shape two_packages).
  apply suite_tree_listed_ok.
Defined.

Lemma reportXUnitFormat_fails_on_dashes_witness :
  (formats.reportXUnitFormat_listed two_packages).2 = None
  ∧ formats.reportXUnitFormat_listed (two_packages ++ [dashed_package])
    = format_failure.
Proof.
  split.
  - apply (reportXUnitFormat_fails_on_dashes two_packages).
    + eexists. split; [apply suite_tree_listed_ok | reflexivity].
    + apply Forall_cons. split; [by vm_compute|].
      apply Forall_cons. split; [by vm_compute|]. apply Forall_nil_2.
  - apply (reportXUnitFormat_fails_on_dashes (two_packages ++ [dashed_package])).
    + eexists. split; [apply suite_tree_listed_ok | reflexivity].
    + intros Hall. apply Forall_app in Hall. destruct Hall as [_ Hdashed].
      apply Forall_inv in Hdashed.
      destruct Hdashed as (_ & Hpkg & _). vm_compute in Hpkg. discriminate.
Defined.

(** ** What [ReportXUnit] reads and returns *)

Section ReportersEncoding.
Import testrunner.

Lemma reporters_testCase_comments_ok (c : reporters.testCase.t) :
  comments_ok (reporters.xml_of_testCase c) = true.
Proof.
  unfold reporters.xml_of_testCase, reporters.omitempty_string.
  by repeat case_match.
Qed.

Lemma reporters_testCases_comments_ok (cs : list reporters.testCase.t) :
  forallb comments_ok (map reporters.xml_of_testCase cs) = true.
Proof.
  induction cs as [|c cs IH]; [done|]. cbn [map forallb].
  by rewrite reporters_testCase_comments_ok, IH.
Qed.

(** The suites of the earlier reporter have no comment field. *)
Lemma reporters_testSuite_comments_ok (s : reporters.testSuite.t) :
  comments_ok (reporters.xml_of_testSuite s) = true.
Proof.
  revert s. fix IH 1. intros [suites cases].
  change (forallb comments_ok
            (map reporters.xml_of_testSuite suites
             ++ map reporters.xml_of_testCase cases) = true).
  rewrite forallb_app, reporters_testCases_comments_ok, andb_true_r.
  induction suites as [|s suites IHs]; [done|]. cbn [map forallb].
  by rewrite IH, IHs.
Qed.

Lemma reporters_format_tree_ok (ts : reporters.testSuites.t) :
  report_ok (reporters.format_tree ts).
Proof.
  unfold reporters.format_tree.
  assert (Hok : comments_ok (reporters.xml_of_testSuites ts) = true).
  { destruct ts as [suites].
    change (forallb comments_ok (map reporters.xml_of_testSuite suites) = true).
    induction suites as [|s suites IH]; [done|]. cbn [map forallb].
    by rewrite reporters_testSuite_comments_ok, IH. }
  pose proof (MarshalIndent_ok "" "  " (reporters.xml_of_testSuites ts)) as Hm.
  rewrite Hok in Hm. destruct Hm as [document ->]. split; [done | by eexists].
Qed.

Lemma reporters_add_result_fields (st : reporters.grouping) (r r' : TestResult) :
  same_report_fields r r' →
  reporters.add_result st r = reporters.add_result st r'.
Proof.
  intros (Hp & Hd & Hn & Ht & He & Hf).
  unfold reporters.add_result, reporters.case_of.
  by rewrite Hp, Hd, Hn, Ht, He, Hf.
Qed.

Lemma reporters_group_results_fields (results results' : list TestResult) :
  Forall2 same_report_fields results results' →
  reporters.group_results results = reporters.group_results results'.
Proof.
  unfold reporters.group_results. generalize (reporters.mkGrouping ∅ 0).
  intros st H. revert st.
  induction H as [|r r' rs rs' Hr _ IH]; intros st; [done|]. simpl.
  by rewrite (reporters_add_result_fields st r r' Hr).
Qed.

(** X12. [ReportXUnit] never returns an error: whatever the results hold,
    it returns the XML header followed by a document.  (Its suites carry no
    comment, the one thing the encoder can refuse.) *)
Theorem ReportXUnit_never_fails (results : list TestResult)
        (out : string * option error) :
  reporters.ReportXUnit results out → report_ok out.
Proof.
  intros (ts & _ & ->). apply reporters_format_tree_ok.
Qed.

(** X13. [ReportXUnit] reads only the package, the data stream, the name,
    the time and the two messages of a result: two inputs that agree on
    these, result by result, have the same possible reports, whatever their
    test types and failure details are. *)
Theorem ReportXUnit_ignores_test_type (results results' : list TestResult)
        (out : string * option error) :
  Forall2 same_report_fields results results' →
  reporters.ReportXUnit results out ↔ reporters.ReportXUnit results' out.
Proof.
  intros H. unfold reporters.ReportXUnit, reporters.suite_tree.
  by rewrite (reporters_group_results_fields results results' H).
Qed.

End ReportersEncoding.

Lemma ReportXUnit_never_fails_witness :
  report_ok (reporters.ReportXUnit_listed (two_packages ++ [dashed_package])).
Proof.
  apply (ReportXUnit_never_fails (two_packages ++ [dashed_package])).
  eexists. split; [|reflexivity].
  unfold reporters.suite_tree, reporters.suite_tree_listed.
  eexists _, _. split; [by unfold go_range|]. split; [|reflexivity].
  apply Forall2_fmap_r, Forall_Forall2_diag, Forall_forall.
  intros kv _. eexists. split; [by unfold go_range | reflexivity].
Defined.

Lemma ReportXUnit_ignores_test_type_witness :
  reporters.ReportXUnit two_packages
    (reporters.ReportXUnit_listed two_packages_system)
  ↔ reporters.ReportXUnit two_packages_system
      (reporters.ReportXUnit_listed two_packages_system).
Proof.
  apply (ReportXUnit_ignores_test_type two_packages two_packages_system).
  apply Forall2_cons. split; [by vm_compute|].
  apply Forall2_cons. split; [by vm_compute|]. apply Forall2_nil_2.
Defined.

(** ** Reporting the results of a run *)

Section Reporting.
Context {E : pipeline.Env} (options : pipeline.TestOptions E).

Lemma blank_result_keys (n : string) :
  keys_dash_free (blank_result options n)
  ↔ dash_free (pipeline.Package (pipeline.TestFolder_ options))
    ∧ dash_free (pipeline.DataStream (pipeline.TestFolder_ options)).
Proof.
  unfold keys_dash_free, blank_result. simpl. split; [by intros (_ & ? & ?)|].
  intros [? ?]. split; [|done]. by vm_compute.
Qed.

(** X14. The results of a run can always be reported when neither the
    package nor the data stream of the test folder holds two dashes in a
    row; when one of them does, [reportXUnitFormat] fails on them as soon
    as the run returned one result. *)
Theorem Run_results_report (s : pipeline.state E)
        (out : string * option error) :
  let results := (pipeline.Run options s).1.1 in
  let folder := pipeline.TestFolder_ options in
  formats.reportXUnitFormat results out →
  (dash_free (pipeline.Package folder) ∧ dash_free (pipeline.DataStream folder)
   → report_ok out)
  ∧ (results = [] → report_ok out)
  ∧ (results ≠ []
     → ¬ (dash_free (pipeline.Package folder)
          ∧ dash_free (pipeline.DataStream folder))
     → out = format_failure).
Proof.
  intros results folder (ts & Htree & ->).
  pose proof (suite_tree_comments results ts Htree) as Hok.
  assert (Hout : if comments_ok (formats.xml_of_testSuites ts)
                 then report_ok (formats.format_tree ts)
                 else formats.format_tree ts = format_failure).
  { unfold formats.format_tree.
    pose proof (MarshalIndent_ok "" "  " (formats.xml_of_testSuites ts)) as Hm.
    destruct (comments_ok (formats.xml_of_testSuites ts)).
    - destruct Hm as [document ->]. split; [done | by eexists].
    - by rewrite Hm. }
  destruct (run_log options s) as (new & _ & Hres & _).
  assert (Hresults : results = blank_result options <$> simulated new).
  { subst results. unfold pipeline.Run. exact Hres. }
  clearbody results. subst results.
  split; [|split].
  - intros Hclean.
    assert (Hall : Forall keys_dash_free (blank_result options <$> simulated new)).
    { apply Forall_fmap, Forall_true. intros n. by apply blank_result_keys. }
    apply Hok in Hall. by rewrite Hall in Hout.
  - intros Hnil.
    assert (Hall : Forall keys_dash_free (blank_result options <$> simulated new)).
    { rewrite Hnil. constructor. }
    apply Hok in Hall. by rewrite Hall in Hout.
  - intros Hne Hdirty.
    destruct (comments_ok (formats.xml_of_testSuites ts)); [|done].
    exfalso. apply Hdirty.
    destruct (simulated new) as [|n ns]; [done|].
    destruct Hok as [Hok _]. specialize (Hok eq_refl).
    apply Forall_cons in Hok as [Hn _].
    exact (proj1 (blank_result_keys n) Hn).
Qed.

End Reporting.

Lemma Run_results_report_witness :
  let results := (pipeline.Run (memfs.options false) (memfs.two_cases false, [])).1.1 in
  (dash_free "pkg" ∧ dash_free "ds"
   → report_ok (formats.reportXUnitFormat_listed results))
  ∧ (results = [] → report_ok (formats.reportXUnitFormat_listed results))
  ∧ (results ≠ []
     → ¬ (dash_free "pkg" ∧ dash_free "ds")
     → formats.reportXUnitFormat_listed results = format_failure).
Proof.
  apply (Run_results_report (memfs.options false) (memfs.two_cases false, [])).
  eexists. split; [apply suite_tree_listed_ok | reflexivity].
Defined.
